(** * Hermes: a shallow embedding of the realtime gateway and the task queue

    The development follows the TypeScript sources:
    - [services/communication-service.ts]  (policy check, message construction,
      persistence and publish),
    - [services/redis-service.ts]          (sessions, rooms, publish),
    - [services/validation-service.ts]     (service and identity validation),
    - [services/database-service.ts]       (the write of a message),
    - [socket/server.ts]                   (upgrade handler, frame dispatch,
      session initiation),
    - [queue/worker.ts], [services/queue-services.ts] (queue ingress, stream
      consumer),
    - [utils/email-wrapper.ts]             (the e-mail clients).

    Asynchronous functions are embedded in a state-and-exception monad over a
    [World] that holds the coordination store, the document store, the clock
    and the trace of observable effects.  Remote collaborators (the Janus
    gateway, the Janus API, the document store, the task handlers' downstream
    services) are fields of an environment record [Env]: every theorem
    quantifies over them.  The clock moves only where the code waits
    ([setTimeout], the BLOCK option of the stream read); the coordination
    store is reachable and answers as Redis does for the state it is in.
    Two client libraries act before anything leaves the process, and are
    embedded as they act: the Firestore client refuses a document with an
    undefined field, and uWebSockets.js invalidates a request when its
    handler returns. *)

From stdpp Require Import base strings list gmap pretty.
From Stdlib Require Import ZArith Lia.

Local Open Scope string_scope.
Local Open Scope list_scope.
Local Open Scope Z_scope.

(** ** Roles and the communication policy *)

(** ['staff' | 'director' | 'guardian' | 'student'] *)
Inductive Role : Type := staff | director | guardian | student.

Global Instance Role_eq_dec : EqDecision Role.
Proof. solve_decision. Defined.

(** [['staff','director','guardian','student'].includes(userRole)] followed by
    the cast of [userRole] to the role type. *)
Definition role_of_label (s : string) : option Role :=
  if String.eqb s "staff" then Some staff
  else if String.eqb s "director" then Some director
  else if String.eqb s "guardian" then Some guardian
  else if String.eqb s "student" then Some student
  else None.

(** [interface CommunicationPermissions] *)
Record CommunicationPermissions : Type := mkPermissions {
  canMessage : bool;
  allowedRecipients : list string;
  errorMessage : option string
}.

(** [CommunicationService.checkCommunicationPermissions] *)
Definition checkCommunicationPermissions
    (senderId : string) (senderType : Role)
    (recipientId : string) (recipientType : Role) : CommunicationPermissions :=
  if (bool_decide (senderType = director) && bool_decide (recipientType = student))
     || (bool_decide (senderType = student) && bool_decide (recipientType = director))
  then {| canMessage := false;
          allowedRecipients := [];
          errorMessage :=
            Some "Communication between Director and Student is not allowed" |}
  else {| canMessage := true;
          allowedRecipients := [recipientId];
          errorMessage := None |}.

(** The pair (director, student) in either order. *)
Definition director_student_pair (a b : Role) : Prop :=
  (a = director ∧ b = student) ∨ (a = student ∧ b = director).

(** ** JavaScript values the sources rely on *)

(** Truthiness of a string: only the empty string is falsy. *)
Definition truthy (s : string) : bool := negb (String.eqb s "").

(** [o || d] for an optional string [o]: [undefined] and [''] give [d]. *)
Definition or_default (o : option string) (d : string) : string :=
  match o with
  | Some s => if truthy s then s else d
  | None => d
  end.

(** [s.replace(pat, rep)] with a string pattern: the first occurrence only. *)
Fixpoint replace_first (pat rep s : string) : string :=
  if String.prefix pat s
  then rep +:+ String.substring (String.length pat)
                                (String.length s - String.length pat)%nat s
  else match s with
       | EmptyString => EmptyString
       | String c s' => String c (replace_first pat rep s')
       end.

(** A thrown value.  [je_axios] is [axios.isAxiosError(error)], [je_message]
    is [error.message], [je_response_error] is [error.response?.data?.error]. *)
Record JsError : Type := mkError {
  je_axios : bool;
  je_message : string;
  je_response_error : option string
}.

Definition plain_error (msg : string) : JsError :=
  {| je_axios := false; je_message := msg; je_response_error := None |}.

(** Outcome of an asynchronous call: resolved or rejected. *)
Inductive result (A : Type) : Type :=
| Ok (a : A)
| Throw (e : JsError).
Arguments Ok {A} a.
Arguments Throw {A} e.

(** The values [JSON.parse] can produce. *)
#[local] Set Warnings "-register-all".
Inductive json : Type :=
| JNull
| JBool (b : bool)
| JNum (z : Z)
| JStr (s : string)
| JArr (l : list json)
| JObj (fields : list (string * json)).
#[local] Set Warnings "register-all".

(** ** Messages ([models/message.ts]) *)

Inductive MessageType : Type :=
| mt_direct | mt_group | mt_announcement | mt_daily_note | mt_media.

Inductive MessageStatus : Type := st_sent | st_delivered | st_read.

(** [interface IMessage], without [readBy], which no code of the repository
    reads or writes.  An optional field that is absent or [undefined] is
    [None]. *)
Record IMessage : Type := mkMessage {
  m_id : string;
  m_senderId : string;
  m_senderType : Role;
  m_recipientIds : list string;
  m_tenantId : string;
  m_messageType : MessageType;
  m_subject : option string;
  m_content : string;
  m_mediaUrls : option (list string);
  m_status : MessageStatus;
  m_sentAt : Z;
  m_deliveredAt : option Z;
  m_readAt : option Z;
  m_expiresAt : option Z
}.

(** [mediaUrls && mediaUrls.length > 0 ? 'media' : own] *)
Definition messageTypeOf (mediaUrls : option (list string)) (own : MessageType)
  : MessageType :=
  match mediaUrls with
  | Some (_ :: _) => mt_media
  | _ => own
  end.

(** ** The coordination store (Redis)

    A key holds a string, a hash or a set, with an optional expiry instant.
    The store is reachable: a command fails only where Redis itself answers
    with an error for the state it runs in (WRONGTYPE, an invalid expire time,
    BUSYGROUP, NOGROUP). *)

Inductive rvalue : Type :=
| RStr (s : string)
| RHash (h : gmap string string)
| RSet (members : gset string).

Record rentry : Type := mkEntry {
  r_val : rvalue;
  r_expire : option Z
}.

(** The value of a key at instant [now]; an expired key is absent. *)
Definition redis_live (now : Z) (st : gmap string rentry) (k : string)
  : option rvalue :=
  match st !! k with
  | Some e =>
      match r_expire e with
      | Some t => if now <? t then Some (r_val e) else None
      | None => Some (r_val e)
      end
  | None => None
  end.

Definition wrongtype : JsError :=
  plain_error "WRONGTYPE Operation against a key holding the wrong kind of value".

(** One record of the stream [hermes:tasks] as [xAdd] writes it. *)
Record StreamEntry : Type := mkStreamEntry {
  se_id : string;            (* the stream id, [message.id] *)
  se_task_id : string;       (* field [id] *)
  se_service : string;
  se_type : string;
  se_payload : string;
  se_tenantId : string;
  se_timestamp : string
}.

(** The stream with its single consumer group [hermes-group]. *)
Record Stream : Type := mkStream {
  s_entries : list StreamEntry;
  s_group : bool;            (* the group exists *)
  s_delivered : nat;         (* entries handed out so far (cursor of '>') *)
  s_pending : gset string    (* delivered and not acknowledged *)
}.

(** ** Observable effects *)

Inductive LogLevel : Type := lvl_log | lvl_warn | lvl_error.

(** What [upgrade] binds to the connection. *)
Record UserData : Type := mkUserData {
  ud_userId : string;
  ud_userType : option string;
  ud_tenantId : option string;
  ud_sessionId : string;
  ud_token : string
}.

(** Frames sent back to the client with [ws.send]. *)
Inductive OutFrame : Type :=
| message_sent (messageId : option string)
| group_message_sent
| error_frame (message : string).

(** The six handlers of the dispatch table. *)
Inductive TaskKind : Type :=
| email_dispatch | media_processing | service_routing
| notification | announcement | bulk_update.

Inductive Event : Type :=
| EvLog (lvl : LogLevel) (text : string)
| EvPersist (m : IMessage)                     (* a document was added *)
| EvPublish (channel : string) (m : IMessage)  (* redis PUBLISH *)
| EvSend (f : OutFrame)                        (* ws.send *)
| EvGatewayCall (serviceId tenantId : string)  (* POST /auth/validate *)
| EvJanusCall (endpoint : string) (token : string)
| EvHandler (k : TaskKind) (taskId : string)   (* a handler was entered *)
| EvAck (id : string)                          (* XACK *)
| EvClose                                      (* res.close() *)
| EvUpgrade (ud : UserData)                    (* res.upgrade(...) *)
| EvAdd (m : IMessage).                        (* collection('messages').add(m) was called *)

(** ** The world and the monad of asynchronous code *)

Record World : Type := mkWorld {
  w_now : Z;                          (* the clock, in seconds *)
  w_redis : gmap string rentry;
  w_stream : Stream;
  w_messages : list IMessage;         (* the 'messages' collection *)
  w_uuid : nat;                       (* identifiers drawn so far *)
  w_trace : list Event                (* oldest first *)
}.

Definition M (A : Type) : Type := World → result A * World.

Definition ret {A} (a : A) : M A := λ w, (Ok a, w).

Definition bind {A B} (m : M A) (k : A → M B) : M B :=
  λ w, match m w with
       | (Ok a, w') => k a w'
       | (Throw e, w') => (Throw e, w')
       end.

Definition throw {A} (e : JsError) : M A := λ w, (Throw e, w).

(** [try { m } catch (error) { h error }] *)
Definition try_catch {A} (m : M A) (h : JsError → M A) : M A :=
  λ w, match m w with
       | (Ok a, w') => (Ok a, w')
       | (Throw e, w') => h e w'
       end.

Notation "'let*' x := m 'in' k" := (bind m (λ x, k))
  (at level 10, x name, m at level 200, k at level 200,
   format "'[v' 'let*'  x  :=  m  'in' '/' k ']'").

Definition get_world : M World := λ w, (Ok w, w).

Definition with_trace (w : World) (t : list Event) : World :=
  {| w_now := w_now w; w_redis := w_redis w; w_stream := w_stream w;
     w_messages := w_messages w; w_uuid := w_uuid w; w_trace := t |}.

Definition emit (e : Event) : M unit :=
  λ w, (Ok tt, with_trace w (w_trace w ++ [e])).

Definition set_redis (st : gmap string rentry) : M unit :=
  λ w, (Ok tt, {| w_now := w_now w; w_redis := st; w_stream := w_stream w;
                  w_messages := w_messages w; w_uuid := w_uuid w;
                  w_trace := w_trace w |}).

Definition with_stream (w : World) (s : Stream) : World :=
  {| w_now := w_now w; w_redis := w_redis w; w_stream := s;
     w_messages := w_messages w; w_uuid := w_uuid w; w_trace := w_trace w |}.

Definition set_stream (s : Stream) : M unit :=
  λ w, (Ok tt, with_stream w s).

Definition add_document (m : IMessage) : M unit :=
  λ w, (Ok tt, {| w_now := w_now w; w_redis := w_redis w; w_stream := w_stream w;
                  w_messages := w_messages w ++ [m]; w_uuid := w_uuid w;
                  w_trace := w_trace w |}).

(** [setTimeout] and the BLOCK option let [d] seconds pass. *)
Definition sleep (d : Z) : M unit :=
  λ w, (Ok tt, {| w_now := w_now w + d; w_redis := w_redis w;
                  w_stream := w_stream w; w_messages := w_messages w;
                  w_uuid := w_uuid w; w_trace := w_trace w |}).

Definition fresh_counter : M nat :=
  λ w, (Ok (w_uuid w),
        {| w_now := w_now w; w_redis := w_redis w; w_stream := w_stream w;
           w_messages := w_messages w; w_uuid := S (w_uuid w);
           w_trace := w_trace w |}).

Definition console (lvl : LogLevel) (text : string) : M unit :=
  emit (EvLog lvl text).

(** ** Store commands ([redis-service.ts] calls them on the client) *)

Definition redis_get (k : string) : M (option string) :=
  let* w := get_world in
  match redis_live (w_now w) (w_redis w) k with
  | None => ret None
  | Some (RStr s) => ret (Some s)
  | Some _ => throw wrongtype
  end.

(** SETEX: the key holds the string [v] and expires [ttl] seconds from now. *)
Definition redis_setEx (k : string) (ttl : Z) (v : string) : M unit :=
  let* w := get_world in
  if ttl <=? 0 then throw (plain_error "ERR invalid expire time in 'setex' command")
  else set_redis (<[k := {| r_val := RStr v; r_expire := Some (w_now w + ttl) |}]>
                    (w_redis w)).

Definition redis_del (k : string) : M unit :=
  let* w := get_world in
  set_redis (delete k (w_redis w)).

(** HGETALL: the fields of a hash; a missing key gives the empty object. *)
Definition redis_hGetAll (k : string) : M (gmap string string) :=
  let* w := get_world in
  match redis_live (w_now w) (w_redis w) k with
  | None => ret ∅
  | Some (RHash h) => ret h
  | Some _ => throw wrongtype
  end.

(** SMEMBERS: the members of a set, each once; a missing key gives []. *)
Definition redis_sMembers (k : string) : M (list string) :=
  let* w := get_world in
  match redis_live (w_now w) (w_redis w) k with
  | None => ret []
  | Some (RSet s) => ret (elements s)
  | Some _ => throw wrongtype
  end.

(** SADD keeps the expiry the key already has. *)
Definition redis_sAdd (k : string) (member : string) : M unit :=
  let* w := get_world in
  match redis_live (w_now w) (w_redis w) k with
  | None =>
      set_redis (<[k := {| r_val := RSet {[ member ]}; r_expire := None |}]> (w_redis w))
  | Some (RSet s) =>
      set_redis (<[k := {| r_val := RSet ({[ member ]} ∪ s);
                           r_expire := (w_redis w !! k) ≫= r_expire |}]> (w_redis w))
  | Some _ => throw wrongtype
  end.

Definition redis_sRem (k : string) (member : string) : M unit :=
  let* w := get_world in
  match redis_live (w_now w) (w_redis w) k with
  | None => ret tt
  | Some (RSet s) =>
      if bool_decide (s ∖ {[ member ]} = ∅)
      then set_redis (delete k (w_redis w))
      else set_redis (<[k := {| r_val := RSet (s ∖ {[ member ]});
                                r_expire := (w_redis w !! k) ≫= r_expire |}]> (w_redis w))
  | Some _ => throw wrongtype
  end.

(** EXPIRE on a live key; nothing happens on a missing one, and a timeout
    that is not positive deletes the key. *)
Definition redis_expire (k : string) (ttl : Z) : M unit :=
  let* w := get_world in
  match redis_live (w_now w) (w_redis w) k with
  | None => ret tt
  | Some v =>
      if ttl <=? 0 then set_redis (delete k (w_redis w))
      else set_redis (<[k := {| r_val := v; r_expire := Some (w_now w + ttl) |}]>
                        (w_redis w))
  end.

Definition redis_publish (channel : string) (m : IMessage) : M unit :=
  emit (EvPublish channel m).

(** XGROUP CREATE hermes:tasks hermes-group 0 MKSTREAM *)
Definition redis_xGroupCreate : M unit :=
  let* w := get_world in
  if s_group (w_stream w)
  then throw (plain_error "BUSYGROUP Consumer Group name already exists")
  else set_stream {| s_entries := s_entries (w_stream w); s_group := true;
                     s_delivered := 0%nat; s_pending := ∅ |}.

(** XREADGROUP ... '>' COUNT 1 BLOCK 5000: the next record never delivered to
    the group, which becomes pending; no record after five seconds otherwise. *)
Definition redis_xReadGroup : M (list StreamEntry) :=
  let* w := get_world in
  let s := w_stream w in
  if negb (s_group s)
  then throw (plain_error "NOGROUP No such consumer group for key name")
  else match s_entries s !! s_delivered s with
       | Some e =>
           let* _ := set_stream {| s_entries := s_entries s; s_group := s_group s;
                                   s_delivered := S (s_delivered s);
                                   s_pending := {[ se_id e ]} ∪ s_pending s |} in
           ret [e]
       | None => let* _ := sleep 5 in ret []
       end.

(** XACK: the record leaves the pending list. *)
Definition redis_xAck (id : string) : M unit :=
  let* w := get_world in
  let s := w_stream w in
  let* _ := set_stream {| s_entries := s_entries s; s_group := s_group s;
                          s_delivered := s_delivered s;
                          s_pending := s_pending s ∖ {[ id ]} |} in
  emit (EvAck id).

(** ** [services/redis-service.ts] *)

Definition validateSession (sessionId userId : string) : M bool :=
  let* storedUserId := redis_get ("session:" +:+ sessionId) in
  ret (bool_decide (storedUserId = Some userId)).

Definition storeSession (sessionId userId tenantId : string) (expiry : Z) : M unit :=
  let* _ := redis_setEx ("session:" +:+ sessionId) expiry userId in
  let* _ := redis_setEx ("session:tenant:" +:+ sessionId) expiry tenantId in
  redis_setEx ("user:session:" +:+ userId) expiry sessionId.

Definition removeSession (sessionId userId : string) : M unit :=
  let* _ := redis_del ("session:" +:+ sessionId) in
  let* _ := redis_del ("session:tenant:" +:+ sessionId) in
  redis_del ("user:session:" +:+ userId).

Definition getTenantFromSession (sessionId : string) : M (option string) :=
  redis_get ("session:tenant:" +:+ sessionId).

Definition publishToRoom (room : string) (message : IMessage) : M unit :=
  redis_publish room message.

Definition addUserToRoom (userId roomId : string) (expiry : Z) : M unit :=
  let* _ := redis_sAdd ("room:" +:+ roomId) userId in
  let* _ := redis_expire ("room:" +:+ roomId) expiry in
  redis_setEx ("user:room:" +:+ userId) expiry roomId.

Definition removeUserFromRoom (userId roomId : string) : M unit :=
  let* _ := redis_sRem ("room:" +:+ roomId) userId in
  redis_del ("user:room:" +:+ userId).

Definition getUsersInRoom (roomId : string) : M (list string) :=
  redis_sMembers ("room:" +:+ roomId).

(** ** Remote collaborators *)

(** Bodies the Janus services answer with, as far as the sources read them:
    [data.success], [data.error], [data.data.user.{uid,name,email,role}],
    [data.data.tenantId]. *)
Record JanusUser : Type := mkJanusUser {
  ju_uid : option string;
  ju_name : option string;
  ju_email : option string;
  ju_role : option string
}.

Record JanusData : Type := mkJanusData {
  jd_user : option JanusUser;
  jd_tenantId : option string
}.

Record JanusBody : Type := mkJanusBody {
  jb_success : bool;
  jb_error : option string;
  jb_data : option JanusData
}.

(** A resolved axios response: [response.status] and [response.data]. *)
Record AxiosResponse : Type := mkResponse {
  ax_status : Z;
  ax_data : option JanusBody
}.

(** An inbound frame after [JSON.parse] and destructuring. *)
Record Frame : Type := mkFrame {
  f_type : string;
  f_recipientId : string;
  f_content : string;
  f_subject : option string;
  f_mediaUrls : option (list string)
}.

(** [interface WorkerTask]; [t_createdAt] keeps the timestamp text. *)
Record WorkerTask : Type := mkTask {
  t_id : string;
  t_type : string;
  t_payload : json;
  t_tenantId : string;
  t_serviceId : string;
  t_createdAt : option string;
  t_priority : option json
}.

(** Everything outside the process.  Remote answers may depend on the instant
    of the call. *)
Record Env : Type := mkEnv {
  env_uuid : nat → string;                                  (* uuidv7() *)
  env_gateway : string → string → Z → result AxiosResponse; (* POST <gateway>/auth/validate *)
  env_verify : string → Z → result AxiosResponse;           (* POST <janus>/api/v1/auth/verify *)
  env_janus_api : string → option string → Z → result AxiosResponse;
  env_email_issue : string → option string;                 (* valibot: message of the email issue *)
  env_db_add : IMessage → Z → result string;                (* the store's answer to add(document) *)
  env_parse_frame : string → option Frame;                  (* JSON.parse of a frame *)
  env_json_parse : string → option json;                    (* JSON.parse of a payload *)
  env_handler : TaskKind → WorkerTask → Z → option JsError  (* a handler's failure, if any *)
}.

Definition type_error : JsError :=
  plain_error "TypeError: Cannot read properties of undefined".

Definition syntax_error : JsError :=
  plain_error "SyntaxError: Unexpected token in JSON".

(** [s.includes(pat)] *)
Fixpoint includes (pat s : string) : bool :=
  if String.prefix pat s then true
  else match s with
       | EmptyString => false
       | String _ s' => includes pat s'
       end.

(** ** [services/database-service.ts] *)

(** The document [saveMessage] hands to [add] spells out [deliveredAt],
    [readAt] and [expiresAt] whether or not the message has them, so that a
    missing one is a field whose value is [undefined]. *)
Definition has_undefined_field (message : IMessage) : bool :=
  match m_deliveredAt message, m_readAt message, m_expiresAt message with
  | Some _, Some _, Some _ => false
  | _, _, _ => true
  end.

(** What the Firestore client throws for such a document: it validates the
    document before it sends anything, and this file does not set
    [ignoreUndefinedProperties]. *)
Definition invalid_document : JsError :=
  plain_error
    "Value for argument 'data' is not a valid Firestore document. Cannot use 'undefined' as a Firestore value.".

(** [DatabaseService.saveMessage]: [add] is called; the client refuses a
    document with an undefined field, and otherwise the document is added or
    the call rejects. *)
Definition saveMessage (E : Env) (message : IMessage) : M string :=
  let* w := get_world in
  let* _ := emit (EvAdd message) in
  if has_undefined_field message then throw invalid_document
  else
    match env_db_add E message (w_now w) with
    | Ok docId =>
        let* _ := add_document message in
        let* _ := emit (EvPersist message) in
        ret docId
    | Throw e => throw e
    end.

(** ** [services/validation-service.ts] *)

Record ServiceValidationResult : Type := mkServiceValidation {
  sv_isValid : bool;
  sv_error : option string;
  sv_tenantId : option string
}.

Record IdentityValidationResult : Type := mkIdentityValidation {
  iv_isValid : bool;
  iv_error : option string;
  iv_userType : option string;
  iv_tenantId : option string
}.

Definition axios_gateway (E : Env) (serviceId tenantId : string) : M AxiosResponse :=
  let* w := get_world in
  let* _ := emit (EvGatewayCall serviceId tenantId) in
  match env_gateway E serviceId tenantId (w_now w) with
  | Ok r => ret r
  | Throw e => throw e
  end.

Definition service_key (serviceId tenantId : string) : string :=
  "service:" +:+ serviceId +:+ ":" +:+ tenantId.

Definition validateServiceViaGateway (E : Env) (serviceId tenantId : string)
  : M ServiceValidationResult :=
  let* cachedResult := redis_get (service_key serviceId tenantId) in
  if bool_decide (cachedResult = Some "valid") then
    ret {| sv_isValid := true; sv_error := None; sv_tenantId := Some tenantId |}
  else if bool_decide (cachedResult = Some "invalid") then
    ret {| sv_isValid := false; sv_error := Some "Service authentication failed";
           sv_tenantId := None |}
  else
    try_catch
      (let* response := axios_gateway E serviceId tenantId in
       if ax_status response =? 200 then
         let* _ := redis_setEx (service_key serviceId tenantId) 600 "valid" in
         ret {| sv_isValid := true; sv_error := None; sv_tenantId := Some tenantId |}
       else
         let* _ := redis_setEx (service_key serviceId tenantId) 300 "invalid" in
         ret {| sv_isValid := false; sv_error := Some "Service authentication failed";
                sv_tenantId := None |})
      (λ error,
         let* _ := redis_setEx (service_key serviceId tenantId) 300 "invalid" in
         if je_axios error then
           let* _ := console lvl_error
                       ("Janus-Gateway validation error: " +:+ je_message error) in
           ret {| sv_isValid := false; sv_error := Some (je_message error);
                  sv_tenantId := None |}
         else
           let* _ := console lvl_error
                       ("Unexpected error during service validation: "
                        +:+ je_message error) in
           ret {| sv_isValid := false;
                  sv_error := Some "Internal server error during validation";
                  sv_tenantId := None |}).

Definition axios_verify (E : Env) (token : string) : M AxiosResponse :=
  let* w := get_world in
  let* _ := emit (EvJanusCall "/api/v1/auth/verify" token) in
  match env_verify E token (w_now w) with
  | Ok r => ret r
  | Throw e => throw e
  end.

(** Reading a property of [response.data] when the body is missing throws. *)
Definition body_of (response : AxiosResponse) : M JanusBody :=
  match ax_data response with
  | Some b => ret b
  | None => throw type_error
  end.

Definition validateUserIdentity (E : Env) (userId token : string)
  : M IdentityValidationResult :=
  try_catch
    (let* response := axios_verify E token in
     let* data := body_of response in
     if negb (ax_status response =? 200) || negb (jb_success data) then
       ret {| iv_isValid := false;
              iv_error := Some (or_default (jb_error data) "Token validation failed");
              iv_userType := None; iv_tenantId := None |}
     else
       match jb_data data ≫= jd_user with
       | None =>
           ret {| iv_isValid := false;
                  iv_error := Some "Invalid user data from authentication service";
                  iv_userType := None; iv_tenantId := None |}
       | Some userData =>
           match env_email_issue E (or_default (ju_email userData) "") with
           | Some issue =>
               ret {| iv_isValid := false;
                      iv_error := Some ("User data validation failed: " +:+ issue);
                      iv_userType := None; iv_tenantId := None |}
           | None =>
               ret {| iv_isValid := true; iv_error := None;
                      iv_userType := ju_role userData;
                      iv_tenantId := jb_data data ≫= jd_tenantId |}
           end
       end)
    (λ error,
       let* _ := console lvl_error
                   ("Error validating user identity: " +:+ je_message error) in
       if je_axios error then
         ret {| iv_isValid := false;
                iv_error := Some (or_default (je_response_error error) (je_message error));
                iv_userType := None; iv_tenantId := None |}
       else
         ret {| iv_isValid := false; iv_error := Some "Identity validation failed";
                iv_userType := None; iv_tenantId := None |}).

Record ApiResult : Type := mkApiResult {
  api_success : bool;
  api_data : option JanusBody;
  api_error : option string
}.

Definition axios_request (E : Env) (endpoint : string) (token : option string)
  : M AxiosResponse :=
  let* w := get_world in
  let* _ := emit (EvJanusCall endpoint (default "" token)) in
  match env_janus_api E endpoint token (w_now w) with
  | Ok r => ret r
  | Throw e => throw e
  end.

(** [callJanusApi(endpoint, token, 'GET')] *)
Definition callJanusApi (E : Env) (endpoint token : string) : M ApiResult :=
  try_catch
    (let* response :=
       axios_request E endpoint (if truthy token then Some token else None) in
     if (200 <=? ax_status response) && (ax_status response <? 300)
        && from_option jb_success false (ax_data response)
     then ret {| api_success := true; api_data := ax_data response; api_error := None |}
     else ret {| api_success := false; api_data := None;
                 api_error := Some (or_default (ax_data response ≫= jb_error)
                                      ("HTTP " +:+ pretty (ax_status response))) |})
    (λ error,
       let* _ := console lvl_error ("Error calling Janus API: " +:+ endpoint) in
       if je_axios error then
         ret {| api_success := false; api_data := None;
                api_error := Some (or_default (je_response_error error)
                                     (or_default (Some (je_message error))
                                        "API call failed")) |}
       else
         ret {| api_success := false; api_data := None;
                api_error := Some "API call failed" |}).

(** ** [services/communication-service.ts] *)

Record SendResult : Type := mkSendResult {
  success : bool;
  messageId : option string;
  error : option string
}.

Definition uuidv7 (E : Env) : M string :=
  let* n := fresh_counter in
  ret (env_uuid E n).

(** [CommunicationService.sendDirectMessage] *)
Definition sendDirectMessage (E : Env)
    (senderId : string) (senderType : Role)
    (recipientId : string) (recipientType : Role)
    (tenantId subject content : string) (mediaUrls : option (list string))
  : M SendResult :=
  let permissions :=
    checkCommunicationPermissions senderId senderType recipientId recipientType in
  if negb (canMessage permissions) then
    ret {| success := false; messageId := None; error := errorMessage permissions |}
  else
    let* u := uuidv7 E in
    let* w := get_world in
    let message :=
      {| m_id := "msg_" +:+ u;
         m_senderId := senderId;
         m_senderType := senderType;
         m_recipientIds := [recipientId];
         m_tenantId := tenantId;
         m_messageType := messageTypeOf mediaUrls mt_direct;
         m_subject := Some subject;
         m_content := content;
         m_mediaUrls := mediaUrls;
         m_status := st_sent;
         m_sentAt := w_now w;
         m_deliveredAt := None;
         m_readAt := None;
         m_expiresAt := None |} in
    try_catch
      (let* messageId := saveMessage E message in
       let room := "user:" +:+ recipientId in
       let* _ := publishToRoom room message in
       ret {| success := true; messageId := Some messageId; error := None |})
      (λ err,
         let* _ := console lvl_error "Error sending direct message:" in
         ret {| success := false; messageId := None;
                error := Some "Failed to send message" |}).

(** The loop of [CommunicationService.sendAnnouncement]; [messageIds] is the
    array the loop pushes to.  The source has one [try] around the write, the
    push and the publish, with one handler.  It is written here as the write
    under that handler, then the push, then the publish under the same
    handler: the push cannot throw, and a publish that throws leaves the id
    pushed. *)
Fixpoint sendAnnouncement_loop (E : Env)
    (senderId : string) (senderType : Role) (tenantId : string)
    (recipientIds : list string) (subject content : string)
    (mediaUrls : option (list string)) (messageIds : list string)
  : M (list string) :=
  match recipientIds with
  | [] => ret messageIds
  | recipientId :: rest =>
      let permissions :=
        checkCommunicationPermissions senderId senderType recipientId guardian in
      if negb (canMessage permissions) then
        let* _ := console lvl_warn
                    ("Skipping recipient " +:+ recipientId +:+ ": "
                     +:+ default "undefined" (errorMessage permissions)) in
        sendAnnouncement_loop E senderId senderType tenantId rest subject content
          mediaUrls messageIds
      else
        let* u := uuidv7 E in
        let* w := get_world in
        let message :=
          {| m_id := "msg_" +:+ u;
             m_senderId := senderId;
             m_senderType := senderType;
             m_recipientIds := [recipientId];
             m_tenantId := tenantId;
             m_messageType := messageTypeOf mediaUrls mt_announcement;
             m_subject := Some subject;
             m_content := content;
             m_mediaUrls := mediaUrls;
             m_status := st_sent;
             m_sentAt := w_now w;
             m_deliveredAt := None;
             m_readAt := None;
             m_expiresAt := None |} in
        let on_error :=
          console lvl_error
            ("Error sending announcement to " +:+ recipientId +:+ ":") in
        let* saved :=
          try_catch
            (let* messageId := saveMessage E message in
             ret (Some messageId))
            (λ err, let* _ := on_error in ret None) in
        match saved with
        | None =>
            sendAnnouncement_loop E senderId senderType tenantId rest subject
              content mediaUrls messageIds
        | Some messageId =>
            let messageIds := (messageIds ++ [messageId])%list in
            let room := "user:" +:+ recipientId in
            let* _ := try_catch (publishToRoom room message) (λ err, on_error) in
            sendAnnouncement_loop E senderId senderType tenantId rest subject
              content mediaUrls messageIds
        end
  end.

(** [CommunicationService.sendAnnouncement]: [{ success: true, messageIds }] *)
Definition sendAnnouncement (E : Env)
    (senderId : string) (senderType : Role) (tenantId : string)
    (recipientIds : list string) (subject content : string)
    (mediaUrls : option (list string)) : M (bool * list string) :=
  let* messageIds :=
    sendAnnouncement_loop E senderId senderType tenantId recipientIds subject
      content mediaUrls [] in
  ret (true, messageIds).

(** [CommunicationService.sendDailyNote] *)
Definition sendDailyNote (E : Env)
    (senderId : string) (senderType : Role)
    (guardianId studentId tenantId subject content : string)
    (mediaUrls : option (list string)) : M SendResult :=
  if bool_decide (senderType ≠ staff) && bool_decide (senderType ≠ director) then
    ret {| success := false; messageId := None;
           error := Some "Only staffs and directors can send daily notes to guardians" |}
  else
    let* u := uuidv7 E in
    let* w := get_world in
    let message :=
      {| m_id := "msg_" +:+ u;
         m_senderId := senderId;
         m_senderType := senderType;
         m_recipientIds := [guardianId];
         m_tenantId := tenantId;
         m_messageType := messageTypeOf mediaUrls mt_daily_note;
         m_subject := Some subject;
         m_content := content;
         m_mediaUrls := mediaUrls;
         m_status := st_sent;
         m_sentAt := w_now w;
         m_deliveredAt := None;
         m_readAt := None;
         m_expiresAt := None |} in
    try_catch
      (let* messageId := saveMessage E message in
       let room := "user:" +:+ guardianId in
       let* _ := publishToRoom room message in
       ret {| success := true; messageId := Some messageId; error := None |})
      (λ err,
         let* _ := console lvl_error "Error sending daily note:" in
         ret {| success := false; messageId := None;
                error := Some "Failed to send daily note" |}).

(** ** [socket/server.ts] *)

(** The handshake request: [URLSearchParams(query).get('sessionId')] and
    [req.getHeader], as the handler reads them while it runs.  [req_late name]
    is [req.getHeader(name)] read once the handler has returned, which is
    when the callback of [getSessionData(...).then] runs: uWebSockets.js
    keeps the request for the duration of the handler call only, and a read
    after that throws. *)
Record Request : Type := mkRequest {
  req_sessionId : option string;
  req_getHeader : string → string;
  req_late : string → result string
}.

(** What uWebSockets.js throws when a request is read after its handler
    returned. *)
Definition stale_request : JsError :=
  plain_error
    "uWS.HttpRequest must not be accessed after await or route handler return. See AsyncFunction example.".

(** [req.getHeader(name)] inside [.then]. *)
Definition getHeader_late (req : Request) (name : string) : M string :=
  match req_late req name with
  | Ok value => ret value
  | Throw e => throw e
  end.

(** The identity the frame handler reads from the socket
    ([(ws as any).userId] and so on), at the types the callees declare. *)
Record Socket : Type := mkSocket {
  ws_userId : string;
  ws_userType : Role;
  ws_tenantId : string;
  ws_sessionId : string;
  ws_token : string
}.

(** [getSessionData] *)
Definition getSessionData (sessionId : string) : M (option (gmap string string)) :=
  try_catch
    (let sessionKey := "session:" +:+ sessionId in
     let* data := redis_hGetAll sessionKey in
     ret (if from_option truthy false (data !! "userId") then Some data else None))
    (λ err,
       let* _ := console lvl_error "Error getting session data:" in
       ret None).

(** The [upgrade] handler.  The session id and the authorization header are
    read while the handler runs; the three WebSocket headers are read as
    arguments of [res.upgrade], inside [.then]. *)
Definition upgrade (req : Request) : M unit :=
  let sessionId := req_sessionId req in
  let authHeader :=
    if truthy (req_getHeader req "authorization")
    then req_getHeader req "authorization"
    else req_getHeader req "Authorization" in
  let token :=
    if truthy authHeader then Some (replace_first "Bearer " "" authHeader) else None in
  if negb (from_option truthy false sessionId) || negb (from_option truthy false token)
  then emit EvClose
  else
    let sid := default "" sessionId in
    let tok := default "" token in
    try_catch
      (let* session := getSessionData sid in
       match session with
       | None => emit EvClose
       | Some data =>
           let userData :=
             {| ud_userId := default "" (data !! "userId");
                ud_userType := data !! "userType";
                ud_tenantId := data !! "tenantId";
                ud_sessionId := sid;
                ud_token := tok |} in
           let* key := getHeader_late req "sec-websocket-key" in
           let* protocol := getHeader_late req "sec-websocket-protocol" in
           let* extensions := getHeader_late req "sec-websocket-extensions" in
           emit (EvUpgrade userData)
       end)
      (λ err,
         let* _ := console lvl_error "Error during WebSocket upgrade:" in
         emit EvClose).

(** [determineRecipientType] *)
Definition determineRecipientType (E : Env) (recipientId token : string) : M Role :=
  try_catch
    (let* response := callJanusApi E ("/api/v1/users/" +:+ recipientId) token in
     let fallback :=
       let* _ := console lvl_warn
                   ("Could not determine role for user " +:+ recipientId
                    +:+ ", defaulting to 'guardian'") in
       ret guardian in
     if api_success response && from_option jb_success false (api_data response) then
       match (api_data response ≫= jb_data) ≫= jd_user with
       | None => throw type_error
       | Some user =>
           match ju_role user ≫= role_of_label with
           | Some userRole => ret userRole
           | None => fallback
           end
       end
     else fallback)
    (λ err,
       let* _ := console lvl_error
                   ("Error determining recipient type for " +:+ recipientId +:+ ":") in
       ret guardian).

Definition ws_send (f : OutFrame) : M unit := emit (EvSend f).

(** The publishes of the 'group' case: one call per room user other than the
    sender, all started before any is awaited. *)
Fixpoint publish_each (roomUsers : list string) (senderId : string)
    (messageObj : IMessage) : M unit :=
  match roomUsers with
  | [] => ret tt
  | userId :: rest =>
      let* _ :=
        if bool_decide (userId ≠ senderId)
        then publishToRoom ("user:" +:+ userId) messageObj
        else ret tt in
      publish_each rest senderId messageObj
  end.

(** The [message] handler. *)
Definition on_message (E : Env) (ws : Socket) (messageText : string) : M unit :=
  try_catch
    (let* parsedMessage :=
       match env_parse_frame E messageText with
       | Some f => ret f
       | None => throw syntax_error
       end in
     let recipientId := f_recipientId parsedMessage in
     let content := f_content parsedMessage in
     let subject := f_subject parsedMessage in
     let mediaUrls := f_mediaUrls parsedMessage in
     if String.eqb (f_type parsedMessage) "direct" then
       let senderId := ws_userId ws in
       let senderType := ws_userType ws in
       let tenantId := ws_tenantId ws in
       let* recipientType := determineRecipientType E recipientId (ws_token ws) in
       let* result :=
         sendDirectMessage E senderId senderType recipientId recipientType tenantId
           (or_default subject "Direct Message") content mediaUrls in
       if success result then
         ws_send (message_sent (messageId result))
       else
         ws_send (error_frame (or_default (error result) "Failed to send message"))
     else if String.eqb (f_type parsedMessage) "group" then
       let* roomUsers := getUsersInRoom recipientId in
       let senderId := ws_userId ws in
       let senderType := ws_userType ws in
       let tenantId := ws_tenantId ws in
       let* u := uuidv7 E in
       let* w := get_world in
       let messageObj :=
         {| m_id := "msg_" +:+ u;
            m_senderId := senderId;
            m_senderType := senderType;
            m_recipientIds := filter (λ id, id ≠ senderId) roomUsers;
            m_tenantId := tenantId;
            m_messageType := messageTypeOf mediaUrls mt_group;
            m_content := content;
            m_subject := Some (or_default subject "Group Message");
            m_mediaUrls := mediaUrls;
            m_status := st_sent;
            m_sentAt := w_now w;
            m_deliveredAt := None;
            m_readAt := None;
            m_expiresAt := None |} in
       let* _ := publish_each roomUsers senderId messageObj in
       ws_send group_message_sent
     else
       ws_send (error_frame "Unknown message type"))
    (λ err,
       let* _ := console lvl_error "Error handling WebSocket message:" in
       ws_send (error_frame "Error processing message")).

(** ** [services/queue-services.ts] *)

(** The [case] labels of the dispatch [switch]. *)
Definition task_kind_of (type : string) : option TaskKind :=
  if String.eqb type "email_dispatch" then Some email_dispatch
  else if String.eqb type "media_processing" then Some media_processing
  else if String.eqb type "service_routing" then Some service_routing
  else if String.eqb type "notification" then Some notification
  else if String.eqb type "announcement" then Some announcement
  else if String.eqb type "bulk_update" then Some bulk_update
  else None.

(** [handleEmailDispatch], [handleMediaProcessing], ...: the handler is
    entered and returns, or throws what its downstream call threw. *)
Definition run_handler (E : Env) (k : TaskKind) (task : WorkerTask) : M unit :=
  let* w := get_world in
  let* _ := emit (EvHandler k (t_id task)) in
  match env_handler E k task (w_now w) with
  | None => ret tt
  | Some e => throw e
  end.

Definition json_truthy (v : json) : bool :=
  match v with
  | JNull => false
  | JBool b => b
  | JNum z => negb (z =? 0)
  | JStr s => truthy s
  | JArr _ | JObj _ => true
  end.

(** [v || 'normal'] for an optional JSON value. *)
Definition priority_or_normal (v : option json) : json :=
  match v with
  | Some p => if json_truthy p then p else JStr "normal"
  | None => JStr "normal"
  end.

Fixpoint assoc (k : string) (fields : list (string * json)) : option json :=
  match fields with
  | [] => None
  | (k', v) :: rest => if String.eqb k k' then Some v else assoc k rest
  end.

(** [payload.priority]: a property read throws on [null]. *)
Definition payload_priority (payload : json) : M (option json) :=
  match payload with
  | JNull => throw type_error
  | JObj fields => ret (assoc "priority" fields)
  | _ => ret None
  end.

(** The line [handleTask] logs on entry. *)
Definition handling_line (workerTask : WorkerTask) : string :=
  "Handling task " +:+ t_id workerTask +:+ " of type " +:+ t_type workerTask
  +:+ " from service " +:+ t_serviceId workerTask +:+ " for tenant "
  +:+ t_tenantId workerTask.

(** The [try { switch (workerTask.type) ... } catch] of [handleTask]. *)
Definition dispatch (E : Env) (workerTask : WorkerTask) : M unit :=
  try_catch
    (match task_kind_of (t_type workerTask) with
     | Some k => run_handler E k workerTask
     | None => console lvl_warn ("Unknown task type: " +:+ t_type workerTask)
     end)
    (λ error,
       let* _ := console lvl_error
                   ("Error in handleTask for " +:+ t_id workerTask +:+ ":") in
       throw error).

(** [handleTask] of the file that imports the email wrapper. *)
Definition handleTask (E : Env) (task : WorkerTask) : M unit :=
  let workerTask :=
    {| t_id := t_id task;
       t_type := t_type task;
       t_payload := t_payload task;
       t_tenantId := t_tenantId task;
       t_serviceId := t_serviceId task;
       t_createdAt := t_createdAt task;
       t_priority := Some (priority_or_normal (t_priority task)) |} in
  let* _ := console lvl_log (handling_line workerTask) in
  dispatch E workerTask.

(** [handleTask] of the other file: [createdAt] is [task.timestamp], which the
    consumer's task does not carry, and the priority is read from the payload. *)
Definition handleTask_draft (E : Env) (task : WorkerTask) : M unit :=
  let* priority := payload_priority (t_payload task) in
  let workerTask :=
    {| t_id := t_id task;
       t_type := t_type task;
       t_payload := t_payload task;
       t_tenantId := t_tenantId task;
       t_serviceId := t_serviceId task;
       t_createdAt := None;
       t_priority := Some (priority_or_normal priority) |} in
  let* _ := console lvl_log (handling_line workerTask) in
  dispatch E workerTask.

(** ** [queue/worker.ts] *)

Definition json_parse (E : Env) (text : string) : M json :=
  match env_json_parse E text with
  | Some v => ret v
  | None => throw syntax_error
  end.

(** The body of [for (const message of streamData.messages)]; [handle] is the
    imported [handleTask]. *)
Definition process_message (E : Env) (handle : WorkerTask → M unit)
    (message : StreamEntry) : M unit :=
  try_catch
    (let* payload := json_parse E (se_payload message) in
     let parsedTask :=
       {| t_id := se_id message;
          t_serviceId := se_service message;
          t_type := se_type message;
          t_payload := payload;
          t_tenantId := se_tenantId message;
          t_createdAt := Some (se_timestamp message);
          t_priority := None |} in
     let* _ := console lvl_log
                 ("Processing task: " +:+ t_id parsedTask +:+ " from service: "
                  +:+ t_serviceId parsedTask) in
     let* _ := handle parsedTask in
     let* _ := redis_xAck (se_id message) in
     console lvl_log ("Task " +:+ t_id parsedTask +:+ " processed and acknowledged"))
    (λ error,
       console lvl_error ("Error processing task " +:+ se_id message +:+ ":")).

Fixpoint process_messages (E : Env) (handle : WorkerTask → M unit)
    (messages : list StreamEntry) : M unit :=
  match messages with
  | [] => ret tt
  | message :: rest =>
      let* _ := process_message E handle message in
      process_messages E handle rest
  end.

(** One turn of [while (true)]. *)
Definition processQueue_turn (E : Env) (handle : WorkerTask → M unit) : M unit :=
  try_catch
    (let* result := redis_xReadGroup in
     process_messages E handle result)
    (λ error,
       let* _ := console lvl_error "Error reading from Redis Stream:" in
       sleep 1).

Fixpoint processQueue_turns (E : Env) (handle : WorkerTask → M unit) (n : nat)
  : M unit :=
  match n with
  | O => ret tt
  | S n' =>
      let* _ := processQueue_turn E handle in
      processQueue_turns E handle n'
  end.

(** [processQueue], cut after [n] turns of its loop. *)
Definition processQueue (E : Env) (handle : WorkerTask → M unit) (n : nat) : M unit :=
  let* _ :=
    try_catch redis_xGroupCreate
      (λ error,
         if negb (includes "BUSYGROUP" (je_message error))
         then console lvl_error "Error creating consumer group:"
         else ret tt) in
  let* _ := console lvl_log "Starting Redis Stream task processor..." in
  processQueue_turns E handle n.

(** ** Reading a run *)

(** The events a computation appended to the trace. *)
Definition new_events (w w' : World) : list Event :=
  drop (length (w_trace w)) (w_trace w').

Definition is_publish (e : Event) : bool :=
  match e with EvPublish _ _ => true | _ => false end.

Definition is_persist (e : Event) : bool :=
  match e with EvPersist _ => true | _ => false end.

Definition is_gateway_call (e : Event) : bool :=
  match e with EvGatewayCall _ _ => true | _ => false end.

Definition is_ack (id : string) (e : Event) : bool :=
  match e with EvAck id' => String.eqb id id' | _ => false end.

Definition is_upgrade (e : Event) : bool :=
  match e with EvUpgrade _ => true | _ => false end.

(** The task the consumer builds from a record and its decoded payload. *)
Definition parsedTask (message : StreamEntry) (payload : json) : WorkerTask :=
  {| t_id := se_id message;
     t_serviceId := se_service message;
     t_type := se_type message;
     t_payload := payload;
     t_tenantId := se_tenantId message;
     t_createdAt := Some (se_timestamp message);
     t_priority := None |}.

(** How the handler of a record ends when the consumer processes it in world
    [w]: [None] when the payload does not decode and no handler is called. *)
Definition handler_result (E : Env) (handle : WorkerTask → M unit)
    (message : StreamEntry) (w : World) : option (result unit) :=
  match env_json_parse E (se_payload message) with
  | None => None
  | Some payload => Some (fst (handle (parsedTask message payload) w))
  end.

(** The handler was called and returned without error. *)
Definition returned (r : option (result unit)) : bool :=
  match r with
  | Some (Ok _) => true
  | _ => false
  end.

(** The record the next XREADGROUP of the consumer claims. *)
Definition next_record (w : World) : option StreamEntry :=
  if s_group (w_stream w)
  then s_entries (w_stream w) !! s_delivered (w_stream w)
  else None.

Definition is_error_log (e : Event) : bool :=
  match e with EvLog lvl_error _ => true | _ => false end.

(** The channels published to, in order. *)
Definition published_channels (t : list Event) : list string :=
  omap (λ e, match e with EvPublish c _ => Some c | _ => None end) t.

(** The envelopes published, in order. *)
Definition published_messages (t : list Event) : list IMessage :=
  omap (λ e, match e with EvPublish _ m => Some m | _ => None end) t.

(** The current members of a room: the set under [room:<id>], empty when the
    key is absent or expired, undefined when the key holds something else. *)
Definition room_members (w : World) (roomId : string) : option (gset string) :=
  match redis_live (w_now w) (w_redis w) ("room:" +:+ roomId) with
  | None => Some ∅
  | Some (RSet s) => Some s
  | Some _ => None
  end.

(** The envelope the 'group' case builds for the frame [f], drawn in world
    [w] for the room users [roomUsers]. *)
Definition group_envelope (E : Env) (ws : Socket) (f : Frame) (w : World)
    (roomUsers : list string) : IMessage :=
  {| m_id := "msg_" +:+ env_uuid E (w_uuid w);
     m_senderId := ws_userId ws;
     m_senderType := ws_userType ws;
     m_recipientIds := filter (λ id, id ≠ ws_userId ws) roomUsers;
     m_tenantId := ws_tenantId ws;
     m_messageType := messageTypeOf (f_mediaUrls f) mt_group;
     m_content := f_content f;
     m_subject := Some (or_default (f_subject f) "Group Message");
     m_mediaUrls := f_mediaUrls f;
     m_status := st_sent;
     m_sentAt := w_now w;
     m_deliveredAt := None;
     m_readAt := None;
     m_expiresAt := None |}.

Definition with_uuid (w : World) (n : nat) : World :=
  {| w_now := w_now w; w_redis := w_redis w; w_stream := w_stream w;
     w_messages := w_messages w; w_uuid := n; w_trace := w_trace w |}.

(** The messages a run built, in the order in which it handed them over: to
    the document store, whether or not the store takes them, or to a
    channel.  A message handed over several times is listed each time. *)
Definition constructed (t : list Event) : list IMessage :=
  omap (λ e, match e with
             | EvAdd m | EvPublish _ m => Some m
             | _ => None
             end) t.

(** The rule for the recorded type, in the words of the claim: a non-empty
    [mediaUrls] array gives 'media'; an absent or empty one gives the type of
    the send path. *)
Definition records_media_rule (own : MessageType) (mediaUrls : option (list string))
    (msg : IMessage) : Prop :=
  m_mediaUrls msg = mediaUrls
  ∧ ((∃ u us, mediaUrls = Some (u :: us)) → m_messageType msg = mt_media)
  ∧ (mediaUrls = None ∨ mediaUrls = Some [] → m_messageType msg = own).

(** The message the one-recipient send paths build in world [w]; [own] is
    the type of the path. *)
Definition envelope (E : Env) (w : World) (own : MessageType)
    (senderId : string) (senderType : Role) (recipientId tenantId : string)
    (subject content : string) (mediaUrls : option (list string)) : IMessage :=
  {| m_id := "msg_" +:+ env_uuid E (w_uuid w);
     m_senderId := senderId;
     m_senderType := senderType;
     m_recipientIds := [recipientId];
     m_tenantId := tenantId;
     m_messageType := messageTypeOf mediaUrls own;
     m_subject := Some subject;
     m_content := content;
     m_mediaUrls := mediaUrls;
     m_status := st_sent;
     m_sentAt := w_now w;
     m_deliveredAt := None;
     m_readAt := None;
     m_expiresAt := None |}.

(** A run that only appends events satisfying [P]. *)
Definition extends (P : Event → Prop) (w w' : World) : Prop :=
  ∃ evs, w_trace w' = w_trace w ++ evs ∧ Forall P evs.

(** An event carries only messages satisfying [R]. *)
Definition event_rule (R : IMessage → Prop) (e : Event) : Prop :=
  match e with
  | EvAdd m | EvPersist m | EvPublish _ m => R m
  | _ => True
  end.

(** The frame the 'direct' case answers the sender with. *)
Definition direct_reply (result : SendResult) : OutFrame :=
  if success result
  then message_sent (messageId result)
  else error_frame (or_default (error result) "Failed to send message").

(** The type a frame's own path records. *)
Definition frame_own_type (f : Frame) : MessageType :=
  if String.eqb (f_type f) "direct" then mt_direct else mt_group.

(** What the cache holds for a (serviceId, tenantId) pair: a recorded verdict,
    nothing usable, or a key of the wrong kind. *)
Inductive CacheState : Type :=
| Hit (valid : bool)
| Miss
| Broken.

Definition cache_state (w : World) (serviceId tenantId : string) : CacheState :=
  match redis_live (w_now w) (w_redis w) (service_key serviceId tenantId) with
  | None => Miss
  | Some (RStr c) =>
      if String.eqb c "valid" then Hit true
      else if String.eqb c "invalid" then Hit false
      else Miss
  | Some _ => Broken
  end.

Definition valid_result (tenantId : string) : ServiceValidationResult :=
  {| sv_isValid := true; sv_error := None; sv_tenantId := Some tenantId |}.

Definition invalid_result (reason : string) : ServiceValidationResult :=
  {| sv_isValid := false; sv_error := Some reason; sv_tenantId := None |}.

(** The reason reported when the gateway call itself rejects. *)
Definition rejection_reason (e : JsError) : string :=
  if je_axios e then je_message e else "Internal server error during validation".

(** The cache entry written after a gateway call. *)
Definition cache_entry (w : World) (verdict : string) (ttl : Z) : rentry :=
  {| r_val := RStr verdict; r_expire := Some (w_now w + ttl) |}.

(** The gateway call failed: it rejected, or answered with another status
    than 200. *)
Definition gateway_failed (o : result AxiosResponse) : bool :=
  match o with
  | Ok r => negb (ax_status r =? 200)
  | Throw _ => true
  end.

(** The token verification failed: the call rejected, or the answer is not a
    200 with a body whose [success] is set and that carries a user. *)
Definition verify_failed (o : result AxiosResponse) : bool :=
  match o with
  | Ok r =>
      negb (ax_status r =? 200)
      || match ax_data r with
         | None => true
         | Some b =>
             negb (jb_success b)
             || match jb_data b ≫= jd_user with
                | None => true
                | Some _ => false
                end
         end
  | Throw _ => true
  end.

(** The user lookup failed: the call rejected, or the answer is not a 2xx
    with a body whose [success] is set and that carries a user with one of the
    four roles. *)
Definition lookup_failed (o : result AxiosResponse) : bool :=
  match o with
  | Ok r =>
      negb ((200 <=? ax_status r) && (ax_status r <? 300))
      || match ax_data r with
         | None => true
         | Some b =>
             negb (jb_success b)
             || match ((jb_data b ≫= jd_user) ≫= ju_role) ≫= role_of_label with
                | None => true
                | Some _ => false
                end
         end
  | Throw _ => true
  end.

(** The claim of failing closed, read for the recipient lookup: when the
    lookup fails, it does not answer with a role under which the policy lets
    a sender through, that is, with a permissive default. *)
Definition recipient_lookup_fails_closed : Prop :=
  ∀ (E : Env) (recipientId token : string) (w : World) (role : Role)
    (senderId : string) (senderType : Role),
    lookup_failed
      (env_janus_api E ("/api/v1/users/" +:+ recipientId)
         (if truthy token then Some token else None) (w_now w))
    = true →
    fst (determineRecipientType E recipientId token w) = Ok role →
    canMessage (checkCommunicationPermissions senderId senderType recipientId role)
    = false.

(** The claim on unknown task types as the specification words it. *)
Definition unknown_type_left_pending : Prop :=
  ∀ (E : Env) (w : World) (m : StreamEntry),
    next_record w = Some m →
    task_kind_of (se_type m) = None →
    EvAck (se_id m) ∉ new_events w (snd (processQueue_turn E (handleTask E) w)).

(** Events of a lookup: calls to Janus and console output only. *)
Definition lookup_event (e : Event) : bool :=
  match e with
  | EvLog _ _ | EvJanusCall _ _ => true
  | _ => false
  end.

(** The reason the policy gives for a denial. *)
Definition denial_reason : string :=
  "Communication between Director and Student is not allowed".

(** Events of a task handler: console output and the entry into a handler. *)
Definition handler_event (e : Event) : bool :=
  match e with
  | EvLog _ _ | EvHandler _ _ => true
  | _ => false
  end.

(** What the consumer relies on from [handleTask]: it only writes to the
    trace, never acknowledges, and its outcome is decided by the instant of
    the call. *)
Definition handler_frame (handle : WorkerTask → M unit) : Prop :=
  ∀ t w, ∃ evs,
    snd (handle t w) = with_trace w (w_trace w ++ evs)
    ∧ forallb handler_event evs = true
    ∧ ∀ w2, w_now w2 = w_now w → fst (handle t w2) = fst (handle t w).

(** A write to the document store or a publish. *)
Definition delivery_event (e : Event) : bool := is_persist e || is_publish e.

(** ** Scenarios

    Concrete collaborators and worlds on which the statements below are
    exercised. *)

Definition net_error : JsError :=
  {| je_axios := true; je_message := "connect ECONNREFUSED";
     je_response_error := None |}.

(** The Janus answer for a user with the given role. *)
Definition janus_user (role : string) : AxiosResponse :=
  {| ax_status := 200;
     ax_data :=
       Some {| jb_success := true; jb_error := None;
               jb_data :=
                 Some {| jd_user :=
                           Some {| ju_uid := Some "u"; ju_name := Some "User";
                                   ju_email := Some "user@example.org";
                                   ju_role := Some role |};
                         jd_tenantId := Some "t1" |} |} |}.

Definition demo_frames (messageText : string) : option Frame :=
  if String.eqb messageText "direct-to-student" then
    Some {| f_type := "direct"; f_recipientId := "student:9";
            f_content := "hello"; f_subject := None; f_mediaUrls := None |}
  else if String.eqb messageText "direct-to-guardian" then
    Some {| f_type := "direct"; f_recipientId := "guardian:42";
            f_content := "Homework due Friday"; f_subject := None;
            f_mediaUrls := None |}
  else if String.eqb messageText "group-to-r1" then
    Some {| f_type := "group"; f_recipientId := "r1";
            f_content := "hi all"; f_subject := None;
            f_mediaUrls := Some ["https://cdn.example.org/p.png"] |}
  else None.

Definition demo_payloads (text : string) : option json :=
  if String.eqb text "null" then Some JNull
  else if String.eqb text "{}" then Some (JObj [])
  else None.

(** Every collaborator answers. *)
Definition env_up : Env :=
  {| env_uuid := λ _, "0192-0001";
     env_gateway := λ _ _ _, Ok {| ax_status := 200; ax_data := None |};
     env_verify := λ _ _, Ok (janus_user "staff");
     env_janus_api := λ endpoint _ _,
       if String.eqb endpoint "/api/v1/users/student:9"
       then Ok (janus_user "student")
       else Ok (janus_user "guardian");
     env_email_issue := λ _, None;
     env_db_add := λ m _, Ok ("doc_" +:+ m_id m);
     env_parse_frame := demo_frames;
     env_json_parse := demo_payloads;
     env_handler := λ _ _ _, None |}.

(** Janus, the gateway and the handlers' downstream services are unreachable;
    the document store still answers. *)
Definition env_down : Env :=
  {| env_uuid := λ _, "0192-0001";
     env_gateway := λ _ _ _, Throw net_error;
     env_verify := λ _ _, Throw net_error;
     env_janus_api := λ _ _ _, Throw net_error;
     env_email_issue := λ _, None;
     env_db_add := λ m _, Ok ("doc_" +:+ m_id m);
     env_parse_frame := demo_frames;
     env_json_parse := demo_payloads;
     env_handler := λ _ _ _, Some (plain_error "downstream unreachable") |}.

Definition director_socket : Socket :=
  {| ws_userId := "director:1"; ws_userType := director; ws_tenantId := "t1";
     ws_sessionId := "session_1"; ws_token := "tok" |}.

Definition staff_socket : Socket :=
  {| ws_userId := "staff:7"; ws_userType := staff; ws_tenantId := "t1";
     ws_sessionId := "session_2"; ws_token := "tok" |}.

Definition world0 : World :=
  {| w_now := 1000; w_redis := ∅;
     w_stream := {| s_entries := []; s_group := false; s_delivered := 0;
                    s_pending := ∅ |};
     w_messages := []; w_uuid := 0; w_trace := [] |}.

Definition r1_members : gset string :=
  {[ "director:1" ]} ∪ {[ "guardian:42" ]}.

(** The room [r1] holds the director and one guardian. *)
Definition world_room : World :=
  {| w_now := 1000;
     w_redis := {[ "room:r1" := {| r_val := RSet r1_members;
                                   r_expire := Some 4600 |} ]};
     w_stream := w_stream world0;
     w_messages := []; w_uuid := 0; w_trace := [] |}.

(** The room [r1] as above, and staff:7 recorded as being in room [r2]. *)
Definition world_pointer : World :=
  {| w_now := 1000;
     w_redis := <[ "user:room:staff:7" := {| r_val := RStr "r2";
                                            r_expire := Some 4600 |} ]>
                  (w_redis world_room);
     w_stream := w_stream world0;
     w_messages := []; w_uuid := 0; w_trace := [] |}.

Definition demo_record (type payload : string) : StreamEntry :=
  {| se_id := "1700000000000-0"; se_task_id := "task_1"; se_service := "athena";
     se_type := type; se_payload := payload; se_tenantId := "t1";
     se_timestamp := "1700000000000" |}.

(** A stream holding one record that the group has not yet been handed. *)
Definition world_queue (type payload : string) : World :=
  {| w_now := 1000; w_redis := ∅;
     w_stream := {| s_entries := [demo_record type payload]; s_group := true;
                    s_delivered := 0; s_pending := ∅ |};
     w_messages := []; w_uuid := 0; w_trace := [] |}.

(** A session as a hash, which is what the upgrade reads. *)
Definition world_hash_session : World :=
  {| w_now := 1000;
     w_redis :=
       {[ "session:session_9" :=
            {| r_val := RHash (<[ "userId" := "staff:7" ]>
                                 (<[ "userType" := "staff" ]>
                                    {[ "tenantId" := "t1" ]}));
               r_expire := Some 4600 |} ]};
     w_stream := w_stream world0;
     w_messages := []; w_uuid := 0; w_trace := [] |}.

(** A request as uWebSockets.js hands it over: readable while the handler
    runs, stale afterwards. *)
Definition upgrade_request (sessionId : string) : Request :=
  {| req_sessionId := Some sessionId;
     req_getHeader := λ name,
       if String.eqb name "authorization" then "Bearer tok" else "";
     req_late := λ _, Throw stale_request |}.

(** ** Further reading aids *)

Definition with_redis (w : World) (st : gmap string rentry) : World :=
  {| w_now := w_now w; w_redis := st; w_stream := w_stream w;
     w_messages := w_messages w; w_uuid := w_uuid w; w_trace := w_trace w |}.

Definition is_send (e : Event) : bool :=
  match e with EvSend _ => true | _ => false end.

Definition is_janus_call (e : Event) : bool :=
  match e with EvJanusCall _ _ => true | _ => false end.

Definition is_warning (e : Event) : bool :=
  match e with EvLog lvl_warn _ => true | _ => false end.

(** The messages a run wrote to the document store, in order. *)
Definition persisted_messages (t : list Event) : list IMessage :=
  omap (λ e, match e with EvPersist m => Some m | _ => None end) t.

(** ** [CommunicationService.createGroupRoom] *)

(** An element of [participantIds]: [{id, type}]. *)
Record Participant : Type := mkParticipant {
  p_id : string;
  p_type : Role
}.

Record RoomResult : Type := mkRoomResult {
  rr_success : bool;
  rr_roomId : option string;
  rr_error : option string
}.

(** The first loop of [createGroupRoom]: the error of the first participant
    the creator may not message, if any. *)
Fixpoint check_participants (creatorId : string) (creatorType : Role)
    (participantIds : list Participant) : option string :=
  match participantIds with
  | [] => None
  | participant :: rest =>
      let permissions :=
        checkCommunicationPermissions creatorId creatorType
          (p_id participant) (p_type participant) in
      if negb (canMessage permissions) then
        Some ("Creator cannot message participant " +:+ p_id participant +:+ ": "
              +:+ default "undefined" (errorMessage permissions))
      else check_participants creatorId creatorType rest
  end.

(** The second loop: [await addUserToRoom(participant.id, room.id)], with the
    default expiry of 3600 seconds. *)
Fixpoint add_participants (participantIds : list Participant) (roomId : string)
  : M unit :=
  match participantIds with
  | [] => ret tt
  | participant :: rest =>
      let* _ := addUserToRoom (p_id participant) roomId 3600 in
      add_participants rest roomId
  end.

(** [CommunicationService.createGroupRoom].  The [IRoom] object the source
    builds between the two loops is not stored anywhere; of it only the
    identifier [room_<uuid>] is used. *)
Definition createGroupRoom (E : Env)
    (creatorId : string) (creatorType : Role) (tenantId name : string)
    (participantIds : list Participant) : M RoomResult :=
  match check_participants creatorId creatorType participantIds with
  | Some err => ret {| rr_success := false; rr_roomId := None; rr_error := Some err |}
  | None =>
      let* u := uuidv7 E in
      let roomId := "room_" +:+ u in
      try_catch
        (let* _ := add_participants participantIds roomId in
         ret {| rr_success := true; rr_roomId := Some roomId; rr_error := None |})
        (λ err,
           let* _ := console lvl_error "Error creating group room:" in
           ret {| rr_success := false; rr_roomId := None;
                  rr_error := Some "Failed to create group room" |})
  end.

(** Every publish in [t] carries a message that was written earlier in [t]
    or is among [written]. *)
Fixpoint publishes_follow_writes (written : list IMessage) (t : list Event) : Prop :=
  match t with
  | [] => True
  | EvPersist m :: t' => publishes_follow_writes (m :: written) t'
  | EvPublish _ m :: t' => m ∈ written ∧ publishes_follow_writes written t'
  | _ :: t' => publishes_follow_writes written t'
  end.

(** A run that appended [evs] and kept the discipline of the service: what
    it published it had written, in the same order, and the collection grew
    by exactly what it wrote. *)
Definition writes_then_publishes (w w' : World) (evs : list Event) : Prop :=
  w_trace w' = w_trace w ++ evs
  ∧ w_messages w' = w_messages w ++ persisted_messages evs
  ∧ published_messages evs = persisted_messages evs
  ∧ publishes_follow_writes [] evs.

Definition is_close (e : Event) : bool :=
  match e with EvClose => true | _ => false end.

(** The decision of an upgrade: the connection is closed or upgraded. *)
Definition is_decision (e : Event) : bool := is_close e || is_upgrade e.

(** The first of the three reads the upgrade makes after the session lookup
    that throws, if any. *)
Definition late_failure (req : Request) : option JsError :=
  match req_late req "sec-websocket-key" with
  | Throw e => Some e
  | Ok _ =>
      match req_late req "sec-websocket-protocol" with
      | Throw e => Some e
      | Ok _ =>
          match req_late req "sec-websocket-extensions" with
          | Throw e => Some e
          | Ok _ => None
          end
      end
  end.

(** The user and tenant of a verification answer that is a 200 with a body
    whose [success] is set and that carries a user. *)
Definition verified_user (o : result AxiosResponse)
  : option (JanusUser * option string) :=
  match o with
  | Ok r =>
      if ax_status r =? 200 then
        match ax_data r with
        | Some b =>
            if jb_success b then
              match jb_data b with
              | Some d =>
                  match jd_user d with
                  | Some u => Some (u, jd_tenantId d)
                  | None => None
                  end
              | None => None
              end
            else None
        | None => None
        end
      else None
  | Throw _ => None
  end.

(** The role a user lookup reports: a 2xx answer with a body whose [success]
    is set and a user whose role is one of the four labels. *)
Definition janus_role (o : result AxiosResponse) : option Role :=
  match o with
  | Ok r =>
      if (200 <=? ax_status r) && (ax_status r <? 300) then
        match ax_data r with
        | Some b =>
            if jb_success b
            then ((jb_data b ≫= jd_user) ≫= ju_role) ≫= role_of_label
            else None
        | None => None
        end
      else None
  | Throw _ => None
  end.

(** ** The HTTP surfaces ([queue/worker.ts], [socket/server.ts]) *)

(** The JSON bodies the handlers answer with. *)
Inductive ResponseBody : Type :=
| body_error (error : string)
| body_error_new_session (error : string)          (* with [needsNewSession: true] *)
| body_task_queued (taskId : string)
| body_session (sessionId : string) (expiresAt : Z)
| body_history (messages : list IMessage) (count : nat).

Record HttpResponse : Type := mkHttp {
  http_status : Z;
  http_body : ResponseBody
}.

(** What the queue ingress draws from outside: the task id
    [task_<Date.now()>_<random>], the id the store gives the record added
    with ['*'], [Date.now().toString()], and [JSON.stringify]. *)
Record Ingress : Type := mkIngress {
  in_task_id : World → string;
  in_stream_id : World → string;
  in_timestamp : World → string;
  in_stringify : json → string
}.

(** [c.req.header(name)] being truthy. *)
Definition present (h : option string) : bool := from_option truthy false h.

(** [task.<name>] on the parsed body: a property read throws on [null]. *)
Definition body_field (name : string) (task : json) : M (option json) :=
  match task with
  | JNull => throw type_error
  | JObj fields => ret (assoc name fields)
  | _ => ret None
  end.

(** XADD hermes:tasks '*' ...: the record goes to the end of the stream.
    The client accepts only strings as field values. *)
Definition redis_xAdd (I : Ingress) (taskId serviceId : string) (type : json)
    (payload tenantId : string) : M unit :=
  let* w := get_world in
  match type with
  | JStr ty =>
      set_stream
        {| s_entries :=
             s_entries (w_stream w) ++
               [ {| se_id := in_stream_id I w; se_task_id := taskId;
                    se_service := serviceId; se_type := ty;
                    se_payload := payload; se_tenantId := tenantId;
                    se_timestamp := in_timestamp I w |} ];
           s_group := s_group (w_stream w);
           s_delivered := s_delivered (w_stream w);
           s_pending := s_pending (w_stream w) |}
  | _ => throw (plain_error "TypeError: Invalid argument type")
  end.

(** [POST /api/v1/queue/task]; [header] is [c.req.header] and [body] is
    [await c.req.json()], [None] when the body is not JSON. *)
Definition queue_task (E : Env) (I : Ingress) (header : string → option string)
    (body : option json) : M HttpResponse :=
  try_catch
    (let serviceId := header "x-service-id" in
     let tenantId := header "x-tenant-id" in
     if negb (present serviceId) || negb (present tenantId) then
       ret {| http_status := 400;
              http_body :=
                body_error "Missing required headers: x-service-id and x-tenant-id" |}
     else
       let serviceId := default "" serviceId in
       let tenantId := default "" tenantId in
       let* validation := validateServiceViaGateway E serviceId tenantId in
       if negb (sv_isValid validation) then
         let* _ := console lvl_error
                     ("Service validation failed: " +:+ serviceId +:+ " for tenant: "
                      +:+ tenantId) in
         ret {| http_status := 401;
                http_body :=
                  body_error (or_default (sv_error validation)
                                "Service validation failed") |}
       else
         let* task := match body with
                      | Some v => ret v
                      | None => throw syntax_error
                      end in
         let* type := body_field "type" task in
         let* payload := body_field "payload" task in
         if negb (from_option json_truthy false type)
            || negb (from_option json_truthy false payload) then
           ret {| http_status := 400;
                  http_body := body_error "Missing required fields: type and payload" |}
         else
           let* w := get_world in
           let taskId := in_task_id I w in
           let* _ := redis_xAdd I taskId serviceId (default JNull type)
                       (in_stringify I (default JNull payload)) tenantId in
           ret {| http_status := 200; http_body := body_task_queued taskId |})
    (λ error,
       let* _ := console lvl_error "Error queuing task:" in
       ret {| http_status := 500; http_body := body_error "Internal server error" |}).

(** [DatabaseService.saveWebSocketSession]: the write of the session document
    either succeeds or rejects; [fail] gives the rejection, if any. *)
Definition saveWebSocketSession (fail : string → Z → option JsError)
    (sessionId : string) : M unit :=
  let* w := get_world in
  match fail sessionId (w_now w) with
  | Some e => throw e
  | None => ret tt
  end.

(** [POST /api/v1/session/initiate].  [expiresAt] of the answer is the clock
    plus one hour, in the clock's unit. *)
Definition session_initiate (E : Env) (fail : string → Z → option JsError)
    (header : string → option string) : M HttpResponse :=
  try_catch
    (let userId := header "x-user-id" in
     let userType := header "x-user-type" in
     let tenantId := header "x-tenant-id" in
     let token := replace_first "Bearer " "" <$> header "authorization" in
     if negb (present userId) || negb (present userType)
        || negb (present tenantId) || negb (present token) then
       ret {| http_status := 400; http_body := body_error "Missing required headers" |}
     else
       let userId := default "" userId in
       let tenantId := default "" tenantId in
       let token := default "" token in
       let* refusal :=
         try_catch
           (let* validation := validateUserIdentity E userId token in
            if negb (iv_isValid validation) then
              ret (Some {| http_status := 401;
                           http_body :=
                             body_error (or_default (iv_error validation)
                                           "Invalid token") |})
            else ret None)
           (λ validationError,
              let* _ := console lvl_error "User identity validation error:" in
              ret (Some {| http_status := 401;
                           http_body := body_error "Token validation failed" |})) in
       match refusal with
       | Some response => ret response
       | None =>
           let* uuid := uuidv7 E in
           let sessionId := "session_" +:+ uuid in
           let* _ := storeSession sessionId userId tenantId 3600 in
           let* w := get_world in
           let expiresAt := w_now w + 3600 in
           let* _ := saveWebSocketSession fail sessionId in
           ret {| http_status := 200;
                  http_body := body_session sessionId expiresAt |}
       end)
    (λ error,
       let* _ := console lvl_error "Error initiating session:" in
       ret {| http_status := 500; http_body := body_error "Internal server error" |}).


(** ** [utils/email-wrapper.ts] *)

(** [to: string | string[]] *)
Inductive Recipients : Type :=
| to_one (email : string)
| to_many (emails : list string).

Record Attachment : Type := mkAttachment {
  att_name : string;
  att_content : string;
  att_type : option string
}.

Record EmailParams : Type := mkEmailParams {
  ep_to : Recipients;
  ep_subject : string;
  ep_html : string;
  ep_text : option string;
  ep_attachments : option (list Attachment)
}.

Record BrevoAttachment : Type := mkBrevoAttachment {
  ba_name : string;
  ba_content : string;
  ba_contentType : option string
}.

(** The body and the [api-key] header of a POST to [/smtp/email]. *)
Record BrevoRequest : Type := mkBrevoRequest {
  br_api_key : string;
  br_sender_email : string;
  br_to : list string;
  br_subject : string;
  br_htmlContent : string;
  br_textContent : option string;
  br_attachment : option (list BrevoAttachment)
}.

(** [process.env] and the answer of [axios.post]. *)
Record MailEnv : Type := mkMailEnv {
  BREVO_API_KEY : option string;
  BREVO_FROM_EMAIL : option string;
  FROM_EMAIL : option string;
  ZOHO_CLIENT_ID : option string;
  ZOHO_CLIENT_SECRET : option string;
  ZOHO_REFRESH_TOKEN : option string;
  axios_post : BrevoRequest → result json
}.

Inductive MailEffect : Type :=
| MailPost (request : BrevoRequest)
| MailWarn (text : string).

(** A call of the wrapper: how it ends, and what it did on the way. *)
Definition Mail (A : Type) : Type := (result A * list MailEffect)%type.

Definition mail_ret {A} (a : A) : Mail A := (Ok a, []).

Definition mail_throw {A} (message : string) : Mail A :=
  (Throw (plain_error message), []).

Definition mail_bind {A B} (m : Mail A) (k : A → Mail B) : Mail B :=
  match m with
  | (Ok a, done) => let (r, more) := k a in (r, done ++ more)
  | (Throw e, done) => (Throw e, done)
  end.

Definition mail_post (V : MailEnv) (request : BrevoRequest) : Mail json :=
  (axios_post V request, [MailPost request]).

Definition mail_warn (text : string) : Mail unit := (Ok tt, [MailWarn text]).

Definition recipients_of (to : Recipients) : list string :=
  match to with
  | to_one email => [email]
  | to_many emails => emails
  end.

(** [params.attachments && params.attachments.length > 0 && { attachment: ... }] *)
Definition brevo_attachments (attachments : option (list Attachment))
  : option (list BrevoAttachment) :=
  match attachments with
  | Some (_ :: _ as l) =>
      Some (map (λ att,
                   {| ba_name := att_name att; ba_content := att_content att;
                      ba_contentType :=
                        match att_type att with
                        | Some t => if truthy t then Some t else None
                        | None => None
                        end |}) l)
  | _ => None
  end.

Definition BrevoService_send (V : MailEnv) (apiKey : string) (params : EmailParams)
  : Mail json :=
  mail_post V
    {| br_api_key := apiKey;
       br_sender_email := or_default (BREVO_FROM_EMAIL V) "noreply@schoolpilot.com";
       br_to := recipients_of (ep_to params);
       br_subject := ep_subject params;
       br_htmlContent := ep_html params;
       br_textContent := ep_text params;
       br_attachment := brevo_attachments (ep_attachments params) |}.

(** [Set.prototype.add]: a new value goes last, a known one changes nothing. *)
Definition set_add (seen : list string) (email : string) : list string :=
  if bool_decide (email ∈ seen) then seen else seen ++ [email].

Definition allRecipients (paramsList : list EmailParams) : list string :=
  foldl (λ seen params, foldl set_add seen (recipients_of (ep_to params)))
        [] paramsList.

Definition BrevoService_sendBatch (V : MailEnv) (apiKey : string)
    (paramsList : list EmailParams) : Mail (option json) :=
  let recipientsArray := allRecipients paramsList in
  match paramsList with
  | firstParams :: _ =>
      mail_bind
        (mail_post V
           {| br_api_key := apiKey;
              br_sender_email := or_default (FROM_EMAIL V) "noreply@schoolpilot.com";
              br_to := recipientsArray;
              br_subject := ep_subject firstParams;
              br_htmlContent := ep_html firstParams;
              br_textContent := ep_text firstParams;
              br_attachment := brevo_attachments (ep_attachments firstParams) |})
        (λ data, mail_ret (Some data))
  | [] => mail_ret None
  end.

Definition ZohoService_send (params : EmailParams) : Mail json :=
  mail_bind (mail_warn "Zoho email service is not fully implemented yet")
    (λ _, mail_throw "Zoho email service not implemented").

Definition ZohoService_sendBatch (paramsList : list EmailParams) : Mail (option json) :=
  mail_bind (mail_warn "Zoho batch email service is not fully implemented yet")
    (λ _, mail_throw "Zoho batch email service not implemented").

(** [interface EmailService], with its optional [sendBatch]. *)
Record EmailService : Type := mkEmailService {
  svc_send : EmailParams → Mail json;
  svc_sendBatch : option (list EmailParams → Mail (option json))
}.

Definition BrevoService (V : MailEnv) (apiKey : string) : EmailService :=
  {| svc_send := BrevoService_send V apiKey;
     svc_sendBatch := Some (BrevoService_sendBatch V apiKey) |}.

Definition ZohoService : EmailService :=
  {| svc_send := ZohoService_send; svc_sendBatch := Some ZohoService_sendBatch |}.

(** The [switch (client)] that opens both [sendEmail] and [sendBatchEmail]. *)
Definition emailService_for (V : MailEnv) (client : string) : Mail EmailService :=
  if String.eqb client "zoho" then
    if negb (present (ZOHO_CLIENT_ID V)) || negb (present (ZOHO_CLIENT_SECRET V))
       || negb (present (ZOHO_REFRESH_TOKEN V))
    then mail_throw "Zoho credentials (ZOHO_CLIENT_ID, ZOHO_CLIENT_SECRET, ZOHO_REFRESH_TOKEN) are required"
    else mail_ret ZohoService
  else
    if negb (present (BREVO_API_KEY V))
    then mail_throw "BREVO_API_KEY environment variable is required"
    else mail_ret (BrevoService V (default "" (BREVO_API_KEY V))).

Definition sendEmail (V : MailEnv) (params : EmailParams) (client : string)
  : Mail json :=
  mail_bind (emailService_for V client) (λ emailService, svc_send emailService params).

(** What [sendBatchEmail] resolves to: the answer of the one batch call, or
    the answers of the individual calls. *)
Inductive BatchAnswer : Type :=
| batch_answer (data : option json)
| single_answers (results : list json).

Fixpoint send_each (emailService : EmailService) (paramsList : list EmailParams)
  : Mail (list json) :=
  match paramsList with
  | [] => mail_ret []
  | params :: rest =>
      mail_bind (svc_send emailService params) (λ result,
      mail_bind (send_each emailService rest) (λ results,
      mail_ret (result :: results)))
  end.

Definition sendBatchEmail (V : MailEnv) (paramsList : list EmailParams)
    (client : string) : Mail BatchAnswer :=
  mail_bind (emailService_for V client) (λ emailService,
    match svc_sendBatch emailService with
    | Some sendBatch =>
        mail_bind (sendBatch paramsList) (λ data, mail_ret (batch_answer data))
    | None =>
        mail_bind (send_each emailService paramsList) (λ results,
        mail_ret (single_answers results))
    end).

Definition is_post (e : MailEffect) : bool :=
  match e with MailPost _ => true | MailWarn _ => false end.


(** ** Further scenarios *)

(** Every frame parses to a group frame for the room the next UUID names. *)
Definition env_new_room : Env :=
  {| env_uuid := env_uuid env_up;
     env_gateway := env_gateway env_up;
     env_verify := env_verify env_up;
     env_janus_api := env_janus_api env_up;
     env_email_issue := env_email_issue env_up;
     env_db_add := env_db_add env_up;
     env_parse_frame := λ _,
       Some {| f_type := "group"; f_recipientId := "room_0192-0001";
               f_content := "see you at noon"; f_subject := None;
               f_mediaUrls := None |};
     env_json_parse := env_json_parse env_up;
     env_handler := env_handler env_up |}.

Definition class_of_two : list Participant :=
  [ {| p_id := "director:1"; p_type := director |};
    {| p_id := "student:9"; p_type := student |} ].

(** The group has read its only record and never acknowledged it. *)
Definition world_stale : World :=
  {| w_now := 1000; w_redis := ∅;
     w_stream := {| s_entries := [demo_record "email_dispatch" "{}"];
                    s_group := true; s_delivered := 1;
                    s_pending := {[ "1700000000000-0" ]} |};
     w_messages := []; w_uuid := 0; w_trace := [] |}.

(** An empty stream whose group has nothing left to read. *)
Definition world_idle : World :=
  {| w_now := 1000; w_redis := ∅;
     w_stream := {| s_entries := []; s_group := true; s_delivered := 0;
                    s_pending := ∅ |};
     w_messages := []; w_uuid := 0; w_trace := [] |}.

Definition demo_ingress : Ingress :=
  {| in_task_id := λ _, "task_1700000000000_abc";
     in_stream_id := λ _, "1700000000000-0";
     in_timestamp := λ _, "1700000000000";
     in_stringify := λ v, match v with JNull => "null" | _ => "{}" end |}.

Definition athena_headers (name : string) : option string :=
  if String.eqb name "x-service-id" then Some "athena"
  else if String.eqb name "x-tenant-id" then Some "t1"
  else None.

Definition email_task_body : list (string * json) :=
  [ ("type", JStr "email_dispatch"); ("payload", JObj []) ].

Definition mail_env : MailEnv :=
  {| BREVO_API_KEY := Some "xkeysib-1"; BREVO_FROM_EMAIL := None;
     FROM_EMAIL := None; ZOHO_CLIENT_ID := None; ZOHO_CLIENT_SECRET := None;
     ZOHO_REFRESH_TOKEN := None;
     axios_post := λ _, Ok (JObj [("messageId", JStr "m1")]) |}.

Definition report_mail : EmailParams :=
  {| ep_to := to_many ["ada@example.org"; "bob@example.org"];
     ep_subject := "Report for Ada"; ep_html := "<p>Ada did well</p>";
     ep_text := None; ep_attachments := None |}.

Definition reminder_mail : EmailParams :=
  {| ep_to := to_one "bob@example.org";
     ep_subject := "Fees are due"; ep_html := "<p>Please pay</p>";
     ep_text := None; ep_attachments := None |}.


(** ** The task a handler receives *)

(** The task [handleTask] hands to the handler it selects, for the record
    [message] with the decoded [payload]: the consumer's task, which carries
    no priority, with the priority 'normal'. *)
Definition handed_task (message : StreamEntry) (payload : json) : WorkerTask :=
  {| t_id := se_id message;
     t_type := se_type message;
     t_payload := payload;
     t_tenantId := se_tenantId message;
     t_serviceId := se_service message;
     t_createdAt := Some (se_timestamp message);
     t_priority := Some (JStr "normal") |}.

(** The same for the other [handleTask]: no creation date, and the priority
    of the payload when it has one. *)
Definition handed_task_draft (message : StreamEntry) (payload : json) : WorkerTask :=
  {| t_id := se_id message;
     t_type := se_type message;
     t_payload := payload;
     t_tenantId := se_tenantId message;
     t_serviceId := se_service message;
     t_createdAt := None;
     t_priority :=
       Some (priority_or_normal
               match payload with
               | JObj fields => assoc "priority" fields
               | _ => None
               end) |}.

(** The lines the consumer and [handleTask] log for a record. *)
Definition processing_line (message : StreamEntry) : Event :=
  EvLog lvl_log ("Processing task: " +:+ se_id message +:+ " from service: "
                 +:+ se_service message).

Definition handling_event (message : StreamEntry) : Event :=
  EvLog lvl_log ("Handling task " +:+ se_id message +:+ " of type "
                 +:+ se_type message +:+ " from service " +:+ se_service message
                 +:+ " for tenant " +:+ se_tenantId message).

Definition acknowledged_line (message : StreamEntry) : Event :=
  EvLog lvl_log ("Task " +:+ se_id message +:+ " processed and acknowledged").

Definition processing_error (message : StreamEntry) : Event :=
  EvLog lvl_error ("Error processing task " +:+ se_id message +:+ ":").

Definition handleTask_error (message : StreamEntry) : Event :=
  EvLog lvl_error ("Error in handleTask for " +:+ se_id message +:+ ":").

Definition unknown_type_warning (message : StreamEntry) : Event :=
  EvLog lvl_warn ("Unknown task type: " +:+ se_type message).


(** * Theorems *)

(** ** The monad *)

Lemma bind_ok {A B} (m : M A) (k : A → M B) w a w' :
  m w = (Ok a, w') → bind m k w = k a w'.
Proof. intros H. unfold bind. by rewrite H. Qed.

Lemma bind_throw {A B} (m : M A) (k : A → M B) w e w' :
  m w = (Throw e, w') → bind m k w = (Throw e, w').
Proof. intros H. unfold bind. by rewrite H. Qed.

Lemma try_catch_ok {A} (m : M A) h w a w' :
  m w = (Ok a, w') → try_catch m h w = (Ok a, w').
Proof. intros H. unfold try_catch. by rewrite H. Qed.

Lemma try_catch_throw {A} (m : M A) h w e w' :
  m w = (Throw e, w') → try_catch m h w = h e w'.
Proof. intros H. unfold try_catch. by rewrite H. Qed.

Lemma with_trace_id w : with_trace w (w_trace w) = w.
Proof. by destruct w. Qed.

Lemma with_trace_twice w t t' : with_trace (with_trace w t) t' = with_trace w t'.
Proof. reflexivity. Qed.

Lemma w_trace_with_trace w t : w_trace (with_trace w t) = t.
Proof. reflexivity. Qed.

Lemma emit_run e w : emit e w = (Ok tt, with_trace w (w_trace w ++ [e])).
Proof. reflexivity. Qed.

(** Appending to an already extended trace. *)
Lemma emit_after w evs e :
  emit e (with_trace w (w_trace w ++ evs))
  = (Ok tt, with_trace w (w_trace w ++ (evs ++ [e]))).
Proof. unfold emit, with_trace; cbn. by rewrite app_assoc. Qed.

Lemma new_events_with_trace w evs :
  new_events w (with_trace w (w_trace w ++ evs)) = evs.
Proof. unfold new_events. simpl. by rewrite drop_app_length. Qed.

(** No event of a list passing [q] passes [p], when [q] excludes [p]. *)
Lemma filter_excluded (p q : Event → bool) (evs : list Event) :
  (∀ e, q e = true → p e = false) →
  forallb q evs = true →
  filter p evs = [].
Proof.
  intros Hex. induction evs as [|e evs IH]; [done|].
  cbn [forallb]. intros [Hq Hrest]%andb_true_iff.
  rewrite filter_cons. rewrite (Hex e Hq). cbn. auto.
Qed.

(** ** The policy *)

(** C1: over the four role labels the policy check returns allowed, except
    for the pair (director, student) in either order, where it returns denied
    together with a reason that is present and not the empty string. *)
Theorem C1_policy_director_student_only (sid rid : string) (s r : Role) :
  (director_student_pair s r →
   canMessage (checkCommunicationPermissions sid s rid r) = false
   ∧ ∃ reason,
       errorMessage (checkCommunicationPermissions sid s rid r) = Some reason
       ∧ reason ≠ "")
  ∧ (¬ director_student_pair s r →
     canMessage (checkCommunicationPermissions sid s rid r) = true).
Proof.
  unfold director_student_pair. split.
  - intros [[-> ->] | [-> ->]]; (split; [reflexivity|]);
      eexists; (split; [reflexivity | discriminate]).
  - intros Hnot. destruct s, r; try reflexivity; exfalso; apply Hnot; auto.
Qed.

(** ** The recipient lookup *)

(** [callJanusApi] never rejects. *)
Lemma callJanusApi_run E endpoint token w :
  ∃ r evs, callJanusApi E endpoint token w = (Ok r, with_trace w (w_trace w ++ evs))
           ∧ forallb lookup_event evs = true.
Proof.
  cbv [callJanusApi try_catch bind axios_request get_world emit console ret throw].
  destruct (env_janus_api E endpoint (if truthy token then Some token else None)
              (w_now w)) as [r|e].
  - destruct ((200 <=? ax_status r) && (ax_status r <? 300)
              && from_option jb_success false (ax_data r));
      eexists _, [_]; split; reflexivity.
  - destruct (je_axios e); rewrite with_trace_twice; cbn [w_trace with_trace];
      rewrite <- app_assoc; eexists _, [_; _]; split; reflexivity.
Qed.

(** [determineRecipientType] always resolves with a role. *)
Lemma determineRecipientType_run E recipientId token w :
  ∃ rt evs,
    determineRecipientType E recipientId token w
    = (Ok rt, with_trace w (w_trace w ++ evs))
    ∧ forallb lookup_event evs = true.
Proof.
  unfold determineRecipientType.
  destruct (callJanusApi_run E ("/api/v1/users/" +:+ recipientId) token w)
    as (r & evs & Hr & Hq).
  unfold try_catch at 1. unfold bind at 1. rewrite Hr.
  assert (Hfb : ∀ t, forallb lookup_event (evs ++ [EvLog lvl_warn t]) = true).
  { intros t. rewrite forallb_app, Hq. reflexivity. }
  assert (Hfe : ∀ t, forallb lookup_event (evs ++ [EvLog lvl_error t]) = true).
  { intros t. rewrite forallb_app, Hq. reflexivity. }
  destruct (api_success r && _).
  - destruct (_ ≫= jd_user) as [user|].
    + destruct (ju_role user ≫= role_of_label) as [userRole|].
      * eexists _, evs. split; [reflexivity | exact Hq].
      * unfold bind, console, emit, ret; simpl. rewrite <- app_assoc.
        eexists _, _. split; [reflexivity | apply Hfb].
    + unfold throw, bind, console, emit, ret; simpl. rewrite <- app_assoc.
      eexists _, _. split; [reflexivity | apply Hfe].
  - unfold bind, console, emit, ret; simpl. rewrite <- app_assoc.
    eexists _, _. split; [reflexivity | apply Hfb].
Qed.

(** ** Direct messages *)

(** Every denial of the policy check carries the same reason. *)
Lemma denied_reason sid s rid r :
  canMessage (checkCommunicationPermissions sid s rid r) = false →
  errorMessage (checkCommunicationPermissions sid s rid r) = Some denial_reason.
Proof. destruct s, r; cbn; intros; try discriminate; reflexivity. Qed.

(** A denied [sendDirectMessage] touches nothing. *)
Lemma sendDirectMessage_denied E sid s rid r tid subj content media w :
  canMessage (checkCommunicationPermissions sid s rid r) = false →
  sendDirectMessage E sid s rid r tid subj content media w
  = (Ok {| success := false; messageId := None; error := Some denial_reason |}, w).
Proof.
  intros Hd. unfold sendDirectMessage.
  rewrite Hd, (denied_reason _ _ _ _ Hd). reflexivity.
Qed.

(** C2: when the policy check denies the pair of the sender's role and the
    role found for the recipient, a 'direct' frame persists nothing and
    publishes nothing, and the sender is sent the error frame that carries the
    policy's reason, 'Communication between Director and Student is not
    allowed'. *)
Theorem C2_denied_direct_message_not_executed
    (E : Env) (ws : Socket) (messageText : string) (f : Frame) (w w1 : World)
    (recipientType : Role) :
  env_parse_frame E messageText = Some f →
  f_type f = "direct" →
  determineRecipientType E (f_recipientId f) (ws_token ws) w = (Ok recipientType, w1) →
  canMessage (checkCommunicationPermissions (ws_userId ws) (ws_userType ws)
                (f_recipientId f) recipientType) = false →
  let w' := snd (on_message E ws messageText w) in
  fst (on_message E ws messageText w) = Ok tt
  ∧ w_messages w' = w_messages w
  ∧ filter is_persist (new_events w w') = []
  ∧ filter is_publish (new_events w w') = []
  ∧ last (w_trace w') = Some (EvSend (error_frame denial_reason))
  ∧ errorMessage (checkCommunicationPermissions (ws_userId ws) (ws_userType ws)
                    (f_recipientId f) recipientType) = Some denial_reason.
Proof.
  intros Hparse Htype Hrt Hdenied.
  destruct (determineRecipientType_run E (f_recipientId f) (ws_token ws) w)
    as (rt & evs & Hrun & Hquiet).
  rewrite Hrt in Hrun. injection Hrun as -> ->.
  assert (Hrun :
    on_message E ws messageText w
    = (Ok tt, with_trace w (w_trace w ++ evs ++ [EvSend (error_frame denial_reason)]))).
  { unfold on_message. unfold try_catch at 1. unfold bind at 1.
    rewrite Hparse. unfold ret at 1. cbn beta iota. rewrite Htype.
    change ("direct" =? "direct")%string with true. cbn iota.
    unfold bind at 1. rewrite Hrt.
    unfold bind at 1. rewrite (sendDirectMessage_denied _ _ _ _ _ _ _ _ _ _ Hdenied).
    cbn. by rewrite <- app_assoc. }
  rewrite Hrun. cbn [fst snd].
  rewrite new_events_with_trace.
  repeat split.
  - rewrite filter_app, (filter_excluded is_persist lookup_event evs); [done| |done].
    by intros [].
  - rewrite filter_app, (filter_excluded is_publish lookup_event evs); [done| |done].
    by intros [].
  - cbn. by rewrite app_assoc, last_snoc.
  - by apply denied_reason.
Qed.

(** ** Sessions and the upgrade *)

Lemma append_length (a b : string) :
  String.length (a +:+ b) = (String.length a + String.length b)%nat.
Proof. induction a as [|c a IH]; [done|]. change (S (String.length (a +:+ b)) = S (String.length a + String.length b)). by rewrite IH. Qed.

Lemma prefixed_ne (p s : string) : p ≠ "" → p +:+ s ≠ s.
Proof.
  intros Hp Heq. apply (f_equal String.length) in Heq.
  rewrite append_length in Heq. destruct p; [done | cbn in Heq; lia].
Qed.

Lemma session_key_ne_tenant sid : "session:tenant:" +:+ sid ≠ "session:" +:+ sid.
Proof.
  intros Heq. cbn in Heq. simplify_eq.
  by apply (prefixed_ne "tenant:" sid).
Qed.

Lemma session_key_ne_user sid uid : "user:session:" +:+ uid ≠ "session:" +:+ sid.
Proof. cbn. discriminate. Qed.

(** What [storeSession] leaves under the key [session:<id>]: a string. *)
Lemma storeSession_session_key sessionId userId tenantId expiry w w1 :
  storeSession sessionId userId tenantId expiry w = (Ok tt, w1) →
  w_redis w1 !! ("session:" +:+ sessionId)
  = Some {| r_val := RStr userId; r_expire := Some (w_now w + expiry) |}.
Proof.
  unfold storeSession, redis_setEx, bind, get_world, set_redis, throw.
  destruct (expiry <=? 0); [discriminate|].
  cbn [w_now w_redis]. intros [= <-]. cbn [w_redis].
  rewrite lookup_insert_ne by apply session_key_ne_user.
  rewrite lookup_insert_ne by apply session_key_ne_tenant.
  by rewrite lookup_insert_eq.
Qed.

(** [getSessionData] finds a session only in a live hash. *)
Lemma getSessionData_needs_hash sessionId w :
  (∀ h, redis_live (w_now w) (w_redis w) ("session:" +:+ sessionId) ≠ Some (RHash h)) →
  ∃ evs, getSessionData sessionId w = (Ok None, with_trace w (w_trace w ++ evs))
         ∧ forallb lookup_event evs = true.
Proof.
  intros Hno.
  unfold getSessionData, redis_hGetAll, try_catch, bind, get_world.
  destruct (redis_live (w_now w) (w_redis w) ("session:" +:+ sessionId))
    as [[s|h|m]|] eqn:Hlive.
  - exists [EvLog lvl_error "Error getting session data:"]. by split.
  - by destruct (Hno h).
  - exists [EvLog lvl_error "Error getting session data:"]. by split.
  - exists []. cbn. rewrite lookup_empty. cbn. rewrite app_nil_r, with_trace_id. by split.
Qed.

(** Without a live hash under [session:<id>] the upgrade closes the
    connection, whatever the request carries. *)
Lemma upgrade_needs_hash (req : Request) (sid : string) (w : World) :
  req_sessionId req = Some sid →
  (∀ h, redis_live (w_now w) (w_redis w) ("session:" +:+ sid) ≠ Some (RHash h)) →
  fst (upgrade req w) = Ok tt
  ∧ filter is_upgrade (new_events w (snd (upgrade req w))) = []
  ∧ last (w_trace (snd (upgrade req w))) = Some EvClose.
Proof.
  intros Hsid Hno. unfold upgrade. cbv zeta. rewrite Hsid. cbn [from_option default id].
  match goal with |- context [if ?c then emit EvClose else _] => destruct c end.
  - cbn. rewrite new_events_with_trace. by rewrite last_snoc.
  - destruct (getSessionData_needs_hash sid w Hno) as (evs & Hrun & Hq).
    unfold try_catch, bind. rewrite Hrun, emit_after. cbn [fst snd].
    rewrite new_events_with_trace, filter_app, w_trace_with_trace.
    rewrite (filter_excluded is_upgrade lookup_event evs); [|by intros []|done].
    rewrite app_assoc, last_snoc. done.
Qed.

(** C3 (the session-issue path): a session id written by [storeSession] is
    stored as a string, while the upgrade reads it with HGETALL; whenever the
    upgrade runs afterwards, inside or outside the expiry window, it closes
    the connection and binds nothing. *)
Theorem C3_upgrade_after_storeSession_closes
    (sessionId userId tenantId : string) (expiry : Z) (w w1 w2 : World)
    (req : Request) :
  storeSession sessionId userId tenantId expiry w = (Ok tt, w1) →
  w_redis w2 = w_redis w1 →
  req_sessionId req = Some sessionId →
  fst (upgrade req w2) = Ok tt
  ∧ filter is_upgrade (new_events w2 (snd (upgrade req w2))) = []
  ∧ last (w_trace (snd (upgrade req w2))) = Some EvClose.
Proof.
  intros Hstore Hsame Hsid.
  apply (upgrade_needs_hash req sessionId w2 Hsid).
  intros h. unfold redis_live. rewrite Hsame.
  rewrite (storeSession_session_key _ _ _ _ _ _ Hstore). cbn.
  destruct (w_now w2 <? w_now w + expiry); congruence.
Qed.

(** ** The queue consumer *)

Lemma dispatch_frame E t w :
  ∃ evs,
    snd (dispatch E t w) = with_trace w (w_trace w ++ evs)
    ∧ forallb handler_event evs = true
    ∧ ∀ w2, w_now w2 = w_now w → fst (dispatch E t w2) = fst (dispatch E t w).
Proof.
  unfold dispatch, try_catch, run_handler, bind, get_world, console, throw, ret.
  destruct (task_kind_of (t_type t)) as [k|].
  - rewrite !emit_run. cbn [w_now with_trace].
    destruct (env_handler E k t (w_now w)) as [e|] eqn:Hh.
    + exists [EvHandler k (t_id t); EvLog lvl_error ("Error in handleTask for " +:+ t_id t +:+ ":")].
      rewrite (emit_after w [_]). repeat split.
      intros w2 ->. rewrite !emit_run. cbn [w_now with_trace].
      rewrite Hh. by rewrite (emit_after w2 [_]).
    + exists [EvHandler k (t_id t)]. repeat split.
      intros w2 ->. rewrite !emit_run. cbn [w_now with_trace]. by rewrite Hh.
  - rewrite !emit_run. exists [EvLog lvl_warn ("Unknown task type: " +:+ t_type t)].
    repeat split.
Qed.

Lemma handleTask_frame E : handler_frame (handleTask E).
Proof.
  intros t w. unfold handleTask, bind, console. rewrite emit_run.
  set (wt := {| t_id := t_id t; t_type := t_type t; t_payload := t_payload t;
                t_tenantId := t_tenantId t; t_serviceId := t_serviceId t;
                t_createdAt := t_createdAt t;
                t_priority := Some (priority_or_normal (t_priority t)) |}).
  destruct (dispatch_frame E wt
              (with_trace w (w_trace w ++ [EvLog lvl_log (handling_line wt)])))
    as (evs & Hsnd & Hq & Hfst).
  exists (EvLog lvl_log (handling_line wt) :: evs).
  split; [|split].
  - rewrite Hsnd. rewrite w_trace_with_trace, with_trace_twice, <- app_assoc. done.
  - cbn. exact Hq.
  - intros w2 Hnow. rewrite emit_run.
    rewrite (Hfst (with_trace w2 _)); [done|]. exact Hnow.
Qed.

Lemma handleTask_draft_frame E : handler_frame (handleTask_draft E).
Proof.
  intros t w. unfold handleTask_draft, bind at 1.
  destruct (t_payload t) eqn:Hp; cbn [payload_priority throw ret];
    try (exists []; rewrite app_nil_r, with_trace_id; repeat split;
         intros w2 _; reflexivity).
  all: unfold bind, console; rewrite emit_run;
    match goal with
    | |- context [dispatch ?E' ?wt (with_trace ?w' (w_trace ?w' ++ [?l]))] =>
        destruct (dispatch_frame E' wt (with_trace w' (w_trace w' ++ [l])))
          as (evs & Hsnd & Hq & Hfst);
        exists (l :: evs); split; [|split];
        [ rewrite Hsnd, w_trace_with_trace, with_trace_twice, <- app_assoc; done
        | exact Hq
        | intros w2 Hnow; cbn [payload_priority ret]; rewrite emit_run;
          rewrite (Hfst (with_trace w2 _)); [done | exact Hnow] ]
    end.
Qed.

(** One record through the body of the consumer's loop. *)
Lemma process_message_spec E handle (Hf : handler_frame handle) m w :
  ∃ evs,
    process_message E handle m w
    = (Ok tt,
       with_trace
         (if returned (handler_result E handle m w)
          then with_stream w
                 {| s_entries := s_entries (w_stream w);
                    s_group := s_group (w_stream w);
                    s_delivered := s_delivered (w_stream w);
                    s_pending := s_pending (w_stream w) ∖ {[ se_id m ]} |}
          else w)
         (w_trace w ++ evs))
    ∧ (if returned (handler_result E handle m w)
       then EvAck (se_id m) ∈ evs
       else filter (is_ack (se_id m)) evs = []
            ∧ last evs
              = Some (EvLog lvl_error ("Error processing task " +:+ se_id m +:+ ":"))).
Proof.
  unfold process_message, handler_result, json_parse.
  unfold try_catch at 1. unfold bind at 1.
  destruct (env_json_parse E (se_payload m)) as [payload|].
  2:{ cbn [returned]. exists [EvLog lvl_error ("Error processing task " +:+ se_id m +:+ ":")].
      split; [reflexivity | by split]. }
  unfold ret at 1. cbv zeta. fold (parsedTask m payload).
  unfold bind at 1, console at 1. rewrite emit_run.
  set (l0 := EvLog lvl_log _).
  destruct (Hf (parsedTask m payload) (with_trace w (w_trace w ++ [l0])))
    as (evs & Hsnd & Hq & Hfst).
  specialize (Hfst w eq_refl).
  unfold bind at 1.
  destruct (handle (parsedTask m payload) (with_trace w (w_trace w ++ [l0])))
    as [r w1] eqn:Hrun.
  cbn [fst snd] in Hsnd, Hfst. subst w1. rewrite Hfst.
  rewrite w_trace_with_trace, with_trace_twice, <- app_assoc in *.
  assert (Hnoack : filter (is_ack (se_id m)) (l0 :: evs) = []).
  { apply (filter_excluded _ handler_event); [by intros [] | exact Hq]. }
  destruct r as [[]|e].
  - cbn [returned].
    exists ((l0 :: evs) ++ [EvAck (se_id m);
              EvLog lvl_log ("Task " +:+ se_id m +:+ " processed and acknowledged")])%list.
    split.
    + unfold bind, redis_xAck, bind, get_world, set_stream, console, emit.
      cbn. by rewrite <- !app_assoc.
    + set_solver.
  - cbn [returned].
    exists ((l0 :: evs) ++ [EvLog lvl_error ("Error processing task " +:+ se_id m +:+ ":")])%list.
    split; [|split].
    + unfold console, emit. cbn. by rewrite <- !app_assoc.
    + rewrite filter_app, Hnoack. done.
    + by rewrite last_snoc.
Qed.

Lemma handler_result_now E handle (Hf : handler_frame handle) m w w2 :
  w_now w2 = w_now w →
  handler_result E handle m w2 = handler_result E handle m w.
Proof.
  intros Hnow. unfold handler_result.
  destruct (env_json_parse E (se_payload m)) as [payload|]; [|done].
  destruct (Hf (parsedTask m payload) w) as (_ & _ & _ & Hfst).
  by rewrite (Hfst w2 Hnow).
Qed.

Lemma not_acked_not_in id (evs : list Event) :
  filter (is_ack id) evs = [] → EvAck id ∉ evs.
Proof.
  intros Hnil Hin.
  assert (H : EvAck id ∈ filter (is_ack id) evs).
  { apply list_elem_of_filter. split; [|done]. cbn. by rewrite String.eqb_refl. }
  rewrite Hnil in H. by apply not_elem_of_nil in H.
Qed.

(** One turn of the consumer's loop that claims the record [m]. *)
Lemma processQueue_turn_spec E handle (Hf : handler_frame handle) m w :
  next_record w = Some m →
  let w' := snd (processQueue_turn E handle w) in
  let evs := new_events w w' in
  let r := handler_result E handle m w in
  fst (processQueue_turn E handle w) = Ok tt
  ∧ (EvAck (se_id m) ∈ evs ↔ returned r = true)
  ∧ (if returned r
     then se_id m ∉ s_pending (w_stream w')
     else se_id m ∈ s_pending (w_stream w')
          ∧ last evs
            = Some (EvLog lvl_error ("Error processing task " +:+ se_id m +:+ ":"))).
Proof.
  unfold next_record. intros Hnext.
  destruct (s_group (w_stream w)) eqn:Hgroup; [|done].
  set (s1 := {| s_entries := s_entries (w_stream w); s_group := true;
                s_delivered := S (s_delivered (w_stream w));
                s_pending := {[ se_id m ]} ∪ s_pending (w_stream w) |}).
  assert (Hread : redis_xReadGroup w = (Ok [m], with_stream w s1)).
  { unfold redis_xReadGroup, bind, get_world. rewrite Hgroup. cbn [negb].
    rewrite Hnext. reflexivity. }
  destruct (process_message_spec E handle Hf m (with_stream w s1))
    as (evs & Hrun & Hevs).
  rewrite (handler_result_now E handle Hf m w (with_stream w s1) eq_refl) in Hrun, Hevs.
  assert (Hturn : processQueue_turn E handle w
    = (Ok tt,
       with_trace
         (if returned (handler_result E handle m w)
          then with_stream w
                 {| s_entries := s_entries s1; s_group := s_group s1;
                    s_delivered := s_delivered s1;
                    s_pending := s_pending s1 ∖ {[ se_id m ]} |}
          else with_stream w s1)
         (w_trace w ++ evs))).
  { unfold processQueue_turn, try_catch. unfold bind at 1. rewrite Hread.
    cbn [process_messages]. unfold bind at 1. rewrite Hrun.
    unfold ret. by destruct (returned _). }
  cbv zeta. rewrite Hturn. cbn [fst snd].
  assert (Hnew : ∀ w0, w_trace w0 = w_trace w →
            new_events w (with_trace w0 (w_trace w ++ evs)) = evs).
  { intros w0 _. unfold new_events. rewrite w_trace_with_trace.
    by rewrite drop_app_length. }
  rewrite Hnew by (by destruct (returned _)).
  destruct (returned (handler_result E handle m w)).
  - split; [done|]. split; [done|]. cbn.
    intros [_ Hn]%elem_of_difference. apply Hn. by apply elem_of_singleton.
  - destruct Hevs as [Hnoack Hlast]. split; [done|]. split.
    + split; [|done]. intros Hin. destruct (not_acked_not_in _ _ Hnoack Hin).
    + split; [cbn; set_solver | exact Hlast].
Qed.

(** [dispatch], case by case: the handler selected by the type is entered;
    what it throws is logged and thrown again; a type without handler is
    logged as a warning. *)
Lemma dispatch_run E wt w :
  dispatch E wt w
  = match task_kind_of (t_type wt) with
    | Some k =>
        match env_handler E k wt (w_now w) with
        | None => (Ok tt, with_trace w (w_trace w ++ [EvHandler k (t_id wt)]))
        | Some e =>
            (Throw e,
             with_trace w
               (w_trace w ++
                  [EvHandler k (t_id wt);
                   EvLog lvl_error ("Error in handleTask for " +:+ t_id wt +:+ ":")]))
        end
    | None =>
        (Ok tt,
         with_trace w
           (w_trace w ++ [EvLog lvl_warn ("Unknown task type: " +:+ t_type wt)]))
    end.
Proof.
  unfold dispatch, try_catch, run_handler, bind, get_world, console, throw, ret.
  destruct (task_kind_of (t_type wt)) as [k|]; [|by rewrite emit_run].
  rewrite !emit_run. cbn [w_now with_trace].
  destruct (env_handler E k wt (w_now w)) as [e|]; [|done].
  by rewrite (emit_after w [_]).
Qed.

(** [handleTask] on the task of a record. *)
Lemma handleTask_on_record E m payload w :
  handleTask E (parsedTask m payload) w
  = match task_kind_of (se_type m) with
    | Some k =>
        match env_handler E k (handed_task m payload) (w_now w) with
        | None =>
            (Ok tt,
             with_trace w (w_trace w ++ [handling_event m; EvHandler k (se_id m)]))
        | Some e =>
            (Throw e,
             with_trace w
               (w_trace w ++
                  [handling_event m; EvHandler k (se_id m); handleTask_error m]))
        end
    | None =>
        (Ok tt,
         with_trace w (w_trace w ++ [handling_event m; unknown_type_warning m]))
    end.
Proof.
  unfold handleTask, bind, console. rewrite emit_run, dispatch_run.
  cbn [t_type t_id parsedTask w_now with_trace].
  destruct (task_kind_of (se_type m)) as [k|].
  - change (env_handler E k _ (w_now w))
      with (env_handler E k (handed_task m payload) (w_now w)).
    destruct (env_handler E k (handed_task m payload) (w_now w)).
    + rewrite with_trace_twice. cbn [w_trace with_trace]. by rewrite <- app_assoc.
    + rewrite with_trace_twice. cbn [w_trace with_trace]. by rewrite <- app_assoc.
  - rewrite with_trace_twice. cbn [w_trace with_trace]. by rewrite <- app_assoc.
Qed.

(** The other [handleTask] on the task of a record: the priority read throws
    on a payload [null], before anything is logged. *)
Lemma handleTask_draft_on_record E m payload w :
  handleTask_draft E (parsedTask m payload) w
  = match payload with
    | JNull => (Throw type_error, w)
    | _ =>
        match task_kind_of (se_type m) with
        | Some k =>
            match env_handler E k (handed_task_draft m payload) (w_now w) with
            | None =>
                (Ok tt,
                 with_trace w
                   (w_trace w ++ [handling_event m; EvHandler k (se_id m)]))
            | Some e =>
                (Throw e,
                 with_trace w
                   (w_trace w ++
                      [handling_event m; EvHandler k (se_id m); handleTask_error m]))
            end
        | None =>
            (Ok tt,
             with_trace w (w_trace w ++ [handling_event m; unknown_type_warning m]))
        end
    end.
Proof.
  unfold handleTask_draft. unfold bind at 1. cbn [t_payload parsedTask].
  destruct payload as [|b|z|s|l|fields]; [reflexivity|..];
    cbn [payload_priority]; unfold ret at 1; cbn iota;
    unfold bind, console; rewrite emit_run, dispatch_run;
    cbn [t_type t_id parsedTask w_now with_trace];
    (destruct (task_kind_of (se_type m)) as [k|];
     [ match goal with
       | |- context [env_handler E k ?t (w_now w)] =>
           change (env_handler E k t (w_now w))
             with (env_handler E k (handed_task_draft m
                     ltac:(first [exact (JBool b) | exact (JNum z) | exact (JStr s)
                                 | exact (JArr l) | exact (JObj fields)]))
                     (w_now w))
       end;
       match goal with
       | |- context [env_handler E k ?t (w_now w)] =>
           destruct (env_handler E k t (w_now w))
       end
     | ];
     rewrite with_trace_twice; cbn [w_trace with_trace]; by rewrite <- app_assoc).
Qed.

(** One turn of the consumer on a record whose payload decodes, given how
    the handler ends on the record's task. *)
Lemma consumer_turn_run E handle m payload w r evs :
  next_record w = Some m →
  env_json_parse E (se_payload m) = Some payload →
  (let w1 :=
     with_trace
       (with_stream w
          {| s_entries := s_entries (w_stream w); s_group := true;
             s_delivered := S (s_delivered (w_stream w));
             s_pending := {[ se_id m ]} ∪ s_pending (w_stream w) |})
       (w_trace w ++ [processing_line m]) in
   handle (parsedTask m payload) w1 = (r, with_trace w1 (w_trace w1 ++ evs))) →
  processQueue_turn E handle w
  = (Ok tt,
     with_trace
       (with_stream w
          {| s_entries := s_entries (w_stream w); s_group := true;
             s_delivered := S (s_delivered (w_stream w));
             s_pending :=
               match r with
               | Ok _ => ({[ se_id m ]} ∪ s_pending (w_stream w)) ∖ {[ se_id m ]}
               | Throw _ => {[ se_id m ]} ∪ s_pending (w_stream w)
               end |})
       (w_trace w ++ [processing_line m] ++ evs ++
          match r with
          | Ok _ => [EvAck (se_id m); acknowledged_line m]
          | Throw _ => [processing_error m]
          end)).
Proof.
  unfold next_record. intros Hnext Hparse Hrun. cbv zeta in Hrun.
  destruct (s_group (w_stream w)) eqn:Hgroup; [|done].
  unfold processQueue_turn, try_catch. unfold bind at 1.
  unfold redis_xReadGroup, bind at 1, get_world. cbv zeta.
  rewrite Hgroup. cbn [negb]. rewrite Hnext.
  unfold bind at 1, set_stream, ret at 1. cbn [process_messages].
  unfold bind at 1. unfold process_message, try_catch, json_parse.
  unfold bind at 1. rewrite Hparse. unfold ret at 1. cbv zeta.
  fold (parsedTask m payload).
  unfold bind at 1, console at 1. rewrite emit_run.
  cbn [t_id t_serviceId parsedTask]. fold (processing_line m).
  unfold bind at 1.
  match goal with
  | |- context [handle (parsedTask m payload) ?w1] =>
      change (handle (parsedTask m payload) w1)
        with (handle (parsedTask m payload)
                (with_trace
                   (with_stream w
                      {| s_entries := s_entries (w_stream w); s_group := true;
                         s_delivered := S (s_delivered (w_stream w));
                         s_pending := {[ se_id m ]} ∪ s_pending (w_stream w) |})
                   (w_trace w ++ [processing_line m])))
  end.
  rewrite Hrun. destruct r as [[]|e].
  - unfold bind, redis_xAck, bind, get_world, set_stream, console, emit, ret.
    unfold with_trace, with_stream, acknowledged_line.
    cbn [w_now w_redis w_stream w_messages w_uuid w_trace
         s_entries s_group s_delivered s_pending].
    by rewrite <- !app_assoc.
  - unfold console, emit, ret. unfold with_trace, with_stream, processing_error.
    cbn [w_now w_redis w_stream w_messages w_uuid w_trace
         s_entries s_group s_delivered s_pending].
    by rewrite <- !app_assoc.
Qed.

(** One turn of the consumer on a record whose payload does not decode: no
    handler is called. *)
Lemma undecodable_turn E handle m w :
  next_record w = Some m →
  env_json_parse E (se_payload m) = None →
  processQueue_turn E handle w
  = (Ok tt,
     with_trace
       (with_stream w
          {| s_entries := s_entries (w_stream w); s_group := true;
             s_delivered := S (s_delivered (w_stream w));
             s_pending := {[ se_id m ]} ∪ s_pending (w_stream w) |})
       (w_trace w ++ [processing_error m])).
Proof.
  unfold next_record. intros Hnext Hparse.
  destruct (s_group (w_stream w)) eqn:Hgroup; [|done].
  cbv [processQueue_turn process_messages process_message try_catch bind ret throw
       redis_xReadGroup get_world set_stream json_parse console sleep].
  rewrite Hgroup. cbn [negb]. rewrite Hnext, Hparse.
  by rewrite emit_run.
Qed.

Lemma new_events_turn w s evs :
  new_events w (with_trace (with_stream w s) (w_trace w ++ evs)) = evs.
Proof. unfold new_events. cbn. by rewrite drop_app_length. Qed.

Lemma pending_after_ack (id : string) (P : gset string) : id ∉ ({[ id ]} ∪ P) ∖ {[ id ]}.
Proof. intros [_ Hn]%elem_of_difference. apply Hn. by apply elem_of_singleton. Qed.

Lemma pending_after_claim (id : string) (P : gset string) : id ∈ {[ id ]} ∪ P.
Proof. apply elem_of_union_l. by apply elem_of_singleton. Qed.

(** What a turn of the consumer does with the record it claims, when the
    handler is [handleTask]. *)
Lemma handleTask_turn E m w :
  next_record w = Some m →
  let w' := snd (processQueue_turn E (handleTask E) w) in
  let evs := new_events w w' in
  match env_json_parse E (se_payload m) with
  | None => evs = [processing_error m] ∧ se_id m ∈ s_pending (w_stream w')
  | Some payload =>
      match task_kind_of (se_type m) with
      | None =>
          evs = [processing_line m; handling_event m; unknown_type_warning m;
                 EvAck (se_id m); acknowledged_line m]
          ∧ se_id m ∉ s_pending (w_stream w')
      | Some k =>
          match env_handler E k (handed_task m payload) (w_now w) with
          | None =>
              evs = [processing_line m; handling_event m; EvHandler k (se_id m);
                     EvAck (se_id m); acknowledged_line m]
              ∧ se_id m ∉ s_pending (w_stream w')
          | Some _ =>
              evs = [processing_line m; handling_event m; EvHandler k (se_id m);
                     handleTask_error m; processing_error m]
              ∧ se_id m ∈ s_pending (w_stream w')
          end
      end
  end.
Proof.
  intros Hnext. cbv zeta.
  destruct (env_json_parse E (se_payload m)) as [payload|] eqn:Hparse.
  2:{ rewrite (undecodable_turn E _ m w Hnext Hparse). cbn [snd].
      rewrite new_events_turn. split; [done | apply pending_after_claim]. }
  pose proof (handleTask_on_record E m payload) as Hh.
  destruct (task_kind_of (se_type m)) as [k|].
  - destruct (env_handler E k (handed_task m payload) (w_now w)) as [e|] eqn:He.
    + erewrite (consumer_turn_run E _ m payload w (Throw e)); [|done|done|].
      2:{ cbv zeta. rewrite Hh. cbn [w_now with_trace with_stream]. by rewrite He. }
      cbn [snd]. rewrite new_events_turn. split; [done | apply pending_after_claim].
    + erewrite (consumer_turn_run E _ m payload w (Ok tt)); [|done|done|].
      2:{ cbv zeta. rewrite Hh. cbn [w_now with_trace with_stream]. by rewrite He. }
      cbn [snd]. rewrite new_events_turn. split; [done | apply pending_after_ack].
  - erewrite (consumer_turn_run E _ m payload w (Ok tt)); [|done|done|].
    2:{ cbv zeta. by rewrite Hh. }
    cbn [snd]. rewrite new_events_turn. split; [done | apply pending_after_ack].
Qed.

(** The same when the handler is the other [handleTask]. *)
Lemma handleTask_draft_turn E m w :
  next_record w = Some m →
  let w' := snd (processQueue_turn E (handleTask_draft E) w) in
  let evs := new_events w w' in
  match env_json_parse E (se_payload m) with
  | None => evs = [processing_error m] ∧ se_id m ∈ s_pending (w_stream w')
  | Some JNull =>
      evs = [processing_line m; processing_error m]
      ∧ se_id m ∈ s_pending (w_stream w')
  | Some payload =>
      match task_kind_of (se_type m) with
      | None =>
          evs = [processing_line m; handling_event m; unknown_type_warning m;
                 EvAck (se_id m); acknowledged_line m]
          ∧ se_id m ∉ s_pending (w_stream w')
      | Some k =>
          match env_handler E k (handed_task_draft m payload) (w_now w) with
          | None =>
              evs = [processing_line m; handling_event m; EvHandler k (se_id m);
                     EvAck (se_id m); acknowledged_line m]
              ∧ se_id m ∉ s_pending (w_stream w')
          | Some _ =>
              evs = [processing_line m; handling_event m; EvHandler k (se_id m);
                     handleTask_error m; processing_error m]
              ∧ se_id m ∈ s_pending (w_stream w')
          end
      end
  end.
Proof.
  intros Hnext. cbv zeta.
  destruct (env_json_parse E (se_payload m)) as [payload|] eqn:Hparse.
  2:{ rewrite (undecodable_turn E _ m w Hnext Hparse). cbn [snd].
      rewrite new_events_turn. split; [done | apply pending_after_claim]. }
  pose proof (handleTask_draft_on_record E m payload) as Hh.
  destruct payload as [|b|z|s|l|fields];
    [ rewrite (consumer_turn_run E _ m JNull w (Throw type_error) [] Hnext Hparse);
      [ cbn [snd]; rewrite new_events_turn; split; [done | apply pending_after_claim]
      | cbv zeta; rewrite Hh; by rewrite app_nil_r, with_trace_twice ]
    | .. ];
  (destruct (task_kind_of (se_type m)) as [k|];
   [ match goal with
     | |- context [env_handler E k ?t (w_now w)] =>
         destruct (env_handler E k t (w_now w)) as [e|] eqn:He
     end;
     [ rewrite (consumer_turn_run E _ m _ w (Throw e)
                  [handling_event m; EvHandler k (se_id m); handleTask_error m]
                  Hnext Hparse);
       [ cbn [snd]; rewrite new_events_turn; split; [done | apply pending_after_claim]
       | cbv zeta; rewrite Hh; cbn [w_now with_trace with_stream]; by rewrite He ]
     | rewrite (consumer_turn_run E _ m _ w (Ok tt)
                  [handling_event m; EvHandler k (se_id m)] Hnext Hparse);
       [ cbn [snd]; rewrite new_events_turn; split; [done | apply pending_after_ack]
       | cbv zeta; rewrite Hh; cbn [w_now with_trace with_stream]; by rewrite He ] ]
   | rewrite (consumer_turn_run E _ m _ w (Ok tt)
                [handling_event m; unknown_type_warning m] Hnext Hparse);
     [ cbn [snd]; rewrite new_events_turn; split; [done | apply pending_after_ack]
     | cbv zeta; by rewrite Hh ] ]).
Qed.


(** A turn that claims a record of unknown type whose payload decodes. *)
Lemma unknown_type_turn E m payload w :
  next_record w = Some m →
  task_kind_of (se_type m) = None →
  env_json_parse E (se_payload m) = Some payload →
  processQueue_turn E (handleTask E) w
  = (Ok tt,
     with_trace
       (with_stream w
          {| s_entries := s_entries (w_stream w); s_group := true;
             s_delivered := S (s_delivered (w_stream w));
             s_pending := ({[ se_id m ]} ∪ s_pending (w_stream w)) ∖ {[ se_id m ]} |})
       (w_trace w ++
          [ EvLog lvl_log ("Processing task: " +:+ se_id m +:+ " from service: "
                           +:+ se_service m);
            EvLog lvl_log ("Handling task " +:+ se_id m +:+ " of type " +:+ se_type m
                           +:+ " from service " +:+ se_service m +:+ " for tenant "
                           +:+ se_tenantId m);
            EvLog lvl_warn ("Unknown task type: " +:+ se_type m);
            EvAck (se_id m);
            EvLog lvl_log ("Task " +:+ se_id m +:+ " processed and acknowledged") ])).
Proof.
  unfold next_record. intros Hnext Hkind Hparse.
  destruct (s_group (w_stream w)) eqn:Hgroup; [|done].
  cbv [processQueue_turn process_messages process_message try_catch bind ret throw
       redis_xReadGroup get_world set_stream json_parse console handleTask dispatch
       redis_xAck sleep].
  rewrite Hgroup. cbn [negb]. rewrite Hnext, Hparse. cbn [t_type].
  rewrite Hkind. cbn [t_id t_serviceId].
  rewrite !emit_run. unfold with_trace, with_stream.
  cbn [w_now w_redis w_stream w_messages w_uuid w_trace
       s_entries s_group s_delivered s_pending].
  by rewrite <- !app_assoc.
Qed.

(** The same turn with the other [handleTask], whose priority read needs a
    payload that is not [null]. *)
Lemma unknown_type_turn_draft E m payload w :
  next_record w = Some m →
  task_kind_of (se_type m) = None →
  env_json_parse E (se_payload m) = Some payload →
  payload ≠ JNull →
  processQueue_turn E (handleTask_draft E) w
  = processQueue_turn E (handleTask E) w.
Proof.
  intros Hnext Hkind Hparse Hnull.
  rewrite (unknown_type_turn E m payload w Hnext Hkind Hparse).
  unfold next_record in Hnext.
  destruct (s_group (w_stream w)) eqn:Hgroup; [|done].
  cbv [processQueue_turn process_messages process_message try_catch bind ret throw
       redis_xReadGroup get_world set_stream json_parse console handleTask_draft
       dispatch redis_xAck sleep].
  rewrite Hgroup. cbn [negb]. rewrite Hnext, Hparse. cbn [t_payload].
  destruct payload; [done|..];
    cbv beta iota delta [payload_priority ret]; cbn [t_type]; rewrite Hkind;
    cbn [t_id t_serviceId]; rewrite !emit_run; unfold with_trace, with_stream;
    cbn [w_now w_redis w_stream w_messages w_uuid w_trace
         s_entries s_group s_delivered s_pending];
    rewrite <- ?app_assoc; reflexivity.
Qed.

(** C5 (as the code behaves): a claimed record whose type is none of the six
    known ones and whose payload decodes is logged as an unknown type and
    then acknowledged, in that order, because [handleTask] returns normally
    from its default branch.  The second file's [handleTask] does the same
    for a payload other than [null]; on a payload [null] its priority read
    throws before the type is looked at, so that nothing is logged about the
    type and the record stays pending. *)
Theorem C5_unknown_type_logged_and_acknowledged
    (E : Env) (w : World) (m : StreamEntry) (payload : json) :
  next_record w = Some m →
  task_kind_of (se_type m) = None →
  env_json_parse E (se_payload m) = Some payload →
  (let w' := snd (processQueue_turn E (handleTask E) w) in
   new_events w w'
   = [processing_line m; handling_event m; unknown_type_warning m;
      EvAck (se_id m); acknowledged_line m]
   ∧ se_id m ∉ s_pending (w_stream w'))
  ∧ (let w' := snd (processQueue_turn E (handleTask_draft E) w) in
     match payload with
     | JNull =>
         new_events w w' = [processing_line m; processing_error m]
         ∧ se_id m ∈ s_pending (w_stream w')
     | _ =>
         new_events w w'
         = [processing_line m; handling_event m; unknown_type_warning m;
            EvAck (se_id m); acknowledged_line m]
         ∧ se_id m ∉ s_pending (w_stream w')
     end).
Proof.
  intros Hnext Hkind Hparse. split.
  - pose proof (handleTask_turn E m w Hnext) as H. cbv zeta in H.
    by rewrite Hparse, Hkind in H.
  - pose proof (handleTask_draft_turn E m w Hnext) as H. cbv zeta in H.
    rewrite Hparse, Hkind in H. by destruct payload.
Qed.

(** ** Group frames *)

Lemma publish_each_run roomUsers senderId messageObj w :
  publish_each roomUsers senderId messageObj w
  = (Ok tt,
     with_trace w
       (w_trace w ++
          map (λ u, EvPublish ("user:" +:+ u) messageObj)
              (filter (λ id, id ≠ senderId) roomUsers))).
Proof.
  revert w. induction roomUsers as [|u rest IH]; intros w.
  - cbn. by rewrite app_nil_r, with_trace_id.
  - cbn [publish_each]. unfold bind at 1. rewrite filter_cons.
    destruct (decide (u ≠ senderId)) as [Hne|Heq].
    + rewrite bool_decide_eq_true_2 by done.
      unfold publishToRoom, redis_publish. rewrite emit_run, IH.
      rewrite w_trace_with_trace, with_trace_twice, <- app_assoc. done.
    + rewrite bool_decide_eq_false_2 by done. unfold ret at 1. apply IH.
Qed.

(** A 'group' frame, run to its end. *)
Lemma group_frame_run E ws messageText f w members :
  env_parse_frame E messageText = Some f →
  f_type f = "group" →
  room_members w (f_recipientId f) = Some members →
  on_message E ws messageText w
  = (Ok tt,
     with_trace (with_uuid w (S (w_uuid w)))
       (w_trace w ++
          map (λ u, EvPublish ("user:" +:+ u)
                      (group_envelope E ws f w (elements members)))
              (filter (λ id, id ≠ ws_userId ws) (elements members))
          ++ [EvSend group_message_sent])).
Proof.
  intros Hparse Htype Hroom.
  assert (Husers : getUsersInRoom (f_recipientId f) w = (Ok (elements members), w)).
  { unfold getUsersInRoom, redis_sMembers, bind, get_world.
    unfold room_members in Hroom.
    destruct (redis_live (w_now w) (w_redis w) ("room:" +:+ f_recipientId f))
      as [[| |s]|]; simplify_eq; [done|].
    by rewrite elements_empty. }
  unfold on_message. unfold try_catch at 1. unfold bind at 1.
  rewrite Hparse. unfold ret at 1. cbn beta iota. rewrite Htype.
  change ("group" =? "direct")%string with false.
  change ("group" =? "group")%string with true. cbn iota.
  unfold bind at 1. rewrite Husers.
  unfold bind at 1, uuidv7, bind at 1, fresh_counter, ret at 1.
  unfold bind at 1, get_world.
  unfold bind at 1. rewrite publish_each_run.
  unfold ws_send. rewrite emit_after. reflexivity.
Qed.

Lemma published_channels_map (msg : IMessage) (users : list string) :
  published_channels (map (λ u, EvPublish ("user:" +:+ u) msg) users)
  = map (λ u, "user:" +:+ u) users.
Proof. induction users as [|u users IH]; [done|]. cbn. by rewrite <- IH. Qed.

Lemma published_messages_map (msg : IMessage) (users : list string) :
  published_messages (map (λ u, EvPublish ("user:" +:+ u) msg) users)
  = map (λ _, msg) users.
Proof. induction users as [|u users IH]; [done|]. cbn. by rewrite <- IH. Qed.

Lemma no_persist_in_publishes (msg : IMessage) (users : list string) :
  filter is_persist (map (λ u, EvPublish ("user:" +:+ u) msg) users) = [].
Proof.
  apply (filter_excluded is_persist is_publish); [by intros []|].
  induction users as [|u users IH]; [done | exact IH].
Qed.

(** In a list without duplicates a value occurs once or not at all. *)
Lemma occurrences_NoDup (x : string) (l : list string) :
  NoDup l →
  length (filter (λ y, y = x) l) = if bool_decide (x ∈ l) then 1%nat else 0%nat.
Proof.
  induction 1 as [|y l Hy Hnd IH]; [done|].
  rewrite filter_cons. destruct (decide (y = x)) as [->|Hne].
  - rewrite bool_decide_eq_true_2 by set_solver. cbn. f_equal.
    rewrite IH. by rewrite bool_decide_eq_false_2.
  - rewrite IH. rewrite (bool_decide_ext (x ∈ y :: l) (x ∈ l)); [done|].
    rewrite elem_of_cons. intuition congruence.
Qed.

Lemma occurrences_channel (u : string) (l : list string) :
  length (filter (λ c, c = "user:" +:+ u) (map (λ v, "user:" +:+ v) l))
  = length (filter (λ y, y = u) l).
Proof.
  induction l as [|v l IH]; [done|].
  cbn [map]. rewrite !filter_cons.
  destruct (decide (v = u)) as [->|Hne].
  - rewrite decide_True by done. cbn. by rewrite IH.
  - rewrite decide_False; [exact IH|].
    intros Heq. apply Hne. by apply (inj (String.append "user:")) in Heq.
Qed.

(** C8: a 'group' frame publishes the one envelope to the channel [user:<u>]
    of every current member [u] of the room other than the sender, once per
    such member and to no other channel; nothing is published for an empty
    room; the envelope's [recipientIds] are the members without the sender,
    each once. *)
Theorem C8_group_fan_out
    (E : Env) (ws : Socket) (messageText : string) (f : Frame) (w : World)
    (members : gset string) :
  env_parse_frame E messageText = Some f →
  f_type f = "group" →
  room_members w (f_recipientId f) = Some members →
  let evs := new_events w (snd (on_message E ws messageText w)) in
  (∀ u, length (filter (λ c, c = "user:" +:+ u) (published_channels evs))
        = if bool_decide (u ∈ members ∧ u ≠ ws_userId ws) then 1%nat else 0%nat)
  ∧ (∀ c, c ∈ published_channels evs → ∃ u, c = "user:" +:+ u ∧ u ∈ members)
  ∧ (members = ∅ → published_channels evs = [])
  ∧ (∀ msg, msg ∈ published_messages evs →
       msg = group_envelope E ws f w (elements members)
       ∧ NoDup (m_recipientIds msg)
       ∧ list_to_set (m_recipientIds msg) = members ∖ {[ ws_userId ws ]}).
Proof.
  intros Hparse Htype Hroom.
  rewrite (group_frame_run E ws messageText f w members Hparse Htype Hroom).
  cbn [snd].
  assert (Hnew : ∀ w0 evs, w_trace w0 = w_trace w →
            new_events w (with_trace w0 (w_trace w ++ evs)) = evs).
  { intros w0 evs _. unfold new_events. rewrite w_trace_with_trace.
    by rewrite drop_app_length. }
  rewrite Hnew by done. cbv zeta.
  set (others := filter (λ id, id ≠ ws_userId ws) (elements members)).
  set (msg := group_envelope E ws f w (elements members)).
  assert (Hch : published_channels
                  (map (λ u, EvPublish ("user:" +:+ u) msg) others
                   ++ [EvSend group_message_sent])
                = map (λ u, "user:" +:+ u) others).
  { unfold published_channels. rewrite omap_app. cbn. rewrite app_nil_r.
    apply published_channels_map. }
  assert (Hmsgs : published_messages
                  (map (λ u, EvPublish ("user:" +:+ u) msg) others
                   ++ [EvSend group_message_sent])
                = map (λ _, msg) others).
  { unfold published_messages. rewrite omap_app. cbn. rewrite app_nil_r.
    apply published_messages_map. }
  assert (Hnd : NoDup others) by (apply NoDup_filter, NoDup_elements).
  assert (Hin : ∀ u, u ∈ others ↔ u ∈ members ∧ u ≠ ws_userId ws).
  { intros u. unfold others. rewrite list_elem_of_filter, elem_of_elements. tauto. }
  rewrite Hch, Hmsgs. repeat split.
  - intros u. rewrite occurrences_channel, (occurrences_NoDup u others Hnd).
    by rewrite (bool_decide_ext _ _ (Hin u)).
  - intros c [u [-> Hu]]%list_elem_of_fmap. exists u. split; [done|].
    by apply Hin in Hu as [? _].
  - intros ->. unfold others. by rewrite elements_empty.
  - by apply list_elem_of_fmap in H as [u [-> _]].
  - apply list_elem_of_fmap in H as [u [-> _]]. exact Hnd.
  - apply list_elem_of_fmap in H as [u [-> _]]. cbn [m_recipientIds msg group_envelope].
    fold others. apply set_eq. intros x.
    rewrite elem_of_list_to_set, Hin, elem_of_difference, elem_of_singleton. tauto.
Qed.

(** C6 (the group path): a 'group' frame for a room with a member other than
    the sender publishes the envelope although no persistence write happens:
    the 'messages' collection is unchanged and the run contains no write. *)
Theorem C6_group_publish_without_persist
    (E : Env) (ws : Socket) (messageText : string) (f : Frame) (w : World)
    (members : gset string) (u : string) :
  env_parse_frame E messageText = Some f →
  f_type f = "group" →
  room_members w (f_recipientId f) = Some members →
  u ∈ members →
  u ≠ ws_userId ws →
  let w' := snd (on_message E ws messageText w) in
  EvPublish ("user:" +:+ u) (group_envelope E ws f w (elements members))
    ∈ new_events w w'
  ∧ filter is_persist (new_events w w') = []
  ∧ w_messages w' = w_messages w.
Proof.
  intros Hparse Htype Hroom Hu Hne.
  rewrite (group_frame_run E ws messageText f w members Hparse Htype Hroom).
  cbn [snd].
  assert (Hnew : ∀ w0 evs, w_trace w0 = w_trace w →
            new_events w (with_trace w0 (w_trace w ++ evs)) = evs).
  { intros w0 evs _. unfold new_events. rewrite w_trace_with_trace.
    by rewrite drop_app_length. }
  rewrite Hnew by done. cbv zeta. repeat split.
  - apply elem_of_app. left. apply list_elem_of_fmap. exists u. split; [done|].
    apply list_elem_of_filter. split; [done|]. by apply elem_of_elements.
  - by rewrite filter_app, no_persist_in_publishes.
Qed.

(** ** The store, then the channel: the paths of the communication service *)

Lemma extends_refl P w : extends P w w.
Proof. exists []. by rewrite app_nil_r. Qed.

Lemma extends_trans P w1 w2 w3 :
  extends P w1 w2 → extends P w2 w3 → extends P w1 w3.
Proof.
  intros (e1 & H1 & F1) (e2 & H2 & F2). exists (e1 ++ e2)%list.
  split; [by rewrite H2, H1, app_assoc | by apply Forall_app].
Qed.

Lemma extends_new_events P w w' :
  extends P w w' → Forall P (new_events w w').
Proof.
  intros (evs & Ht & Hf). unfold new_events. by rewrite Ht, drop_app_length.
Qed.

Lemma constructed_rule R evs :
  Forall (event_rule R) evs → Forall R (constructed evs).
Proof.
  induction 1 as [|e evs He _ IH]; [constructor|].
  unfold constructed. cbn [omap]. fold (constructed evs).
  destruct e; cbn in *; auto.
Qed.

Lemma messageTypeOf_rule own mediaUrls msg :
  m_mediaUrls msg = mediaUrls →
  m_messageType msg = messageTypeOf mediaUrls own →
  records_media_rule own mediaUrls msg.
Proof.
  intros Hm Ht. split; [done|]. rewrite Ht. split.
  - by intros (u & us & ->).
  - by intros [-> | ->].
Qed.

Lemma constructed_app t1 t2 :
  constructed (t1 ++ t2) = constructed t1 ++ constructed t2.
Proof. unfold constructed. apply omap_app. Qed.

(** [saveMessage], case by case: the call is recorded; a document with an
    undefined field is refused by the client; otherwise the store decides. *)
Lemma saveMessage_run E message w :
  saveMessage E message w
  = if has_undefined_field message
    then (Throw invalid_document, with_trace w (w_trace w ++ [EvAdd message]))
    else match env_db_add E message (w_now w) with
         | Ok docId =>
             (Ok docId,
              {| w_now := w_now w; w_redis := w_redis w; w_stream := w_stream w;
                 w_messages := w_messages w ++ [message]; w_uuid := w_uuid w;
                 w_trace := w_trace w ++ [EvAdd message; EvPersist message] |})
         | Throw e => (Throw e, with_trace w (w_trace w ++ [EvAdd message]))
         end.
Proof.
  unfold saveMessage, bind at 1, get_world. unfold bind at 1. rewrite emit_run.
  destruct (has_undefined_field message); [reflexivity|].
  change (w_now (with_trace w (w_trace w ++ [EvAdd message]))) with (w_now w).
  destruct (env_db_add E message (w_now w)); [|reflexivity].
  unfold bind, add_document, emit, ret, with_trace. cbn. by rewrite <- app_assoc.
Qed.

(** The messages the service builds leave [deliveredAt], [readAt] and
    [expiresAt] out, so the client refuses the write. *)
Lemma envelope_refused E w own sid s rid tid subj content media :
  has_undefined_field (envelope E w own sid s rid tid subj content media) = true.
Proof. reflexivity. Qed.

(** Saving and publishing one message: a refused write leaves no publish. *)
Lemma save_then_publish {A} E message room (k : string → M A) w :
  has_undefined_field message = true →
  bind (saveMessage E message)
       (λ messageId, bind (publishToRoom room message) (λ _, k messageId)) w
  = (Throw invalid_document, with_trace w (w_trace w ++ [EvAdd message])).
Proof. intros Hu. unfold bind at 1. by rewrite saveMessage_run, Hu. Qed.

(** An allowed direct message, run to its end: the write is refused, the
    error is logged and the caller is told that the send failed. *)
Lemma sendDirectMessage_allowed E sid s rid r tid subj content media w :
  canMessage (checkCommunicationPermissions sid s rid r) = true →
  sendDirectMessage E sid s rid r tid subj content media w
  = (Ok {| success := false; messageId := None;
           error := Some "Failed to send message" |},
     with_trace (with_uuid w (S (w_uuid w)))
       (w_trace w ++
          [EvAdd (envelope E w mt_direct sid s rid tid subj content media);
           EvLog lvl_error "Error sending direct message:"])).
Proof.
  intros Hok. unfold sendDirectMessage. rewrite Hok. cbn [negb].
  unfold bind at 1, uuidv7, bind at 1, fresh_counter, ret at 1.
  unfold bind at 1, get_world.
  unfold try_catch. rewrite save_then_publish by reflexivity.
  unfold bind, console. rewrite emit_run. unfold ret.
  rewrite with_trace_twice. cbn [w_trace with_trace]. rewrite <- app_assoc.
  reflexivity.
Qed.

Lemma new_events_same w : new_events w w = [].
Proof. unfold new_events. by rewrite drop_all. Qed.

Lemma new_events_with_uuid w n evs :
  new_events w (with_trace (with_uuid w n) (w_trace w ++ evs)) = evs.
Proof. unfold new_events. cbn. by rewrite drop_app_length. Qed.

Lemma envelope_rule E w own sid s rid tid subj content media :
  records_media_rule own media (envelope E w own sid s rid tid subj content media).
Proof. by apply messageTypeOf_rule. Qed.

(** The events of a direct message: nothing when denied; otherwise the call
    of the store with the message built, and the error log of the refused
    write. *)
Lemma sendDirectMessage_trace E sid s rid r tid subj content media w :
  let message := envelope E w mt_direct sid s rid tid subj content media in
  ∃ res,
    fst (sendDirectMessage E sid s rid r tid subj content media w) = Ok res
    ∧ w_trace (snd (sendDirectMessage E sid s rid r tid subj content media w))
      = w_trace w ++
        if canMessage (checkCommunicationPermissions sid s rid r)
        then [EvAdd message; EvLog lvl_error "Error sending direct message:"]
        else [].
Proof.
  cbv zeta.
  destruct (canMessage (checkCommunicationPermissions sid s rid r)) eqn:Hc.
  - rewrite (sendDirectMessage_allowed _ _ _ _ _ _ _ _ _ _ Hc).
    eexists; split; reflexivity.
  - rewrite (sendDirectMessage_denied _ _ _ _ _ _ _ _ _ _ Hc).
    eexists; split; [reflexivity|]. by rewrite app_nil_r.
Qed.

Lemma sendDirectMessage_events E sid s rid r tid subj content media w :
  let message := envelope E w mt_direct sid s rid tid subj content media in
  new_events w (snd (sendDirectMessage E sid s rid r tid subj content media w))
  = if canMessage (checkCommunicationPermissions sid s rid r)
    then [EvAdd message; EvLog lvl_error "Error sending direct message:"]
    else [].
Proof.
  cbv zeta.
  destruct (sendDirectMessage_trace E sid s rid r tid subj content media w)
    as (res & _ & Ht).
  unfold new_events. rewrite Ht. by rewrite drop_app_length.
Qed.

(** A daily note, run to its end. *)
Lemma sendDailyNote_run E sid s gid stid tid subj content media w :
  sendDailyNote E sid s gid stid tid subj content media w
  = if bool_decide (s ≠ staff) && bool_decide (s ≠ director)
    then (Ok {| success := false; messageId := None;
                error := Some "Only staffs and directors can send daily notes to guardians" |},
          w)
    else (Ok {| success := false; messageId := None;
                error := Some "Failed to send daily note" |},
          with_trace (with_uuid w (S (w_uuid w)))
            (w_trace w ++
               [EvAdd (envelope E w mt_daily_note sid s gid tid subj content media);
                EvLog lvl_error "Error sending daily note:"])).
Proof.
  unfold sendDailyNote.
  destruct (bool_decide (s ≠ staff) && bool_decide (s ≠ director)); [reflexivity|].
  unfold bind at 1, uuidv7, bind at 1, fresh_counter, ret at 1.
  unfold bind at 1, get_world.
  unfold try_catch. rewrite save_then_publish by reflexivity.
  unfold bind, console. rewrite emit_run. unfold ret.
  rewrite with_trace_twice. cbn [w_trace with_trace]. rewrite <- app_assoc.
  reflexivity.
Qed.

Lemma sendDailyNote_events E sid s gid stid tid subj content media w :
  let message := envelope E w mt_daily_note sid s gid tid subj content media in
  new_events w (snd (sendDailyNote E sid s gid stid tid subj content media w))
  = if bool_decide (s ≠ staff) && bool_decide (s ≠ director)
    then []
    else [EvAdd message; EvLog lvl_error "Error sending daily note:"].
Proof.
  cbv zeta. rewrite sendDailyNote_run.
  destruct (bool_decide (s ≠ staff) && bool_decide (s ≠ director)); cbn [snd].
  - apply new_events_same.
  - apply new_events_with_uuid.
Qed.

Lemma guardian_always_allowed sid s rid :
  canMessage (checkCommunicationPermissions sid s rid guardian) = true.
Proof. by destruct s. Qed.

(** The announcement loop, recipient by recipient: every recipient passes
    the policy as a guardian, a message is built and handed to the store for
    each, the store refuses it, and the error is logged. *)
Lemma sendAnnouncement_loop_run E sid s tid recipients subj content media :
  ∀ ids w, ∃ evs w',
    sendAnnouncement_loop E sid s tid recipients subj content media ids w
    = (Ok ids, w')
    ∧ w_trace w' = w_trace w ++ evs
    ∧ w_messages w' = w_messages w
    ∧ Forall (event_rule (records_media_rule mt_announcement media)) evs
    ∧ map m_recipientIds (constructed evs) = map (λ rid, [rid]) recipients
    ∧ length (filter is_error_log evs) = length recipients
    ∧ filter is_warning evs = []
    ∧ filter delivery_event evs = [].
Proof.
  induction recipients as [|rid rest IH]; intros ids w.
  - exists [], w. rewrite app_nil_r. repeat split; constructor.
  - cbn [sendAnnouncement_loop]. rewrite guardian_always_allowed. cbn [negb].
    unfold bind at 1, uuidv7, bind at 1, fresh_counter, ret at 1.
    unfold bind at 1, get_world. cbv zeta.
    unfold bind at 1. unfold try_catch at 1. unfold bind at 1.
    rewrite saveMessage_run.
    change (has_undefined_field _) with true. cbn iota.
    unfold bind at 1, console. rewrite emit_run. unfold ret at 1. cbn iota.
    fold (envelope E w mt_announcement sid s rid tid subj content media).
    set (message := envelope E w mt_announcement sid s rid tid subj content media).
    set (l := EvLog lvl_error ("Error sending announcement to " +:+ rid +:+ ":")).
    match goal with
    | |- context [sendAnnouncement_loop _ _ _ _ rest _ _ _ ids ?w1] =>
        destruct (IH ids w1)
          as (evs & w' & Hrun & Ht & Hm & Hrule & Hbuilt & Herr & Hwarn & Hquiet)
    end.
    exists ([EvAdd message; l] ++ evs), w'. rewrite Hrun. split; [done|].
    rewrite Ht, Hm. cbn [w_trace w_messages with_trace with_uuid].
    rewrite <- !app_assoc. split; [done|]. split; [done|]. split.
    { apply Forall_app. split; [|done].
      constructor; [apply envelope_rule|]. constructor; [exact I | constructor]. }
    rewrite constructed_app, !filter_app, length_app.
    rewrite Hwarn, Hquiet. cbn. rewrite Hbuilt, Herr. done.
Qed.

(** ** 'direct' frames *)

(** A 'direct' frame: the recipient lookup, the send, then the reply. *)
Lemma direct_frame_run E ws messageText f w recipientType w1 :
  env_parse_frame E messageText = Some f →
  f_type f = "direct" →
  determineRecipientType E (f_recipientId f) (ws_token ws) w = (Ok recipientType, w1) →
  ∃ res w2,
    sendDirectMessage E (ws_userId ws) (ws_userType ws) (f_recipientId f)
      recipientType (ws_tenantId ws) (or_default (f_subject f) "Direct Message")
      (f_content f) (f_mediaUrls f) w1 = (Ok res, w2)
    ∧ on_message E ws messageText w
      = (Ok tt, with_trace w2 (w_trace w2 ++ [EvSend (direct_reply res)])).
Proof.
  intros Hparse Htype Hrt.
  destruct (sendDirectMessage_trace E (ws_userId ws) (ws_userType ws)
              (f_recipientId f) recipientType (ws_tenantId ws)
              (or_default (f_subject f) "Direct Message") (f_content f)
              (f_mediaUrls f) w1) as (res & Hres & _).
  destruct (sendDirectMessage E (ws_userId ws) (ws_userType ws) (f_recipientId f)
              recipientType (ws_tenantId ws) (or_default (f_subject f) "Direct Message")
              (f_content f) (f_mediaUrls f) w1) as [r w2] eqn:Hsend.
  cbn [fst] in Hres. subst r. exists res, w2. split; [done|].
  unfold on_message. unfold try_catch at 1. unfold bind at 1.
  rewrite Hparse. unfold ret at 1. cbn beta iota. rewrite Htype.
  change ("direct" =? "direct")%string with true. cbn iota.
  unfold bind at 1. rewrite Hrt. unfold bind at 1. rewrite Hsend.
  unfold direct_reply, ws_send. destruct (success res); by rewrite emit_run.
Qed.

(** The events of a 'direct' frame, from the first to the last. *)
Lemma direct_frame_events E ws messageText f w :
  env_parse_frame E messageText = Some f →
  f_type f = "direct" →
  ∃ recipientType evs res,
    forallb lookup_event evs = true
    ∧ determineRecipientType E (f_recipientId f) (ws_token ws) w
      = (Ok recipientType, with_trace w (w_trace w ++ evs))
    ∧ new_events w (snd (on_message E ws messageText w))
      = evs
        ++ new_events (with_trace w (w_trace w ++ evs))
             (snd (sendDirectMessage E (ws_userId ws) (ws_userType ws)
                     (f_recipientId f) recipientType (ws_tenantId ws)
                     (or_default (f_subject f) "Direct Message") (f_content f)
                     (f_mediaUrls f) (with_trace w (w_trace w ++ evs))))
        ++ [EvSend (direct_reply res)].
Proof.
  intros Hparse Htype.
  destruct (determineRecipientType_run E (f_recipientId f) (ws_token ws) w)
    as (rt & evs & Hrt & Hq).
  destruct (direct_frame_run E ws messageText f w rt _ Hparse Htype Hrt)
    as (res & w2 & Hsend & Hrun).
  exists rt, evs, res. split; [done|]. split; [done|].
  rewrite Hrun, Hsend. cbn [snd].
  destruct (sendDirectMessage_trace E (ws_userId ws) (ws_userType ws)
              (f_recipientId f) rt (ws_tenantId ws)
              (or_default (f_subject f) "Direct Message") (f_content f)
              (f_mediaUrls f) (with_trace w (w_trace w ++ evs))) as (res' & _ & Ht).
  rewrite Hsend in Ht. cbn [snd] in Ht. rewrite w_trace_with_trace in Ht.
  unfold new_events at 1 2. rewrite !w_trace_with_trace, Ht.
  rewrite <- !app_assoc, drop_app_length.
  rewrite (app_assoc (w_trace w) evs), drop_app_length. done.
Qed.

(** ** The recorded message type *)

Lemma constructed_lookup evs :
  forallb lookup_event evs = true → constructed evs = [].
Proof.
  induction evs as [|e evs IH]; [done|].
  cbn [forallb]. intros [He Hrest]%andb_true_iff.
  destruct e; try discriminate He; exact (IH Hrest).
Qed.

Lemma sendDirectMessage_built E sid s rid r tid subj content media w :
  constructed
    (new_events w (snd (sendDirectMessage E sid s rid r tid subj content media w)))
  = if canMessage (checkCommunicationPermissions sid s rid r)
    then [envelope E w mt_direct sid s rid tid subj content media]
    else [].
Proof. rewrite sendDirectMessage_events. by destruct (canMessage _). Qed.

Lemma sendDailyNote_built E sid s gid stid tid subj content media w :
  constructed
    (new_events w (snd (sendDailyNote E sid s gid stid tid subj content media w)))
  = if bool_decide (s ≠ staff) && bool_decide (s ≠ director)
    then []
    else [envelope E w mt_daily_note sid s gid tid subj content media].
Proof. rewrite sendDailyNote_events. by destruct (_ && _). Qed.

Lemma sendDirectMessage_rule E sid s rid r tid subj content media w :
  Forall (records_media_rule mt_direct media)
    (constructed
       (new_events w (snd (sendDirectMessage E sid s rid r tid subj content media w)))).
Proof.
  rewrite sendDirectMessage_built.
  destruct (canMessage _); repeat constructor; apply envelope_rule.
Qed.

Lemma sendDailyNote_rule E sid s gid stid tid subj content media w :
  Forall (records_media_rule mt_daily_note media)
    (constructed
       (new_events w (snd (sendDailyNote E sid s gid stid tid subj content media w)))).
Proof.
  rewrite sendDailyNote_built.
  destruct (_ && _); repeat constructor; apply envelope_rule.
Qed.

Lemma sendAnnouncement_built E sid s tid recipients subj content media w :
  let built :=
    constructed
      (new_events w
         (snd (sendAnnouncement E sid s tid recipients subj content media w))) in
  Forall (records_media_rule mt_announcement media) built
  ∧ map m_recipientIds built = map (λ rid, [rid]) recipients.
Proof.
  cbv zeta.
  destruct (sendAnnouncement_loop_run E sid s tid recipients subj content media [] w)
    as (evs & w' & Hrun & Ht & _ & Hrule & Hbuilt & _).
  unfold sendAnnouncement, bind. rewrite Hrun. cbn [snd ret].
  unfold new_events. rewrite Ht, drop_app_length.
  split; [by apply constructed_rule | done].
Qed.

(** A 'group' frame whose room key holds something other than a set. *)
Lemma group_frame_wrongtype E ws messageText f w :
  env_parse_frame E messageText = Some f →
  f_type f = "group" →
  room_members w (f_recipientId f) = None →
  on_message E ws messageText w
  = (Ok tt, with_trace w (w_trace w ++
              [EvLog lvl_error "Error handling WebSocket message:";
               EvSend (error_frame "Error processing message")])).
Proof.
  intros Hparse Htype Hroom.
  assert (Husers : getUsersInRoom (f_recipientId f) w = (Throw wrongtype, w)).
  { unfold getUsersInRoom, redis_sMembers, bind, get_world.
    unfold room_members in Hroom.
    by destruct (redis_live (w_now w) (w_redis w) ("room:" +:+ f_recipientId f))
      as [[| |s]|]; simplify_eq. }
  unfold on_message. unfold try_catch at 1. unfold bind at 1.
  rewrite Hparse. unfold ret at 1. cbn beta iota. rewrite Htype.
  change ("group" =? "direct")%string with false.
  change ("group" =? "group")%string with true. cbn iota.
  unfold bind at 1. rewrite Husers.
  unfold bind, console, ws_send. rewrite emit_run, (emit_after w [_]). done.
Qed.

(** Every message a frame hands out follows the rule of its path. *)
Lemma on_message_rule E ws messageText w :
  match env_parse_frame E messageText with
  | Some f =>
      Forall (records_media_rule (frame_own_type f) (f_mediaUrls f))
        (constructed (new_events w (snd (on_message E ws messageText w))))
  | None => constructed (new_events w (snd (on_message E ws messageText w))) = []
  end.
Proof.
  destruct (env_parse_frame E messageText) as [f|] eqn:Hparse.
  - unfold frame_own_type.
    destruct (String.eqb (f_type f) "direct") eqn:Hd.
    + apply String.eqb_eq in Hd.
      destruct (direct_frame_events E ws messageText f w Hparse Hd)
        as (rt & evs & res & Hq & _ & Hev).
      rewrite Hev, !constructed_app, (constructed_lookup evs Hq). cbn [app].
      apply Forall_app. split; [apply sendDirectMessage_rule | constructor].
    + destruct (String.eqb (f_type f) "group") eqn:Hg.
      * apply String.eqb_eq in Hg.
        destruct (room_members w (f_recipientId f)) as [members|] eqn:Hroom.
        -- rewrite (group_frame_run E ws messageText f w members Hparse Hg Hroom).
           cbn [snd]. rewrite new_events_with_uuid, constructed_app. cbn.
           rewrite app_nil_r. apply constructed_rule.
           apply Forall_forall. intros e [u [-> _]]%list_elem_of_fmap.
           cbn. by apply messageTypeOf_rule.
        -- rewrite (group_frame_wrongtype E ws messageText f w Hparse Hg Hroom).
           cbn [snd]. rewrite new_events_with_trace. constructor.
      * unfold on_message. unfold try_catch at 1. unfold bind at 1.
        rewrite Hparse. unfold ret at 1. cbn beta iota. rewrite Hd, Hg.
        unfold ws_send. rewrite emit_run. cbn [snd].
        rewrite new_events_with_trace. constructor.
  - unfold on_message. unfold try_catch at 1. unfold bind at 1.
    rewrite Hparse. unfold throw at 1. cbn beta iota.
    unfold bind, console, ws_send. rewrite emit_run, (emit_after w [_]). cbn [snd].
    by rewrite new_events_with_trace.
Qed.

(** The envelopes a 'group' frame builds: the one envelope, once for every
    member of the room other than the sender. *)
Lemma group_frame_built E ws messageText f w members :
  env_parse_frame E messageText = Some f →
  f_type f = "group" →
  room_members w (f_recipientId f) = Some members →
  constructed (new_events w (snd (on_message E ws messageText w)))
  = map (λ _, group_envelope E ws f w (elements members))
        (filter (λ id, id ≠ ws_userId ws) (elements members)).
Proof.
  intros Hparse Hg Hroom.
  rewrite (group_frame_run E ws messageText f w members Hparse Hg Hroom).
  cbn [snd]. rewrite new_events_with_uuid, constructed_app. cbn.
  rewrite app_nil_r.
  induction (filter (λ id, id ≠ ws_userId ws) (elements members)) as [|u us IH];
    [done|]. cbn. by rewrite <- IH.
Qed.

(** C10: every message the core builds carries the caller's [mediaUrls]; its
    [messageType] is 'media' when that array is non-empty, and otherwise the
    type of the path that built it: 'direct' ([sendDirectMessage] and the
    'direct' frame), 'announcement' ([sendAnnouncement]), 'daily-note'
    ([sendDailyNote]), 'group' (the 'group' frame).  A message counts as
    built when it is handed to the document store, whether or not the store
    takes it, or to a channel.  Each path does build its messages: an allowed
    direct message builds one, an announcement one for each recipient, a
    daily note of a member of staff or a director one, and a 'group' frame
    one envelope for the members of the room other than the sender. *)
Theorem C10_media_overrides_path_type
    (E : Env) (w : World) (ws : Socket) (messageText : string)
    (senderId : string) (senderType : Role) (recipientId : string)
    (recipientType : Role) (studentId tenantId : string)
    (recipientIds : list string) (subject content : string)
    (mediaUrls : option (list string)) :
  let direct :=
    constructed
      (new_events w
         (snd (sendDirectMessage E senderId senderType recipientId recipientType
                 tenantId subject content mediaUrls w))) in
  let announce :=
    constructed
      (new_events w
         (snd (sendAnnouncement E senderId senderType tenantId recipientIds
                 subject content mediaUrls w))) in
  let note :=
    constructed
      (new_events w
         (snd (sendDailyNote E senderId senderType recipientId studentId
                 tenantId subject content mediaUrls w))) in
  let framed := constructed (new_events w (snd (on_message E ws messageText w))) in
  (Forall (records_media_rule mt_direct mediaUrls) direct
   ∧ length direct
     = if canMessage (checkCommunicationPermissions senderId senderType
                        recipientId recipientType)
       then 1%nat else 0%nat)
  ∧ (Forall (records_media_rule mt_announcement mediaUrls) announce
     ∧ map m_recipientIds announce = map (λ rid, [rid]) recipientIds)
  ∧ (Forall (records_media_rule mt_daily_note mediaUrls) note
     ∧ length note
       = if bool_decide (senderType ≠ staff) && bool_decide (senderType ≠ director)
         then 0%nat else 1%nat)
  ∧ match env_parse_frame E messageText with
    | Some f =>
        Forall (records_media_rule (frame_own_type f) (f_mediaUrls f)) framed
        ∧ ∀ members,
            f_type f = "group" →
            room_members w (f_recipientId f) = Some members →
            framed
            = map (λ _, group_envelope E ws f w (elements members))
                  (filter (λ id, id ≠ ws_userId ws) (elements members))
    | None => framed = []
    end.
Proof.
  cbv zeta. split; [|split; [|split]].
  - split; [apply sendDirectMessage_rule|].
    rewrite sendDirectMessage_built. by destruct (canMessage _).
  - apply sendAnnouncement_built.
  - split; [apply sendDailyNote_rule|].
    rewrite sendDailyNote_built. by destruct (_ && _).
  - pose proof (on_message_rule E ws messageText w) as Hrule.
    destruct (env_parse_frame E messageText) as [f|] eqn:Hparse; [|exact Hrule].
    split; [exact Hrule|].
    intros members Hg Hroom. by apply group_frame_built.
Qed.

(** ** Service validation and its cache *)

Lemma redis_get_run k w :
  redis_get k w
  = match redis_live (w_now w) (w_redis w) k with
    | None => (Ok None, w)
    | Some (RStr s) => (Ok (Some s), w)
    | Some _ => (Throw wrongtype, w)
    end.
Proof.
  unfold redis_get, bind, get_world.
  by destruct (redis_live (w_now w) (w_redis w) k) as [[]|].
Qed.

Lemma axios_gateway_run E serviceId tenantId w :
  axios_gateway E serviceId tenantId w
  = (match env_gateway E serviceId tenantId (w_now w) with
     | Ok r => Ok r
     | Throw e => Throw e
     end,
     with_trace w (w_trace w ++ [EvGatewayCall serviceId tenantId])).
Proof.
  cbv [axios_gateway bind get_world emit ret throw].
  by destruct (env_gateway E serviceId tenantId (w_now w)).
Qed.

(** A cache miss: the gateway is called once and its verdict is cached. *)
Lemma validateService_miss E serviceId tenantId w cached :
  redis_get (service_key serviceId tenantId) w = (Ok cached, w) →
  cached ≠ Some "valid" →
  cached ≠ Some "invalid" →
  let key := service_key serviceId tenantId in
  let w1 := with_trace w (w_trace w ++ [EvGatewayCall serviceId tenantId]) in
  validateServiceViaGateway E serviceId tenantId w
  = match env_gateway E serviceId tenantId (w_now w) with
    | Ok r =>
        if ax_status r =? 200
        then (Ok (valid_result tenantId),
              snd (set_redis (<[key := cache_entry w "valid" 600]> (w_redis w)) w1))
        else (Ok (invalid_result "Service authentication failed"),
              snd (set_redis (<[key := cache_entry w "invalid" 300]> (w_redis w)) w1))
    | Throw e =>
        (Ok (invalid_result (rejection_reason e)),
         snd (console lvl_error
                (if je_axios e
                 then "Janus-Gateway validation error: " +:+ je_message e
                 else "Unexpected error during service validation: " +:+ je_message e)
                (snd (set_redis (<[key := cache_entry w "invalid" 300]> (w_redis w)) w1))))
    end.
Proof.
  intros Hget Hv Hi. cbv zeta.
  unfold validateServiceViaGateway. unfold bind at 1. rewrite Hget.
  rewrite (bool_decide_eq_false_2 _ Hv), (bool_decide_eq_false_2 _ Hi).
  unfold try_catch. unfold bind at 1. rewrite axios_gateway_run.
  destruct (env_gateway E serviceId tenantId (w_now w)) as [r|e].
  - destruct (ax_status r =? 200); reflexivity.
  - unfold rejection_reason. destruct (je_axios e); reflexivity.
Qed.

(** C9: a cached verdict, valid or invalid, is returned as it is, with no
    gateway call and no change of the store; on a miss the gateway is called
    once, a 200 answer is cached as 'valid' for 600 seconds, and any other
    answer or a rejected call is cached as 'invalid' for 300 seconds. *)
Theorem C9_service_validation_cache (E : Env) (serviceId tenantId : string) (w : World) :
  let key := service_key serviceId tenantId in
  let run := validateServiceViaGateway E serviceId tenantId w in
  let evs := new_events w (snd run) in
  match cache_state w serviceId tenantId with
  | Hit true => run = (Ok (valid_result tenantId), w)
  | Hit false => run = (Ok (invalid_result "Service authentication failed"), w)
  | Broken => run = (Throw wrongtype, w)
  | Miss =>
      filter is_gateway_call evs = [EvGatewayCall serviceId tenantId]
      ∧ match env_gateway E serviceId tenantId (w_now w) with
        | Ok r =>
            if ax_status r =? 200
            then fst run = Ok (valid_result tenantId)
                 ∧ w_redis (snd run) = <[key := cache_entry w "valid" 600]> (w_redis w)
            else fst run = Ok (invalid_result "Service authentication failed")
                 ∧ w_redis (snd run) = <[key := cache_entry w "invalid" 300]> (w_redis w)
        | Throw e =>
            fst run = Ok (invalid_result (rejection_reason e))
            ∧ w_redis (snd run) = <[key := cache_entry w "invalid" 300]> (w_redis w)
        end
  end.
Proof.
  cbv zeta. unfold cache_state.
  pose proof (redis_get_run (service_key serviceId tenantId) w) as Hget.
  assert (Hmiss : ∀ cached,
    redis_get (service_key serviceId tenantId) w = (Ok cached, w) →
    cached ≠ Some "valid" → cached ≠ Some "invalid" →
    filter is_gateway_call
      (new_events w (snd (validateServiceViaGateway E serviceId tenantId w)))
    = [EvGatewayCall serviceId tenantId]
    ∧ match env_gateway E serviceId tenantId (w_now w) with
      | Ok r =>
          if ax_status r =? 200
          then fst (validateServiceViaGateway E serviceId tenantId w)
               = Ok (valid_result tenantId)
               ∧ w_redis (snd (validateServiceViaGateway E serviceId tenantId w))
                 = <[service_key serviceId tenantId := cache_entry w "valid" 600]>
                     (w_redis w)
          else fst (validateServiceViaGateway E serviceId tenantId w)
               = Ok (invalid_result "Service authentication failed")
               ∧ w_redis (snd (validateServiceViaGateway E serviceId tenantId w))
                 = <[service_key serviceId tenantId := cache_entry w "invalid" 300]>
                     (w_redis w)
      | Throw e =>
          fst (validateServiceViaGateway E serviceId tenantId w)
          = Ok (invalid_result (rejection_reason e))
          ∧ w_redis (snd (validateServiceViaGateway E serviceId tenantId w))
            = <[service_key serviceId tenantId := cache_entry w "invalid" 300]>
                (w_redis w)
      end).
  { intros cached Hc Hv Hi.
    rewrite (validateService_miss E serviceId tenantId w cached Hc Hv Hi). cbv zeta.
    destruct (env_gateway E serviceId tenantId (w_now w)) as [r|e].
    - destruct (ax_status r =? 200); cbn [fst snd set_redis];
        (split; [|by split]); unfold new_events; cbn; by rewrite drop_app_length.
    - cbn [fst snd set_redis]. unfold console. rewrite emit_run. cbn [snd].
      split; [|by split]. unfold new_events; cbn.
      rewrite <- app_assoc, drop_app_length. by destruct (je_axios e). }
  destruct (redis_live (w_now w) (w_redis w) (service_key serviceId tenantId))
    as [[c|h|m]|].
  - destruct (String.eqb c "valid") eqn:Hv.
    { apply String.eqb_eq in Hv as ->.
      unfold validateServiceViaGateway, bind. by rewrite Hget. }
    destruct (String.eqb c "invalid") eqn:Hi.
    { apply String.eqb_eq in Hi as ->.
      unfold validateServiceViaGateway, bind. by rewrite Hget. }
    apply String.eqb_neq in Hv, Hi. apply (Hmiss (Some c) Hget); congruence.
  - unfold validateServiceViaGateway, bind. by rewrite Hget.
  - unfold validateServiceViaGateway, bind. by rewrite Hget.
  - by apply (Hmiss None Hget).
Qed.

(** ** Failing dependencies *)

Lemma cache_miss_get w serviceId tenantId :
  cache_state w serviceId tenantId = Miss →
  ∃ cached,
    redis_get (service_key serviceId tenantId) w = (Ok cached, w)
    ∧ cached ≠ Some "valid" ∧ cached ≠ Some "invalid".
Proof.
  unfold cache_state. rewrite redis_get_run.
  destruct (redis_live (w_now w) (w_redis w) (service_key serviceId tenantId))
    as [[c|h|m]|]; try done.
  - destruct (String.eqb c "valid") eqn:Hv; [done|].
    destruct (String.eqb c "invalid") eqn:Hi; [done|].
    apply String.eqb_neq in Hv, Hi. intros _. exists (Some c). split; [done|].
    split; congruence.
  - intros _. by exists None.
Qed.

(** Service validation fails closed. *)
Lemma validateService_fails_closed E serviceId tenantId w :
  cache_state w serviceId tenantId = Miss →
  gateway_failed (env_gateway E serviceId tenantId (w_now w)) = true →
  ∃ r, fst (validateServiceViaGateway E serviceId tenantId w) = Ok r
       ∧ sv_isValid r = false.
Proof.
  intros Hmiss Hfail.
  destruct (cache_miss_get w serviceId tenantId Hmiss) as (cached & Hget & Hv & Hi).
  rewrite (validateService_miss E serviceId tenantId w cached Hget Hv Hi). cbv zeta.
  destruct (env_gateway E serviceId tenantId (w_now w)) as [r|e]; cbn in Hfail.
  - apply negb_true_iff in Hfail. rewrite Hfail. by eexists.
  - by eexists.
Qed.

Lemma axios_verify_run E token w :
  axios_verify E token w
  = (match env_verify E token (w_now w) with
     | Ok r => Ok r
     | Throw e => Throw e
     end,
     with_trace w (w_trace w ++ [EvJanusCall "/api/v1/auth/verify" token])).
Proof.
  cbv [axios_verify bind get_world emit ret throw].
  by destruct (env_verify E token (w_now w)).
Qed.

(** Token verification fails closed. *)
Lemma validateUserIdentity_fails_closed E userId token w :
  verify_failed (env_verify E token (w_now w)) = true →
  ∃ r, fst (validateUserIdentity E userId token w) = Ok r ∧ iv_isValid r = false.
Proof.
  intros Hfail. unfold validateUserIdentity, try_catch.
  unfold bind at 1. rewrite axios_verify_run.
  destruct (env_verify E token (w_now w)) as [r|e]; cbn in Hfail.
  - unfold bind at 1, body_of.
    destruct (ax_data r) as [b|].
    + unfold ret at 1.
      destruct (negb (ax_status r =? 200)) eqn:Hs; cbn [orb] in *.
      { by eexists. }
      destruct (jb_success b); cbn [negb orb] in *.
      * destruct (jb_data b ≫= jd_user); [done|]. by eexists.
      * by eexists.
    + unfold throw at 1. unfold bind, console. rewrite emit_run.
      cbn. by eexists.
  - unfold bind, console. rewrite emit_run.
    destruct (je_axios e); by eexists.
Qed.

Lemma callJanusApi_answer E endpoint token w :
  fst (callJanusApi E endpoint token w)
  = match env_janus_api E endpoint (if truthy token then Some token else None)
            (w_now w) with
    | Ok response =>
        if (200 <=? ax_status response) && (ax_status response <? 300)
           && from_option jb_success false (ax_data response)
        then Ok {| api_success := true; api_data := ax_data response;
                   api_error := None |}
        else Ok {| api_success := false; api_data := None;
                   api_error := Some (or_default (ax_data response ≫= jb_error)
                                        ("HTTP " +:+ pretty (ax_status response))) |}
    | Throw e =>
        Ok {| api_success := false; api_data := None;
              api_error :=
                Some (if je_axios e
                      then or_default (je_response_error e)
                             (or_default (Some (je_message e)) "API call failed")
                      else "API call failed") |}
    end.
Proof.
  cbv [callJanusApi try_catch bind axios_request get_world emit console ret throw].
  destruct (env_janus_api E endpoint (if truthy token then Some token else None)
              (w_now w)) as [r|e].
  - by destruct ((200 <=? ax_status r) && (ax_status r <? 300)
                 && from_option jb_success false (ax_data r)).
  - by destruct (je_axios e).
Qed.

(** The recipient lookup falls back to 'guardian' when its call fails. *)
Lemma determineRecipientType_fallback E recipientId token w :
  lookup_failed
    (env_janus_api E ("/api/v1/users/" +:+ recipientId)
       (if truthy token then Some token else None) (w_now w)) = true →
  fst (determineRecipientType E recipientId token w) = Ok guardian.
Proof.
  intros Hfail. unfold determineRecipientType, try_catch. unfold bind at 1.
  pose proof (callJanusApi_answer E ("/api/v1/users/" +:+ recipientId) token w) as Hans.
  destruct (callJanusApi E ("/api/v1/users/" +:+ recipientId) token w) as [resp w1].
  cbn [fst] in Hans. subst resp.
  destruct (env_janus_api E ("/api/v1/users/" +:+ recipientId)
              (if truthy token then Some token else None) (w_now w)) as [r|e];
    [|by destruct (je_axios e)].
  unfold lookup_failed in Hfail.
  destruct ((200 <=? ax_status r) && (ax_status r <? 300)) eqn:Hs; [|done].
  destruct (ax_data r) as [b|] eqn:Hb; [|done].
  cbn [from_option andb negb orb] in *.
  destruct (jb_success b) eqn:Hsucc; [|done].
  cbn [api_success api_data andb from_option negb orb] in *. rewrite Hsucc.
  change (mbind jd_user (mbind jb_data (Some b))) with (jb_data b ≫= jd_user).
  destruct (jb_data b ≫= jd_user) as [user|] eqn:Hu; [|done].
  cbn [mbind option_bind] in Hfail.
  change (option_bind _ _ role_of_label (ju_role user))
    with (ju_role user ≫= role_of_label) in Hfail.
  by destruct (ju_role user ≫= role_of_label).
Qed.

(** C7 (as the code behaves): when its remote call fails, service validation
    and token verification answer invalid, while the lookup of the
    recipient's role answers the role 'guardian'. *)
Theorem C7_validations_fail_closed_lookup_defaults
    (E : Env) (serviceId tenantId userId token recipientId : string) (w : World) :
  (cache_state w serviceId tenantId = Miss →
   gateway_failed (env_gateway E serviceId tenantId (w_now w)) = true →
   ∃ r, fst (validateServiceViaGateway E serviceId tenantId w) = Ok r
        ∧ sv_isValid r = false)
  ∧ (verify_failed (env_verify E token (w_now w)) = true →
     ∃ r, fst (validateUserIdentity E userId token w) = Ok r
          ∧ iv_isValid r = false)
  ∧ (lookup_failed
       (env_janus_api E ("/api/v1/users/" +:+ recipientId)
          (if truthy token then Some token else None) (w_now w)) = true →
     fst (determineRecipientType E recipientId token w) = Ok guardian).
Proof.
  split; [|split].
  - apply validateService_fails_closed.
  - apply validateUserIdentity_fails_closed.
  - apply determineRecipientType_fallback.
Qed.

(** ** The statements on concrete runs *)

(** With Janus unreachable, the lookup of the student student:9 answers the
    role 'guardian', and under that role the policy lets the director
    through: the lookup does not fail closed. *)
Lemma C7_lookup_fails_open : ¬ recipient_lookup_fails_closed.
Proof.
  intros Hclaim.
  pose proof (Hclaim env_down "student:9" "tok" world0 guardian "director:1" director
                eq_refl eq_refl) as Hdenied.
  discriminate Hdenied.
Qed.

(** A record of unknown type is acknowledged. *)
Lemma C5_unknown_type_is_acknowledged : ¬ unknown_type_left_pending.
Proof.
  intros Hclaim.
  apply (Hclaim env_up (world_queue "mystery" "{}") (demo_record "mystery" "{}")
           eq_refl eq_refl).
  rewrite (unknown_type_turn env_up (demo_record "mystery" "{}") (JObj [])
             (world_queue "mystery" "{}") eq_refl eq_refl eq_refl).
  cbn [snd]. unfold new_events. rewrite w_trace_with_trace.
  cbn. set_solver.
Qed.

(** A director and a student may not write to each other; a member of staff
    and a guardian may. *)
Lemma C1_two_pairs :
  canMessage (checkCommunicationPermissions "director:1" director "student:9" student)
  = false
  ∧ canMessage (checkCommunicationPermissions "student:9" student "director:1" director)
    = false
  ∧ canMessage (checkCommunicationPermissions "staff:7" staff "guardian:42" guardian)
    = true.
Proof.
  split; [|split].
  - apply (C1_policy_director_student_only "director:1" "student:9" director student).
    left. split; reflexivity.
  - apply (C1_policy_director_student_only "student:9" "director:1" student director).
    right. split; reflexivity.
  - apply (C1_policy_director_student_only "staff:7" "guardian:42" staff guardian).
    intros [[H _] | [H _]]; discriminate H.
Defined.

(** The director's frame to student:9 under a reachable Janus: the policy
    denies, nothing is written or published, the error frame is sent. *)
Lemma C2_director_to_student :
  let w' := snd (on_message env_up director_socket "direct-to-student" world0) in
  w_messages w' = []
  ∧ filter is_persist (new_events world0 w') = []
  ∧ filter is_publish (new_events world0 w') = []
  ∧ last (w_trace w')
    = Some (EvSend (error_frame
                      "Communication between Director and Student is not allowed")).
Proof.
  pose proof (C2_denied_direct_message_not_executed env_up director_socket
                "direct-to-student"
                {| f_type := "direct"; f_recipientId := "student:9";
                   f_content := "hello"; f_subject := None; f_mediaUrls := None |}
                world0
                (snd (determineRecipientType env_up "student:9" "tok" world0))
                student eq_refl eq_refl eq_refl eq_refl)
    as (_ & Hm & Hpersist & Hpublish & Hlast & _).
  exact (conj Hm (conj Hpersist (conj Hpublish Hlast))).
Defined.

(** A session stored for one hour and an upgrade one second later. *)
Lemma C3_stored_session_is_refused :
  let w2 := snd (storeSession "session_1" "staff:7" "t1" 3600 world0) in
  filter is_upgrade (new_events w2 (snd (upgrade (upgrade_request "session_1") w2))) = []
  ∧ last (w_trace (snd (upgrade (upgrade_request "session_1") w2))) = Some EvClose.
Proof.
  pose proof (C3_upgrade_after_storeSession_closes "session_1" "staff:7" "t1" 3600
                world0 (snd (storeSession "session_1" "staff:7" "t1" 3600 world0))
                (snd (storeSession "session_1" "staff:7" "t1" 3600 world0))
                (upgrade_request "session_1") eq_refl eq_refl eq_refl)
    as (_ & Hup & Hlast).
  exact (conj Hup Hlast).
Defined.


(** A record of type 'mystery' is logged as unknown and then acknowledged;
    the older [handleTask] leaves it pending when its payload is [null]. *)
Lemma C5_mystery_task :
  new_events (world_queue "mystery" "{}")
    (snd (processQueue_turn env_up (handleTask env_up) (world_queue "mystery" "{}")))
  = [ processing_line (demo_record "mystery" "{}");
      handling_event (demo_record "mystery" "{}");
      EvLog lvl_warn "Unknown task type: mystery";
      EvAck "1700000000000-0";
      acknowledged_line (demo_record "mystery" "{}") ]
  ∧ "1700000000000-0"
    ∈ s_pending
        (w_stream (snd (processQueue_turn env_up (handleTask_draft env_up)
                          (world_queue "mystery" "null")))).
Proof.
  pose proof (C5_unknown_type_logged_and_acknowledged env_up
                (world_queue "mystery" "{}") (demo_record "mystery" "{}") (JObj [])
                eq_refl eq_refl eq_refl) as [(Hlog & _) _].
  pose proof (C5_unknown_type_logged_and_acknowledged env_up
                (world_queue "mystery" "null") (demo_record "mystery" "null") JNull
                eq_refl eq_refl eq_refl) as [_ (_ & Hpending)].
  exact (conj Hlog Hpending).
Defined.

Lemma guardian_in_r1 : "guardian:42" ∈ r1_members.
Proof. apply elem_of_union_r, elem_of_singleton. reflexivity. Qed.

(** The director's group frame to room r1 reaches guardian:42 although the
    'messages' collection stays empty. *)
Lemma C6_group_message_never_written :
  let w' := snd (on_message env_up director_socket "group-to-r1" world_room) in
  filter is_publish (new_events world_room w') ≠ []
  ∧ filter is_persist (new_events world_room w') = []
  ∧ w_messages w' = [].
Proof.
  pose proof (C6_group_publish_without_persist env_up director_socket "group-to-r1"
                {| f_type := "group"; f_recipientId := "r1"; f_content := "hi all";
                   f_subject := None;
                   f_mediaUrls := Some ["https://cdn.example.org/p.png"] |}
                world_room r1_members "guardian:42"
                eq_refl eq_refl eq_refl guardian_in_r1 ltac:(discriminate))
    as (Hpub & Hpersist & Hm).
  split; [|exact (conj Hpersist Hm)].
  intros Hnone.
  assert (Hin : EvPublish ("user:" +:+ "guardian:42")
                  (group_envelope env_up director_socket
                     {| f_type := "group"; f_recipientId := "r1";
                        f_content := "hi all"; f_subject := None;
                        f_mediaUrls := Some ["https://cdn.example.org/p.png"] |}
                     world_room (elements r1_members))
                ∈ filter is_publish
                    (new_events world_room
                       (snd (on_message env_up director_socket "group-to-r1"
                               world_room)))).
  { apply list_elem_of_filter. split; [exact I | exact Hpub]. }
  rewrite Hnone in Hin. by apply not_elem_of_nil in Hin.
Defined.

(** The same frame: one publish, to user:guardian:42, none to the sender. *)
Lemma C8_room_r1_fan_out :
  let evs := new_events world_room
               (snd (on_message env_up director_socket "group-to-r1" world_room)) in
  length (filter (λ c, c = "user:guardian:42") (published_channels evs)) = 1%nat
  ∧ length (filter (λ c, c = "user:director:1") (published_channels evs)) = 0%nat.
Proof.
  pose proof (C8_group_fan_out env_up director_socket "group-to-r1"
                {| f_type := "group"; f_recipientId := "r1"; f_content := "hi all";
                   f_subject := None;
                   f_mediaUrls := Some ["https://cdn.example.org/p.png"] |}
                world_room r1_members eq_refl eq_refl eq_refl) as (Hcount & _).
  split.
  - specialize (Hcount "guardian:42").
    rewrite bool_decide_eq_true_2 in Hcount; [exact Hcount|].
    split; [exact guardian_in_r1 | discriminate].
  - specialize (Hcount "director:1").
    rewrite bool_decide_eq_false_2 in Hcount; [exact Hcount|].
    intros [_ Hne]. by apply Hne.
Defined.

(** A direct message with a picture is built as 'media', one without as
    'direct'; the group frame of the scenarios, which carries a picture,
    builds one envelope of type 'media'. *)
Lemma C10_picture_is_media :
  map m_messageType
    (constructed
       (new_events world0
          (snd (sendDirectMessage env_up "staff:7" staff "guardian:42" guardian "t1"
                  "Trip" "Photos" (Some ["https://cdn.example.org/p.png"]) world0))))
  = [mt_media]
  ∧ map m_messageType
      (constructed
         (new_events world0
            (snd (sendDirectMessage env_up "staff:7" staff "guardian:42" guardian
                    "t1" "Trip" "No photos" None world0))))
    = [mt_direct]
  ∧ map m_messageType
      (constructed
         (new_events world_room
            (snd (on_message env_up director_socket "group-to-r1" world_room))))
    = [mt_media].
Proof.
  split; [|split].
  - pose proof (C10_media_overrides_path_type env_up world0 director_socket
                  "group-to-r1" "staff:7" staff "guardian:42" guardian "student:9"
                  "t1" [] "Trip" "Photos" (Some ["https://cdn.example.org/p.png"]))
      as ((Hrule & Hlen) & _).
    cbv zeta in Hrule, Hlen.
    destruct (constructed _) as [|msg [|msg' rest]]; try discriminate Hlen.
    apply Forall_inv in Hrule. destruct Hrule as (_ & Hmedia & _).
    cbn [map]. rewrite Hmedia; [reflexivity|]. by eexists _, _.
  - pose proof (C10_media_overrides_path_type env_up world0 director_socket
                  "group-to-r1" "staff:7" staff "guardian:42" guardian "student:9"
                  "t1" [] "Trip" "No photos" None)
      as ((Hrule & Hlen) & _).
    cbv zeta in Hrule, Hlen.
    destruct (constructed _) as [|msg [|msg' rest]]; try discriminate Hlen.
    apply Forall_inv in Hrule. destruct Hrule as (_ & _ & Hown).
    cbn [map]. rewrite Hown; [reflexivity|]. by left.
  - pose proof (C10_media_overrides_path_type env_up world_room director_socket
                  "group-to-r1" "staff:7" staff "guardian:42" guardian "student:9"
                  "t1" [] "Trip" "Photos" None)
      as (_ & _ & _ & _ & Hbuilt).
    cbv zeta in Hbuilt.
    rewrite (Hbuilt r1_members eq_refl eq_refl).
    vm_compute. reflexivity.
Defined.

(** With every remote service unreachable: both validations answer invalid,
    and the recipient lookup answers 'guardian'. *)
Lemma C7_unreachable_services :
  (∃ r, fst (validateServiceViaGateway env_down "athena" "t1" world0) = Ok r
        ∧ sv_isValid r = false)
  ∧ (∃ r, fst (validateUserIdentity env_down "staff:7" "tok" world0) = Ok r
          ∧ iv_isValid r = false)
  ∧ fst (determineRecipientType env_down "student:9" "tok" world0) = Ok guardian.
Proof.
  pose proof (C7_validations_fail_closed_lookup_defaults env_down "athena" "t1"
                "staff:7" "tok" "student:9" world0) as (Hs & Hi & Hl).
  exact (conj (Hs eq_refl eq_refl) (conj (Hi eq_refl) (Hl eq_refl))).
Defined.

(** ** The upgrade on its other paths *)

(** A request without a session id, or without an authorization header, is
    closed before the store is asked. *)
Lemma upgrade_rejects_missing (req : Request) (w : World) :
  req_sessionId req = None
  ∨ (req_getHeader req "authorization" = "" ∧ req_getHeader req "Authorization" = "") →
  upgrade req w = (Ok tt, with_trace w (w_trace w ++ [EvClose])).
Proof.
  intros [Hsid | [Hl Hu]]; unfold upgrade; cbv zeta.
  - by rewrite Hsid.
  - rewrite Hl, Hu. cbn [truthy String.eqb negb from_option].
    by rewrite orb_true_r.
Qed.

(** The three reads after the session lookup, then the upgrade. *)
Lemma late_reads_run (req : Request) (ud : UserData) (w : World) :
  bind (getHeader_late req "sec-websocket-key") (λ _,
    bind (getHeader_late req "sec-websocket-protocol") (λ _,
      bind (getHeader_late req "sec-websocket-extensions") (λ _,
        emit (EvUpgrade ud)))) w
  = match late_failure req with
    | None => (Ok tt, with_trace w (w_trace w ++ [EvUpgrade ud]))
    | Some e => (Throw e, w)
    end.
Proof.
  unfold late_failure, bind, getHeader_late.
  destruct (req_late req "sec-websocket-key"); [|done].
  destruct (req_late req "sec-websocket-protocol"); [|done].
  by destruct (req_late req "sec-websocket-extensions").
Qed.

(** With a live hash that carries a [userId], the upgrade binds the hash's
    fields, the session id and the token when the reads it makes after the
    lookup answer; when one of them throws it logs the error and closes. *)
Lemma upgrade_binds_hash_session (req : Request) (sid uid : string)
    (data : gmap string string) (w : World) :
  let authHeader :=
    if truthy (req_getHeader req "authorization")
    then req_getHeader req "authorization"
    else req_getHeader req "Authorization" in
  req_sessionId req = Some sid →
  truthy sid = true →
  truthy authHeader = true →
  truthy (replace_first "Bearer " "" authHeader) = true →
  redis_live (w_now w) (w_redis w) ("session:" +:+ sid) = Some (RHash data) →
  data !! "userId" = Some uid →
  truthy uid = true →
  upgrade req w
  = (Ok tt,
     with_trace w
       (w_trace w ++
          match late_failure req with
          | None =>
              [EvUpgrade {| ud_userId := uid;
                            ud_userType := data !! "userType";
                            ud_tenantId := data !! "tenantId";
                            ud_sessionId := sid;
                            ud_token := replace_first "Bearer " "" authHeader |}]
          | Some _ => [EvLog lvl_error "Error during WebSocket upgrade:"; EvClose]
          end)).
Proof.
  cbv zeta. intros Hsid Hts Hta Htt Hlive Hu Htu.
  unfold upgrade. cbv zeta. rewrite Hsid, Hta. cbn [from_option default id].
  rewrite Hts, Htt. cbn [negb orb].
  unfold try_catch at 1. unfold bind at 1.
  unfold getSessionData, try_catch, bind at 1, redis_hGetAll, bind at 1, get_world.
  rewrite Hlive. unfold ret. rewrite Hu. cbn [from_option default id].
  rewrite Htu, late_reads_run, Hu. cbn [default from_option id].
  destruct (late_failure req); [|reflexivity].
  unfold bind, console. by rewrite emit_run, (emit_after w [_]).
Qed.

Example upgrade_of_a_hash_session :
  new_events world_hash_session
    (snd (upgrade (upgrade_request "session_9") world_hash_session))
  = [EvLog lvl_error "Error during WebSocket upgrade:"; EvClose].
Proof. vm_compute. reflexivity. Qed.

(** The other reader of the same key, [validateSession], uses GET and finds
    the session that [storeSession] wrote, for the issuing user only. *)
Lemma validateSession_after_storeSession sessionId userId tenantId expiry w w1 w2 other :
  storeSession sessionId userId tenantId expiry w = (Ok tt, w1) →
  w_redis w2 = w_redis w1 →
  w_now w2 < w_now w + expiry →
  fst (validateSession sessionId other w2) = Ok (bool_decide (other = userId)).
Proof.
  intros Hstore Hsame Hnow.
  unfold validateSession, bind. rewrite redis_get_run. unfold redis_live.
  rewrite Hsame, (storeSession_session_key _ _ _ _ _ _ Hstore). cbn.
  rewrite (proj2 (Z.ltb_lt _ _) Hnow). cbn. f_equal.
  apply bool_decide_ext. split; congruence.
Qed.

(** ** The direct path and the document store *)

(** A 'direct' frame neither writes nor publishes: when the policy allows the
    pair, the message is built and handed to the store, the client refuses
    the document, and the publish is not reached. *)
Lemma direct_frame_delivers_nothing E ws messageText f w :
  env_parse_frame E messageText = Some f →
  f_type f = "direct" →
  filter delivery_event (new_events w (snd (on_message E ws messageText w))) = [].
Proof.
  intros Hparse Htype.
  destruct (direct_frame_events E ws messageText f w Hparse Htype)
    as (rt & evs & res & Hq & _ & Hev).
  rewrite Hev, !filter_app, sendDirectMessage_events.
  rewrite (filter_excluded delivery_event lookup_event evs); [|by intros []|done].
  by destruct (canMessage _).
Qed.

(** The scenario of the specification: staff:7 writes to guardian:42. *)
Example staff_to_guardian :
  new_events world0 (snd (on_message env_up staff_socket "direct-to-guardian" world0))
  = let m := {| m_id := "msg_0192-0001"; m_senderId := "staff:7";
                m_senderType := staff; m_recipientIds := ["guardian:42"];
                m_tenantId := "t1"; m_messageType := mt_direct;
                m_subject := Some "Direct Message";
                m_content := "Homework due Friday"; m_mediaUrls := None;
                m_status := st_sent; m_sentAt := 1000;
                m_deliveredAt := None; m_readAt := None; m_expiresAt := None |} in
    [ EvJanusCall "/api/v1/users/guardian:42" "tok";
      EvAdd m;
      EvLog lvl_error "Error sending direct message:";
      EvSend (error_frame "Failed to send message") ].
Proof. vm_compute. reflexivity. Qed.

(** A document that spells out the three dates is written when the store
    takes it. *)
Example complete_document_is_written :
  let m := {| m_id := "msg_1"; m_senderId := "staff:7";
              m_senderType := staff; m_recipientIds := ["guardian:42"];
              m_tenantId := "t1"; m_messageType := mt_direct;
              m_subject := None; m_content := "read"; m_mediaUrls := None;
              m_status := st_read; m_sentAt := 900;
              m_deliveredAt := Some 910; m_readAt := Some 920;
              m_expiresAt := Some 4500 |} in
  saveMessage env_up m world0
  = (Ok "doc_msg_1",
     {| w_now := 1000; w_redis := ∅; w_stream := w_stream world0;
        w_messages := [m]; w_uuid := 0; w_trace := [EvAdd m; EvPersist m] |}).
Proof. reflexivity. Qed.

(** The group frame of the scenarios carries a picture: its envelope is
    recorded as 'media'. *)
Example group_frame_with_media :
  map m_messageType
    (constructed
       (new_events world_room
          (snd (on_message env_up director_socket "group-to-r1" world_room))))
  = [mt_media].
Proof. vm_compute. reflexivity. Qed.

(** ** The negative-cache window *)

(** After a failed validation the verdict 'invalid' is served from the cache
    during 300 seconds, and the next check after that is a miss again. *)
Lemma negative_cache_window E serviceId tenantId w w2 :
  cache_state w serviceId tenantId = Miss →
  gateway_failed (env_gateway E serviceId tenantId (w_now w)) = true →
  w_redis w2 = w_redis (snd (validateServiceViaGateway E serviceId tenantId w)) →
  cache_state w2 serviceId tenantId
  = if w_now w2 <? w_now w + 300 then Hit false else Miss.
Proof.
  intros Hmiss Hfail Hsame.
  destruct (cache_miss_get w serviceId tenantId Hmiss) as (cached & Hget & Hv & Hi).
  rewrite (validateService_miss E serviceId tenantId w cached Hget Hv Hi) in Hsame.
  cbv zeta in Hsame.
  assert (Hredis : w_redis w2
            = <[service_key serviceId tenantId := cache_entry w "invalid" 300]>
                (w_redis w)).
  { destruct (env_gateway E serviceId tenantId (w_now w)) as [r|e]; cbn in Hfail.
    - apply negb_true_iff in Hfail. by rewrite Hfail in Hsame.
    - exact Hsame. }
  unfold cache_state, redis_live. rewrite Hredis, lookup_insert_eq. cbn.
  by destruct (w_now w2 <? w_now w + 300).
Qed.

(** With the gateway unreachable the verdict 'invalid' is cached until
    instant 1300, and a valid answer is cached until instant 1600. *)
Example failed_validation_is_cached :
  w_redis (snd (validateServiceViaGateway env_down "athena" "t1" world0))
    !! "service:athena:t1"
  = Some {| r_val := RStr "invalid"; r_expire := Some 1300 |}
  ∧ w_redis (snd (validateServiceViaGateway env_up "athena" "t1" world0))
      !! "service:athena:t1"
    = Some {| r_val := RStr "valid"; r_expire := Some 1600 |}.
Proof. split; vm_compute; reflexivity. Qed.

(** * Further properties of the code *)

(** ** Sessions in the coordination store *)

Lemma set_redis_run st w : set_redis st w = (Ok tt, with_redis w st).
Proof. reflexivity. Qed.

Lemma redis_setEx_run k ttl v w :
  redis_setEx k ttl v w
  = if ttl <=? 0
    then (Throw (plain_error "ERR invalid expire time in 'setex' command"), w)
    else (Ok tt, with_redis w (<[k := {| r_val := RStr v;
                                        r_expire := Some (w_now w + ttl) |}]>
                                 (w_redis w))).
Proof. unfold redis_setEx, bind, get_world. by destruct (ttl <=? 0). Qed.

Lemma redis_del_run k w :
  redis_del k w = (Ok tt, with_redis w (delete k (w_redis w))).
Proof. reflexivity. Qed.

Lemma tenant_key_ne_user sid uid : "user:session:" +:+ uid ≠ "session:tenant:" +:+ sid.
Proof. cbn. discriminate. Qed.

(** The store after a successful [storeSession]. *)
Lemma storeSession_run sessionId userId tenantId expiry w :
  storeSession sessionId userId tenantId expiry w
  = if expiry <=? 0
    then (Throw (plain_error "ERR invalid expire time in 'setex' command"), w)
    else (Ok tt,
          with_redis w
            (<["user:session:" +:+ userId :=
                 {| r_val := RStr sessionId; r_expire := Some (w_now w + expiry) |}]>
               (<["session:tenant:" +:+ sessionId :=
                    {| r_val := RStr tenantId; r_expire := Some (w_now w + expiry) |}]>
                  (<["session:" +:+ sessionId :=
                       {| r_val := RStr userId;
                          r_expire := Some (w_now w + expiry) |}]> (w_redis w))))).
Proof.
  unfold storeSession. unfold bind at 1. rewrite redis_setEx_run.
  destruct (expiry <=? 0) eqn:Hexp; [done|].
  unfold bind at 1. rewrite redis_setEx_run, Hexp.
  rewrite redis_setEx_run, Hexp. reflexivity.
Qed.

(** What the two readers of a stored session answer. *)
Lemma session_reads
    (sessionId userId tenantId other : string) (expiry : Z) (w w1 w2 : World) :
  storeSession sessionId userId tenantId expiry w = (Ok tt, w1) →
  w_redis w2 = w_redis w1 →
  fst (validateSession sessionId other w2)
  = Ok (bool_decide (other = userId) && (w_now w2 <? w_now w + expiry))
  ∧ fst (getTenantFromSession sessionId w2)
    = Ok (if w_now w2 <? w_now w + expiry then Some tenantId else None).
Proof.
  intros Hstore Hsame. rewrite storeSession_run in Hstore.
  destruct (expiry <=? 0); [done|]. injection Hstore as <-.
  cbn [w_redis with_redis] in Hsame.
  unfold validateSession, getTenantFromSession, bind.
  rewrite !redis_get_run. unfold redis_live. rewrite Hsame.
  rewrite (lookup_insert_ne _ _ ("session:" +:+ sessionId)) by apply session_key_ne_user.
  rewrite (lookup_insert_ne _ _ ("session:" +:+ sessionId)) by apply session_key_ne_tenant.
  rewrite lookup_insert_eq.
  rewrite (lookup_insert_ne _ _ ("session:tenant:" +:+ sessionId))
    by apply tenant_key_ne_user.
  rewrite lookup_insert_eq. cbn [r_expire r_val].
  destruct (w_now w2 <? w_now w + expiry); cbn [fst ret].
  - split; [|done]. rewrite andb_true_r. f_equal.
    apply bool_decide_ext. split; congruence.
  - split; [|done]. by rewrite andb_false_r.
Qed.

(** X1: a session written by [storeSession] validates for the user it was
    issued to and for nobody else, and yields its tenant, until its expiry
    instant; from that instant on it validates for nobody and has no tenant. *)
Theorem X1_session_round_trip
    (sessionId userId tenantId other : string) (expiry : Z) (w w1 w2 : World) :
  storeSession sessionId userId tenantId expiry w = (Ok tt, w1) →
  w_redis w2 = w_redis w1 →
  fst (validateSession sessionId other w2)
  = Ok (bool_decide (other = userId) && (w_now w2 <? w_now w + expiry))
  ∧ fst (getTenantFromSession sessionId w2)
    = Ok (if w_now w2 <? w_now w + expiry then Some tenantId else None).
Proof.
  intros Hstore Hsame. rewrite storeSession_run in Hstore.
  destruct (expiry <=? 0); [done|]. injection Hstore as <-.
  cbn [w_redis with_redis] in Hsame.
  unfold validateSession, getTenantFromSession, bind.
  rewrite !redis_get_run. unfold redis_live. rewrite Hsame.
  rewrite (lookup_insert_ne _ _ ("session:" +:+ sessionId)) by apply session_key_ne_user.
  rewrite (lookup_insert_ne _ _ ("session:" +:+ sessionId)) by apply session_key_ne_tenant.
  rewrite lookup_insert_eq.
  rewrite (lookup_insert_ne _ _ ("session:tenant:" +:+ sessionId))
    by apply tenant_key_ne_user.
  rewrite lookup_insert_eq. cbn [r_expire r_val].
  destruct (w_now w2 <? w_now w + expiry); cbn [fst ret].
  - split; [|done]. rewrite andb_true_r. f_equal.
    apply bool_decide_ext. split; congruence.
  - split; [|done]. by rewrite andb_false_r.
Qed.

(** X2: the key that holds a session's tenant, [session:tenant:<id>], is
    also the key [validateSession] reads for the session id [tenant:<id>]:
    while the session lives, that id validates for the "user" whose id is the
    tenant's id. *)
Theorem X2_tenant_key_validates_as_session
    (sessionId userId tenantId : string) (expiry : Z) (w w1 w2 : World) :
  storeSession sessionId userId tenantId expiry w = (Ok tt, w1) →
  w_redis w2 = w_redis w1 →
  w_now w2 < w_now w + expiry →
  fst (validateSession ("tenant:" +:+ sessionId) tenantId w2) = Ok true.
Proof.
  intros Hstore Hsame Hnow.
  destruct (session_reads sessionId userId tenantId tenantId expiry w w1 w2
              Hstore Hsame) as [_ Htenant].
  rewrite (proj2 (Z.ltb_lt _ _) Hnow) in Htenant.
  unfold getTenantFromSession in Htenant.
  unfold validateSession, bind.
  change ("session:" +:+ "tenant:" +:+ sessionId) with ("session:tenant:" +:+ sessionId).
  destruct (redis_get ("session:tenant:" +:+ sessionId) w2) as [[stored|e] w3];
    cbn [fst] in *; [|done].
  injection Htenant as ->. cbn. by rewrite bool_decide_eq_true_2.
Qed.
(** X3: [removeSession] revokes at once and never fails: afterwards the
    session validates for nobody and has no tenant, whether or not it existed. *)
Theorem X3_removeSession_revokes
    (sessionId userId other : string) (w w2 : World) :
  w_redis w2 = w_redis (snd (removeSession sessionId userId w)) →
  fst (removeSession sessionId userId w) = Ok tt
  ∧ fst (validateSession sessionId other w2) = Ok false
  ∧ fst (getTenantFromSession sessionId w2) = Ok None.
Proof.
  intros Hsame.
  assert (Hrun : removeSession sessionId userId w
    = (Ok tt, with_redis w
                (delete ("user:session:" +:+ userId)
                   (delete ("session:tenant:" +:+ sessionId)
                      (delete ("session:" +:+ sessionId) (w_redis w)))))) by reflexivity.
  rewrite Hrun in *. cbn [fst snd w_redis with_redis] in *.
  split; [done|].
  unfold validateSession, getTenantFromSession, bind.
  rewrite !redis_get_run. unfold redis_live. rewrite Hsame.
  rewrite (lookup_delete_ne _ _ ("session:" +:+ sessionId)) by apply session_key_ne_user.
  rewrite (lookup_delete_ne _ _ ("session:" +:+ sessionId)) by apply session_key_ne_tenant.
  rewrite lookup_delete_eq.
  rewrite (lookup_delete_ne _ _ ("session:tenant:" +:+ sessionId))
    by apply tenant_key_ne_user.
  rewrite lookup_delete_eq. done.
Qed.

(** ** Rooms in the coordination store *)

Lemma room_key_ne_user roomId userId : "user:room:" +:+ userId ≠ "room:" +:+ roomId.
Proof. cbn. discriminate. Qed.

Lemma redis_live_insert now st k v exp :
  redis_live now (<[k := {| r_val := v; r_expire := exp |}]> st) k
  = match exp with
    | Some t => if now <? t then Some v else None
    | None => Some v
    end.
Proof. unfold redis_live. by rewrite lookup_insert_eq. Qed.

Lemma redis_live_insert_ne now st k k' e :
  k ≠ k' → redis_live now (<[k := e]> st) k' = redis_live now st k'.
Proof. intros Hne. unfold redis_live. by rewrite lookup_insert_ne. Qed.

Lemma redis_live_delete now st k : redis_live now (delete k st) k = None.
Proof. unfold redis_live. by rewrite lookup_delete_eq. Qed.

Lemma redis_live_delete_ne now st k k' :
  k ≠ k' → redis_live now (delete k st) k' = redis_live now st k'.
Proof. intros Hne. unfold redis_live. by rewrite lookup_delete_ne. Qed.

(** [addUserToRoom] on a room whose key is absent or holds a set. *)
Lemma addUserToRoom_run userId roomId expiry w members :
  room_members w roomId = Some members →
  0 < expiry →
  addUserToRoom userId roomId expiry w
  = (Ok tt,
     with_redis w
       (<["user:room:" +:+ userId :=
            {| r_val := RStr roomId; r_expire := Some (w_now w + expiry) |}]>
          (<["room:" +:+ roomId :=
               {| r_val := RSet ({[ userId ]} ∪ members);
                  r_expire := Some (w_now w + expiry) |}]> (w_redis w)))).
Proof.
  intros Hroom Hexp. unfold room_members in Hroom.
  assert (Hle : (expiry <=? 0) = false) by (apply Z.leb_gt; lia).
  unfold addUserToRoom. unfold bind at 1.
  unfold redis_sAdd. unfold bind at 1. unfold get_world at 1.
  destruct (redis_live (w_now w) (w_redis w) ("room:" +:+ roomId))
    as [[| |s]|] eqn:Hlive; simplify_eq.
  - rewrite set_redis_run.
    unfold bind at 1. unfold redis_expire, bind at 1, get_world at 1.
    cbn [w_now w_redis with_redis].
    assert (Hlive' : redis_live (w_now w)
              (<["room:" +:+ roomId :=
                   {| r_val := RSet ({[userId]} ∪ members);
                      r_expire := (w_redis w !! ("room:" +:+ roomId)) ≫= r_expire |}]>
                 (w_redis w)) ("room:" +:+ roomId)
              = Some (RSet ({[userId]} ∪ members))).
    { rewrite redis_live_insert. unfold redis_live in Hlive.
      destruct (w_redis w !! ("room:" +:+ roomId)) as [e|]; [|done]. cbn.
      destruct (r_expire e) as [t|]; [|done].
      by destruct (w_now w <? t). }
    rewrite Hlive', Hle, set_redis_run.
    rewrite redis_setEx_run, Hle. cbn [w_now w_redis with_redis].
    by rewrite insert_insert_eq.
  - rewrite set_redis_run.
    unfold bind at 1. unfold redis_expire, bind at 1, get_world at 1.
    cbn [w_now w_redis with_redis].
    rewrite redis_live_insert, Hle, set_redis_run.
    rewrite redis_setEx_run, Hle. cbn [w_now w_redis with_redis].
    rewrite insert_insert_eq. by rewrite (right_id_L ∅ (∪)).
Qed.

(** X4: adding a user to a room makes her a member next to the members the
    room already has, and restarts the expiry of the whole room: until
    [expiry] seconds after the call the room lists all of them, and from then
    on it lists nobody. *)
Theorem X4_room_add_then_list
    (userId roomId : string) (expiry : Z) (w w2 : World) (members : gset string) :
  room_members w roomId = Some members →
  0 < expiry →
  w_redis w2 = w_redis (snd (addUserToRoom userId roomId expiry w)) →
  fst (addUserToRoom userId roomId expiry w) = Ok tt
  ∧ fst (getUsersInRoom roomId w2)
    = Ok (if w_now w2 <? w_now w + expiry
          then elements ({[ userId ]} ∪ members)
          else []).
Proof.
  intros Hroom Hexp Hsame.
  rewrite (addUserToRoom_run userId roomId expiry w members Hroom Hexp) in *.
  cbn [fst snd w_redis with_redis] in *. split; [done|].
  unfold getUsersInRoom, redis_sMembers, bind, get_world. rewrite Hsame.
  rewrite redis_live_insert_ne by apply room_key_ne_user.
  rewrite redis_live_insert.
  by destruct (w_now w2 <? w_now w + expiry).
Qed.

(** [removeUserFromRoom] on a room whose key is absent or holds a set. *)
Lemma removeUserFromRoom_run userId roomId w members :
  room_members w roomId = Some members →
  removeUserFromRoom userId roomId w
  = (Ok tt,
     with_redis w
       (delete ("user:room:" +:+ userId)
          match redis_live (w_now w) (w_redis w) ("room:" +:+ roomId) with
          | Some (RSet s) =>
              if bool_decide (s ∖ {[ userId ]} = ∅)
              then delete ("room:" +:+ roomId) (w_redis w)
              else <["room:" +:+ roomId :=
                       {| r_val := RSet (s ∖ {[ userId ]});
                          r_expire := (w_redis w !! ("room:" +:+ roomId)) ≫= r_expire |}]>
                     (w_redis w)
          | _ => w_redis w
          end)).
Proof.
  intros Hroom. unfold room_members in Hroom.
  unfold removeUserFromRoom. unfold bind at 1.
  unfold redis_sRem. unfold bind at 1. unfold get_world at 1.
  destruct (redis_live (w_now w) (w_redis w) ("room:" +:+ roomId))
    as [[| |s]|] eqn:Hlive; simplify_eq.
  - by case_bool_decide.
  - reflexivity.
Qed.

(** X5: removing a user from a room never fails on a room key that is absent
    or holds a set.  It leaves in the room exactly the other members, and it
    deletes the key [user:room:<userId>] whatever room that key names: also
    when the user is not in the room, or the room is absent, the record of
    the room the user is in is lost.  Every other key is left as it was. *)
Theorem X5_room_remove
    (userId roomId : string) (w : World) (members : gset string) :
  room_members w roomId = Some members →
  let w' := snd (removeUserFromRoom userId roomId w) in
  fst (removeUserFromRoom userId roomId w) = Ok tt
  ∧ room_members w' roomId = Some (members ∖ {[ userId ]})
  ∧ w_redis w' !! ("user:room:" +:+ userId) = None
  ∧ ∀ k, k ≠ "room:" +:+ roomId → k ≠ "user:room:" +:+ userId →
         w_redis w' !! k = w_redis w !! k.
Proof.
  intros Hroom. cbv zeta.
  rewrite (removeUserFromRoom_run userId roomId w members Hroom).
  cbn [fst snd]. split; [done|]. split; [|split].
  - unfold room_members in *. cbn [w_now w_redis with_redis].
    rewrite redis_live_delete_ne by apply room_key_ne_user.
    destruct (redis_live (w_now w) (w_redis w) ("room:" +:+ roomId))
      as [[| |s]|] eqn:Hlive; simplify_eq.
    + case_bool_decide as Hempty.
      * rewrite redis_live_delete. by rewrite Hempty.
      * rewrite redis_live_insert. unfold redis_live in Hlive.
        destruct (w_redis w !! ("room:" +:+ roomId)) as [e|]; [|done]. cbn.
        destruct (r_expire e) as [t|]; [|done].
        by destruct (w_now w <? t).
    + rewrite Hlive. f_equal. apply set_eq. intros x.
      rewrite elem_of_difference. split.
      * intros Hx. destruct (not_elem_of_empty (C := gset string) x Hx).
      * intros [Hx _]. exact Hx.
  - cbn [w_redis with_redis]. apply lookup_delete_eq.
  - intros k Hroomkey Huserkey. cbn [w_redis with_redis].
    rewrite lookup_delete_ne by done.
    destruct (redis_live (w_now w) (w_redis w) ("room:" +:+ roomId))
      as [[| |s]|]; try done.
    case_bool_decide.
    + by rewrite lookup_delete_ne.
    + by rewrite lookup_insert_ne.
Qed.

(** ** Group rooms *)

Lemma check_participants_none creatorId creatorType participantIds :
  check_participants creatorId creatorType participantIds = None
  ↔ ∀ p, p ∈ participantIds → ¬ director_student_pair creatorType (p_type p).
Proof.
  induction participantIds as [|p rest IH]; cbn [check_participants].
  - split; [|done]. intros _ p Hp. by apply not_elem_of_nil in Hp.
  - assert (Hpol : canMessage (checkCommunicationPermissions creatorId creatorType
                                 (p_id p) (p_type p)) = true
                   ↔ ¬ director_student_pair creatorType (p_type p)).
    { unfold director_student_pair.
      destruct creatorType, (p_type p); cbn; split; try done;
        try (intros _ [[? ?]|[? ?]]; discriminate);
        intros Hn; exfalso; apply Hn; auto. }
    destruct (canMessage _) eqn:Hc; cbn [negb].
    + rewrite IH. split.
      * intros Hall q [->|Hq]%elem_of_cons; [by apply Hpol | by apply Hall].
      * intros Hall q Hq. apply Hall. by apply elem_of_cons; right.
    + split; [done|]. intros Hall. exfalso.
      assert (Hp : ¬ director_student_pair creatorType (p_type p))
        by (apply Hall, elem_of_cons; by left).
      apply Hpol in Hp. congruence.
Qed.

(** The members the second loop leaves in a room. *)
Lemma add_participants_run participantIds roomId :
  ∀ w members,
    room_members w roomId = Some members →
    ∃ st,
      add_participants participantIds roomId w = (Ok tt, with_redis w st)
      ∧ room_members (with_redis w st) roomId
        = Some (list_to_set (p_id <$> participantIds) ∪ members).
Proof.
  induction participantIds as [|p rest IH]; intros w members Hroom.
  - exists (w_redis w). split.
    + cbn. by destruct w.
    + replace (with_redis w (w_redis w)) with w by (by destruct w).
      rewrite Hroom. f_equal. cbn. by rewrite (left_id_L ∅ (∪)).
  - cbn [add_participants]. unfold bind.
    rewrite (addUserToRoom_run (p_id p) roomId 3600 w members Hroom) by lia.
    set (st1 := <["user:room:" +:+ p_id p := _]> _).
    assert (Hroom1 : room_members (with_redis w st1) roomId
                     = Some ({[ p_id p ]} ∪ members)).
    { unfold room_members. cbn [w_now w_redis with_redis]. unfold st1.
      rewrite redis_live_insert_ne by apply room_key_ne_user.
      rewrite redis_live_insert.
      by rewrite (proj2 (Z.ltb_lt (w_now w) (w_now w + 3600))) by lia. }
    destruct (IH (with_redis w st1) _ Hroom1) as (st & Hrun & Hmem).
    exists st. rewrite Hrun. split; [reflexivity|].
    change (with_redis (with_redis w st1) st) with (with_redis w st) in Hmem.
    rewrite Hmem. f_equal. cbn [fmap list_fmap list_to_set foldr].
    by rewrite (assoc_L (∪)), (comm_L (∪) (list_to_set _) {[ p_id p ]}).
Qed.

(** X6: [createGroupRoom] refuses whenever some participant and the creator
    are a director and a student, and a refusal changes nothing: no room id
    is drawn and the store is untouched. *)
Theorem X6_group_room_refusal
    (E : Env) (creatorId : string) (creatorType : Role) (tenantId name : string)
    (participantIds : list Participant) (w : World) (p : Participant) :
  p ∈ participantIds →
  director_student_pair creatorType (p_type p) →
  ∃ reason,
    createGroupRoom E creatorId creatorType tenantId name participantIds w
    = (Ok {| rr_success := false; rr_roomId := None; rr_error := Some reason |}, w).
Proof.
  intros Hp Hpair. unfold createGroupRoom.
  destruct (check_participants creatorId creatorType participantIds) as [err|] eqn:Hc.
  - by exists err.
  - exfalso. by apply (proj1 (check_participants_none _ _ _) Hc p Hp).
Qed.

(** A room creation that is not refused, run to its end. *)
Lemma createGroupRoom_run E creatorId creatorType tenantId name participantIds w members :
  (∀ p, p ∈ participantIds → ¬ director_student_pair creatorType (p_type p)) →
  room_members w ("room_" +:+ env_uuid E (w_uuid w)) = Some members →
  ∃ st,
    createGroupRoom E creatorId creatorType tenantId name participantIds w
    = (Ok {| rr_success := true;
             rr_roomId := Some ("room_" +:+ env_uuid E (w_uuid w));
             rr_error := None |},
       with_redis (with_uuid w (S (w_uuid w))) st)
    ∧ room_members (with_redis (with_uuid w (S (w_uuid w))) st)
        ("room_" +:+ env_uuid E (w_uuid w))
      = Some (list_to_set (p_id <$> participantIds) ∪ members).
Proof.
  intros Hall Hroom.
  destruct (add_participants_run participantIds
              ("room_" +:+ env_uuid E (w_uuid w)) (with_uuid w (S (w_uuid w)))
              members Hroom) as (st & Hrun & Hmem).
  exists st. split; [|exact Hmem].
  unfold createGroupRoom.
  rewrite (proj2 (check_participants_none creatorId creatorType participantIds) Hall).
  unfold bind at 1, uuidv7, bind at 1, fresh_counter, ret at 1.
  fold (with_uuid w (S (w_uuid w))).
  unfold try_catch, bind. by rewrite Hrun.
Qed.

(** X7: when no participant is refused and the key of the new room is free
    or holds a set, [createGroupRoom] succeeds and the room's members are
    the listed participants next to what the key held; the creator is a
    member only if she is listed. *)
Theorem X7_group_room_members
    (E : Env) (creatorId : string) (creatorType : Role) (tenantId name : string)
    (participantIds : list Participant) (w : World) (members : gset string) :
  let roomId := "room_" +:+ env_uuid E (w_uuid w) in
  let run := createGroupRoom E creatorId creatorType tenantId name participantIds w in
  (∀ p, p ∈ participantIds → ¬ director_student_pair creatorType (p_type p)) →
  room_members w roomId = Some members →
  fst run = Ok {| rr_success := true; rr_roomId := Some roomId; rr_error := None |}
  ∧ room_members (snd run) roomId
    = Some (list_to_set (p_id <$> participantIds) ∪ members).
Proof.
  cbv zeta. intros Hall Hroom.
  destruct (createGroupRoom_run E creatorId creatorType tenantId name participantIds
              w members Hall Hroom) as (st & Hrun & Hmem).
  rewrite Hrun. by split.
Qed.

(** X8: room creation checks the creator against each participant and
    nothing else, and a 'group' frame checks nothing: a room created by a
    member of staff or a guardian may hold a director and a student, and a
    group frame the director then sends to that room is published on the
    student's channel. *)
Theorem X8_group_room_bypasses_policy
    (E : Env) (creatorId : string) (creatorType : Role) (tenantId name : string)
    (participantIds : list Participant) (w : World) (members : gset string)
    (d s : string) (ws : Socket) (messageText : string) (f : Frame) :
  let roomId := "room_" +:+ env_uuid E (w_uuid w) in
  let w1 := snd (createGroupRoom E creatorId creatorType tenantId name
                   participantIds w) in
  creatorType = staff ∨ creatorType = guardian →
  {| p_id := d; p_type := director |} ∈ participantIds →
  {| p_id := s; p_type := student |} ∈ participantIds →
  room_members w roomId = Some members →
  ws_userId ws = d →
  ws_userType ws = director →
  s ≠ d →
  env_parse_frame E messageText = Some f →
  f_type f = "group" →
  f_recipientId f = roomId →
  "user:" +:+ s
    ∈ published_channels (new_events w1 (snd (on_message E ws messageText w1))).
Proof.
  cbv zeta. intros Hcreator Hd Hs Hroom Hws _ Hne Hparse Htype Hrid.
  assert (Hall : ∀ p, p ∈ participantIds →
                   ¬ director_student_pair creatorType (p_type p)).
  { intros p _ [[Hc _]|[Hc _]]; destruct Hcreator; congruence. }
  destruct (createGroupRoom_run E creatorId creatorType tenantId name participantIds
              w members Hall Hroom) as (st & Hrun & Hmem).
  rewrite Hrun. cbn [snd]. rewrite <- Hrid in Hmem.
  rewrite (group_frame_run E ws messageText f _ _ Hparse Htype Hmem). cbn [snd].
  unfold new_events. rewrite w_trace_with_trace, drop_app_length.
  unfold published_channels. rewrite omap_app.
  apply elem_of_app. left.
  fold (published_channels
          (map (λ u, EvPublish ("user:" +:+ u)
                       (group_envelope E ws f
                          (with_redis (with_uuid w (S (w_uuid w))) st)
                          (elements (list_to_set (p_id <$> participantIds) ∪ members))))
               (filter (λ id, id ≠ ws_userId ws)
                  (elements (list_to_set (p_id <$> participantIds) ∪ members))))).
  rewrite published_channels_map.
  apply list_elem_of_fmap. exists s. split; [done|].
  apply list_elem_of_filter. split; [by rewrite Hws|].
  apply elem_of_elements, elem_of_union. left.
  apply elem_of_list_to_set, list_elem_of_fmap.
  by exists {| p_id := s; p_type := student |}.
Qed.

(** ** Writes and publishes of the communication service *)

Lemma publishes_follow_writes_mono written written' t :
  (∀ m, m ∈ written → m ∈ written') →
  publishes_follow_writes written t → publishes_follow_writes written' t.
Proof.
  revert written written'. induction t as [|e t IH]; intros W W' Hsub; [done|].
  destruct e; cbn; try (by apply IH).
  - apply IH. intros m0 [->|Hm]%elem_of_cons; apply elem_of_cons;
      [by left | right; by apply Hsub].
  - intros [Hm Ht]. split; [by apply Hsub | by apply (IH W)].
Qed.

Lemma publishes_follow_writes_app written t1 t2 :
  publishes_follow_writes written t1 →
  publishes_follow_writes [] t2 →
  publishes_follow_writes written (t1 ++ t2).
Proof.
  revert written. induction t1 as [|e t1 IH]; intros W H1 H2.
  - cbn. apply (publishes_follow_writes_mono [] W); [|done].
    intros m Hm. by apply not_elem_of_nil in Hm.
  - destruct e; cbn in *; try (by apply IH).
    destruct H1 as [Hm H1]. split; [done | by apply IH].
Qed.


Lemma writes_then_publishes_trans w1 w2 w3 e1 e2 :
  writes_then_publishes w1 w2 e1 →
  writes_then_publishes w2 w3 e2 →
  writes_then_publishes w1 w3 (e1 ++ e2).
Proof.
  intros (Ht1 & Hm1 & Hp1 & Hf1) (Ht2 & Hm2 & Hp2 & Hf2).
  unfold writes_then_publishes, persisted_messages, published_messages in *.
  rewrite !omap_app. repeat split.
  - by rewrite Ht2, Ht1, app_assoc.
  - by rewrite Hm2, Hm1, app_assoc.
  - by rewrite Hp1, Hp2.
  - by apply publishes_follow_writes_app.
Qed.

Lemma persisted_messages_app t1 t2 :
  persisted_messages (t1 ++ t2) = persisted_messages t1 ++ persisted_messages t2.
Proof. apply omap_app. Qed.







(** X10: [sendAnnouncement] answers success although it delivers nothing.
    Whatever the sender's role, no recipient is skipped: for each recipient,
    in order, a message is built and handed to the document store.  The
    Firestore client refuses every one of them, because [saveMessage] spells
    out [deliveredAt], [readAt] and [expiresAt], which these messages do not
    have.  Each refusal is logged as an error, nothing is written or
    published, and the call answers success with an empty list of ids. *)
Theorem X10_announcement_succeeds_without_delivery
    (E : Env) (w : World) (senderId : string) (senderType : Role)
    (tenantId : string) (recipientIds : list string) (subject content : string)
    (mediaUrls : option (list string)) :
  let run := sendAnnouncement E senderId senderType tenantId recipientIds subject
               content mediaUrls w in
  let evs := new_events w (snd run) in
  fst run = Ok (true, [])
  ∧ map m_recipientIds (constructed evs) = map (λ rid, [rid]) recipientIds
  ∧ length (filter is_error_log evs) = length recipientIds
  ∧ filter is_warning evs = []
  ∧ filter delivery_event evs = []
  ∧ w_messages (snd run) = w_messages w.
Proof.
  cbv zeta.
  destruct (sendAnnouncement_loop_run E senderId senderType tenantId recipientIds
              subject content mediaUrls [] w)
    as (evs & w' & Hrun & Ht & Hm & _ & Hbuilt & Herr & Hwarn & Hquiet).
  unfold sendAnnouncement, bind. rewrite Hrun. cbn [fst snd ret].
  assert (Hev : new_events w w' = evs).
  { unfold new_events. by rewrite Ht, drop_app_length. }
  rewrite Hev. by repeat split.
Qed.

(** ** Frames and upgrades, whatever they carry *)

Lemma filter_send_lookup evs :
  forallb lookup_event evs = true → filter is_send evs = [].
Proof. apply filter_excluded. by intros []. Qed.

Lemma unknown_frame_run E ws messageText f w :
  env_parse_frame E messageText = Some f →
  String.eqb (f_type f) "direct" = false →
  String.eqb (f_type f) "group" = false →
  on_message E ws messageText w
  = (Ok tt, with_trace w (w_trace w ++ [EvSend (error_frame "Unknown message type")])).
Proof.
  intros Hparse Hd Hg.
  unfold on_message. unfold try_catch at 1. unfold bind at 1.
  rewrite Hparse. unfold ret at 1. cbn beta iota. rewrite Hd, Hg.
  unfold ws_send. by rewrite emit_run.
Qed.

Lemma malformed_frame_run E ws messageText w :
  env_parse_frame E messageText = None →
  on_message E ws messageText w
  = (Ok tt, with_trace w (w_trace w ++
              [EvLog lvl_error "Error handling WebSocket message:";
               EvSend (error_frame "Error processing message")])).
Proof.
  intros Hparse.
  unfold on_message. unfold try_catch at 1. unfold bind at 1.
  rewrite Hparse. unfold throw at 1. cbn beta iota.
  unfold bind, console, ws_send. by rewrite emit_run, (emit_after w [_]).
Qed.

(** X11: the frame handler never rejects and answers every inbound frame
    with exactly one frame, be it malformed, of an unknown type, denied,
    failed or delivered. *)
Theorem X11_every_frame_gets_one_reply
    (E : Env) (ws : Socket) (messageText : string) (w : World) :
  fst (on_message E ws messageText w) = Ok tt
  ∧ length (filter is_send (new_events w (snd (on_message E ws messageText w)))) = 1%nat.
Proof.
  destruct (env_parse_frame E messageText) as [f|] eqn:Hparse.
  - destruct (String.eqb (f_type f) "direct") eqn:Hd.
    + apply String.eqb_eq in Hd.
      destruct (direct_frame_events E ws messageText f w Hparse Hd)
        as (rt & evs & res & Hq & Hrt & Hev).
      destruct (direct_frame_run E ws messageText f w rt _ Hparse Hd Hrt)
        as (res' & w2 & _ & Hrun).
      split; [by rewrite Hrun|].
      rewrite Hev, !filter_app, (filter_send_lookup evs Hq), sendDirectMessage_events.
      by destruct (canMessage _).
    + destruct (String.eqb (f_type f) "group") eqn:Hg.
      * apply String.eqb_eq in Hg.
        destruct (room_members w (f_recipientId f)) as [members|] eqn:Hroom.
        -- rewrite (group_frame_run E ws messageText f w members Hparse Hg Hroom).
           cbn [fst snd]. split; [done|].
           rewrite new_events_with_uuid, filter_app.
           rewrite (filter_excluded is_send is_publish); [done|by intros []|].
           by induction (filter _ (elements members)).
        -- rewrite (group_frame_wrongtype E ws messageText f w Hparse Hg Hroom).
           cbn [fst snd]. by rewrite new_events_with_trace.
      * rewrite (unknown_frame_run E ws messageText f w Hparse Hd Hg).
        cbn [fst snd]. by rewrite new_events_with_trace.
  - rewrite (malformed_frame_run E ws messageText w Hparse).
    cbn [fst snd]. by rewrite new_events_with_trace.
Qed.

(** The upgrade, path by path. *)
Lemma upgrade_run (req : Request) (w : World) :
  ∃ evs,
    upgrade req w = (Ok tt, with_trace w (w_trace w ++ evs))
    ∧ (evs = [EvClose]
       ∨ evs = [EvLog lvl_error "Error getting session data:"; EvClose]
       ∨ evs = [EvLog lvl_error "Error during WebSocket upgrade:"; EvClose]
       ∨ ∃ ud, evs = [EvUpgrade ud]).
Proof.
  unfold upgrade. cbv zeta.
  match goal with |- context [if ?c then emit EvClose else _] => destruct c end.
  { exists [EvClose]. split; [apply emit_run | by left]. }
  unfold try_catch at 1. unfold bind at 1.
  unfold getSessionData, try_catch, bind at 1, redis_hGetAll, bind at 1, get_world.
  destruct (redis_live (w_now w) (w_redis w) _) as [[s|h|m]|].
  - eexists. split; [|right; by left].
    unfold throw, bind, console. rewrite emit_run. unfold ret.
    by rewrite (emit_after w [_]).
  - unfold ret. destruct (from_option truthy false (h !! "userId")).
    + rewrite late_reads_run. destruct (late_failure req).
      * eexists. split; [|right; right; by left].
        unfold bind, console. by rewrite emit_run, (emit_after w [_]).
      * eexists. split; [reflexivity|]. right; right; right. by eexists.
    + exists [EvClose]. split; [apply emit_run | by left].
  - eexists. split; [|right; by left].
    unfold throw, bind, console. rewrite emit_run. unfold ret.
    by rewrite (emit_after w [_]).
  - unfold ret. rewrite lookup_empty. cbn [from_option].
    exists [EvClose]. split; [apply emit_run | by left].
Qed.

(** X12: the upgrade decides exactly once, closing or upgrading, never
    rejects, leaves the store as it was and never asks Janus about the
    token. *)
Theorem X12_upgrade_decides_once_without_janus (req : Request) (w : World) :
  let w' := snd (upgrade req w) in
  fst (upgrade req w) = Ok tt
  ∧ w_redis w' = w_redis w
  ∧ length (filter is_decision (new_events w w')) = 1%nat
  ∧ filter is_janus_call (new_events w w') = [].
Proof.
  cbv zeta. destruct (upgrade_run req w) as (evs & Hrun & Hevs).
  rewrite Hrun. cbn [fst snd]. rewrite new_events_with_trace.
  split; [done|]. split; [done|].
  destruct Hevs as [-> | [-> | [-> | [ud ->]]]]; by split.
Qed.

Lemma substring_all (s : string) : String.substring 0 (String.length s) s = s.
Proof. induction s as [|c s IH]; [done|]. cbn. by rewrite IH. Qed.

Lemma prefix_append (p s : string) : String.prefix p (p +:+ s) = true.
Proof.
  induction p as [|c p IH]; [by destruct s|].
  change ((if Ascii.ascii_dec c c then String.prefix p (p +:+ s) else false) = true).
  destruct (Ascii.ascii_dec c c); [exact IH | done].
Qed.

Lemma substring_skip (p s : string) (n : nat) :
  String.substring (String.length p) n (p +:+ s) = String.substring 0 n s.
Proof. induction p as [|c p IH]; [done | exact IH]. Qed.

Lemma replace_first_unfold (pat rep s : string) :
  replace_first pat rep s
  = if String.prefix pat s
    then rep +:+ String.substring (String.length pat)
                   (String.length s - String.length pat)%nat s
    else match s with
         | EmptyString => EmptyString
         | String c s' => String c (replace_first pat rep s')
         end.
Proof. by destruct s. Qed.

(** [('Bearer ' + t).replace('Bearer ', '')] is [t]. *)
Lemma replace_first_prefix (p t : string) : replace_first p "" (p +:+ t) = t.
Proof.
  rewrite replace_first_unfold, prefix_append, substring_skip, append_length.
  replace (String.length p + String.length t - String.length p)%nat
    with (String.length t) by lia.
  change ("" +:+ String.substring 0 (String.length t) t)
    with (String.substring 0 (String.length t) t).
  apply substring_all.
Qed.

(** X13: the upgrade never verifies the token, and whether it upgrades at
    all hangs on three header reads it makes after the session lookup, when
    the handler has already returned.  For a session held as a live hash with
    a [userId] and a request with a non-empty bearer token [t]: when those
    reads answer, the socket is upgraded and bound to the hash's user, type
    and tenant, the session id and [t] itself, whatever [t] is; when one of
    them throws, as uWebSockets.js does for a request read after its handler
    returned, the error is logged and the connection is closed. *)
Theorem X13_upgrade_hangs_on_late_reads
    (req : Request) (sid uid t : string) (data : gmap string string) (w : World) :
  req_sessionId req = Some sid →
  truthy sid = true →
  req_getHeader req "authorization" = "Bearer " +:+ t →
  truthy t = true →
  redis_live (w_now w) (w_redis w) ("session:" +:+ sid) = Some (RHash data) →
  data !! "userId" = Some uid →
  truthy uid = true →
  new_events w (snd (upgrade req w))
  = match late_failure req with
    | None =>
        [EvUpgrade {| ud_userId := uid;
                      ud_userType := data !! "userType";
                      ud_tenantId := data !! "tenantId";
                      ud_sessionId := sid;
                      ud_token := t |}]
    | Some _ => [EvLog lvl_error "Error during WebSocket upgrade:"; EvClose]
    end.
Proof.
  intros Hsid Hts Hauth Htt Hlive Hu Htu.
  assert (Hhead : (if truthy (req_getHeader req "authorization")
                   then req_getHeader req "authorization"
                   else req_getHeader req "Authorization") = "Bearer " +:+ t).
  { by rewrite Hauth. }
  pose proof (upgrade_binds_hash_session req sid uid data w Hsid Hts) as Hrun.
  cbv zeta in Hrun. rewrite Hhead, replace_first_prefix in Hrun.
  rewrite (Hrun eq_refl Htt Hlive Hu Htu). cbn [snd].
  apply new_events_with_trace.
Qed.

(** ** Validation, the other way round *)

(** X14: token verification never rejects, and it answers valid only for a
    200 answer with [success] set, a user, and an e-mail address the schema
    accepts; the role and the tenant of the answer are then passed on as
    they came.  The [userId] argument plays no part in the verdict. *)
Theorem X14_identity_valid_only_when_verified
    (E : Env) (userId token : string) (w : World) :
  ∃ r,
    fst (validateUserIdentity E userId token w) = Ok r
    ∧ match verified_user (env_verify E token (w_now w)) with
      | Some (user, tenant) =>
          match env_email_issue E (or_default (ju_email user) "") with
          | None => r = {| iv_isValid := true; iv_error := None;
                           iv_userType := ju_role user; iv_tenantId := tenant |}
          | Some _ => iv_isValid r = false
          end
      | None => iv_isValid r = false
      end.
Proof.
  unfold validateUserIdentity, try_catch.
  unfold bind at 1. rewrite axios_verify_run. unfold verified_user.
  destruct (env_verify E token (w_now w)) as [r|e].
  - unfold bind at 1, body_of.
    destruct (ax_data r) as [b|].
    + unfold ret at 1.
      destruct (ax_status r =? 200); cbn [negb orb]; [|by eexists].
      destruct (jb_success b); cbn [negb]; [|by eexists].
      destruct (jb_data b) as [d|]; cbn [mbind option_bind]; [|by eexists].
      destruct (jd_user d) as [u|]; [|by eexists].
      destruct (env_email_issue E (or_default (ju_email u) "")); by eexists.
    + unfold throw at 1. unfold bind, console. rewrite emit_run.
      destruct (ax_status r =? 200); by eexists.
  - unfold bind, console. rewrite emit_run.
    destruct (je_axios e); by eexists.
Qed.

(** X15: the recipient lookup never rejects and answers the role Janus
    reports when the lookup yields one of the four roles, and 'guardian' in
    every other case. *)
Theorem X15_recipient_role_or_guardian
    (E : Env) (recipientId token : string) (w : World) :
  fst (determineRecipientType E recipientId token w)
  = Ok (default guardian
          (janus_role
             (env_janus_api E ("/api/v1/users/" +:+ recipientId)
                (if truthy token then Some token else None) (w_now w)))).
Proof.
  unfold determineRecipientType, try_catch. unfold bind at 1.
  pose proof (callJanusApi_answer E ("/api/v1/users/" +:+ recipientId) token w) as Hans.
  destruct (callJanusApi E ("/api/v1/users/" +:+ recipientId) token w) as [resp w1].
  cbn [fst] in Hans. subst resp. unfold janus_role.
  destruct (env_janus_api E ("/api/v1/users/" +:+ recipientId)
              (if truthy token then Some token else None) (w_now w)) as [r|e];
    [|by destruct (je_axios e)].
  destruct ((200 <=? ax_status r) && (ax_status r <? 300)) eqn:Hs; [|done].
  destruct (ax_data r) as [b|] eqn:Hb; [|done].
  cbn [from_option andb].
  destruct (jb_success b) eqn:Hsucc; [|done].
  cbn [api_success api_data andb from_option]. rewrite Hsucc.
  change (mbind jd_user (mbind jb_data (Some b))) with (jb_data b ≫= jd_user).
  destruct (jb_data b ≫= jd_user) as [user|] eqn:Hu; [|done].
  cbn [mbind option_bind].
  change (option_bind _ _ role_of_label (ju_role user))
    with (ju_role user ≫= role_of_label).
  by destruct (ju_role user ≫= role_of_label).
Qed.

(** X16: a verdict 'valid' is served from the cache for 600 seconds without
    asking the gateway again, and it is served under the key
    [service:<serviceId>:<tenantId>]: a second pair that spells the same key
    (as ("a", "b:c") does for ("a:b", "c")) is answered valid for its own
    tenant, whatever the gateway would say about it. *)
Theorem X16_valid_verdict_shared_by_key
    (E E2 : Env) (serviceId tenantId serviceId2 tenantId2 : string) (w w2 : World) :
  service_key serviceId tenantId = service_key serviceId2 tenantId2 →
  cache_state w serviceId tenantId = Miss →
  gateway_failed (env_gateway E serviceId tenantId (w_now w)) = false →
  w_redis w2 = w_redis (snd (validateServiceViaGateway E serviceId tenantId w)) →
  w_now w2 < w_now w + 600 →
  validateServiceViaGateway E2 serviceId2 tenantId2 w2
  = (Ok (valid_result tenantId2), w2).
Proof.
  intros Hkey Hmiss Hok Hsame Hnow.
  destruct (cache_miss_get w serviceId tenantId Hmiss) as (cached & Hget & Hv & Hi).
  rewrite (validateService_miss E serviceId tenantId w cached Hget Hv Hi) in Hsame.
  cbv zeta in Hsame.
  destruct (env_gateway E serviceId tenantId (w_now w)) as [r|e]; [|done].
  cbn in Hok. apply negb_false_iff in Hok. rewrite Hok in Hsame.
  cbn [snd set_redis w_redis] in Hsame.
  unfold validateServiceViaGateway. unfold bind at 1.
  rewrite redis_get_run, <- Hkey. unfold redis_live.
  rewrite Hsame, lookup_insert_eq. cbn [cache_entry r_expire r_val].
  rewrite (proj2 (Z.ltb_lt _ _) Hnow). by rewrite bool_decide_eq_true_2.
Qed.
(** ** The consumer over many turns *)

(** What one turn does to the stream. *)
Lemma processQueue_turn_stream E handle (Hf : handler_frame handle) w :
  fst (processQueue_turn E handle w) = Ok tt
  ∧ w_stream (snd (processQueue_turn E handle w))
    = match next_record w with
      | Some m =>
          {| s_entries := s_entries (w_stream w);
             s_group := true;
             s_delivered := S (s_delivered (w_stream w));
             s_pending :=
               if returned (handler_result E handle m w)
               then ({[ se_id m ]} ∪ s_pending (w_stream w)) ∖ {[ se_id m ]}
               else {[ se_id m ]} ∪ s_pending (w_stream w) |}
      | None => w_stream w
      end.
Proof.
  unfold next_record.
  destruct (s_group (w_stream w)) eqn:Hgroup.
  - destruct (s_entries (w_stream w) !! s_delivered (w_stream w)) as [m|] eqn:Hnext.
    + set (s1 := {| s_entries := s_entries (w_stream w); s_group := true;
                    s_delivered := S (s_delivered (w_stream w));
                    s_pending := {[ se_id m ]} ∪ s_pending (w_stream w) |}).
      assert (Hread : redis_xReadGroup w = (Ok [m], with_stream w s1)).
      { unfold redis_xReadGroup, bind, get_world. rewrite Hgroup. cbn [negb].
        rewrite Hnext. reflexivity. }
      destruct (process_message_spec E handle Hf m (with_stream w s1))
        as (evs & Hrun & _).
      rewrite (handler_result_now E handle Hf m w (with_stream w s1) eq_refl) in Hrun.
      assert (Hturn : processQueue_turn E handle w
        = (Ok tt,
           with_trace
             (if returned (handler_result E handle m w)
              then with_stream w
                     {| s_entries := s_entries s1; s_group := s_group s1;
                        s_delivered := s_delivered s1;
                        s_pending := s_pending s1 ∖ {[ se_id m ]} |}
              else with_stream w s1)
             (w_trace w ++ evs))).
      { unfold processQueue_turn, try_catch. unfold bind at 1. rewrite Hread.
        cbn [process_messages]. unfold bind at 1. rewrite Hrun.
        unfold ret. by destruct (returned _). }
      rewrite Hturn. cbn [fst snd]. split; [done|].
      by destruct (returned (handler_result E handle m w)).
    + assert (Hturn : processQueue_turn E handle w
        = (Ok tt, snd (sleep 5 w))).
      { unfold processQueue_turn, try_catch, redis_xReadGroup, bind, get_world.
        rewrite Hgroup. cbn [negb]. by rewrite Hnext. }
      by rewrite Hturn.
  - assert (Hturn : processQueue_turn E handle w
      = (Ok tt,
         snd (sleep 1 (with_trace w (w_trace w ++
                         [EvLog lvl_error "Error reading from Redis Stream:"]))))).
    { unfold processQueue_turn, try_catch, redis_xReadGroup, bind, get_world.
      rewrite Hgroup. cbn [negb]. unfold throw, console. by rewrite emit_run. }
    by rewrite Hturn.
Qed.

Lemma elem_of_drop_S {A} (x : A) (n : nat) (l : list A) :
  x ∈ drop (S n) l → x ∈ drop n l.
Proof.
  revert n. induction l as [|y l IH]; intros n; [by rewrite !drop_nil|].
  destruct n as [|n]; cbn.
  - rewrite drop_0. intros Hx. by apply elem_of_cons; right.
  - apply IH.
Qed.

(** A record that is pending and is not among the records still to be
    handed out stays pending through any number of turns. *)
Lemma stale_pending_stays E handle (Hf : handler_frame handle) id n :
  ∀ w,
    id ∈ s_pending (w_stream w) →
    (∀ m, m ∈ drop (s_delivered (w_stream w)) (s_entries (w_stream w)) →
          se_id m ≠ id) →
    id ∈ s_pending (w_stream (snd (processQueue_turns E handle n w))).
Proof.
  induction n as [|n IH]; intros w Hpending Hfresh; [done|].
  cbn [processQueue_turns]. unfold bind.
  destruct (processQueue_turn_stream E handle Hf w) as [Hok Hstream].
  destruct (processQueue_turn E handle w) as [r w1]. cbn [fst snd] in *. subst r.
  apply IH.
  - rewrite Hstream. unfold next_record.
    destruct (s_group (w_stream w)); [|done].
    destruct (s_entries (w_stream w) !! s_delivered (w_stream w)) as [m|] eqn:Hnext;
      [|done].
    assert (Hm : se_id m ≠ id).
    { apply Hfresh. apply list_elem_of_lookup. exists 0%nat.
      by rewrite lookup_drop, Nat.add_0_r. }
    cbn [s_pending]. destruct (returned _).
    + apply elem_of_difference. split; [by apply elem_of_union; right|].
      intros Heq%elem_of_singleton. by apply Hm.
    + by apply elem_of_union; right.
  - rewrite Hstream. unfold next_record.
    destruct (s_group (w_stream w)); [|done].
    destruct (s_entries (w_stream w) !! s_delivered (w_stream w)) as [m|]; [|done].
    cbn [s_delivered s_entries]. intros m' Hm'. apply Hfresh.
    by apply elem_of_drop_S.
Qed.

(** X17: the consumer never retries: a record left unacknowledged, whose
    stream id no later record shares, is still pending after any number of
    further turns of the loop, because the loop only ever reads records
    that were never delivered. *)
Theorem X17_unacknowledged_record_is_never_retried
    (E : Env) (n : nat) (w : World) (id : string) :
  id ∈ s_pending (w_stream w) →
  (∀ m, m ∈ drop (s_delivered (w_stream w)) (s_entries (w_stream w)) →
        se_id m ≠ id) →
  id ∈ s_pending (w_stream (snd (processQueue_turns E (handleTask E) n w)))
  ∧ id ∈ s_pending (w_stream (snd (processQueue_turns E (handleTask_draft E) n w))).
Proof.
  intros Hpending Hfresh. split.
  - by apply (stale_pending_stays E _ (handleTask_frame E)).
  - by apply (stale_pending_stays E _ (handleTask_draft_frame E)).
Qed.

(** X18: the start of [processQueue] is idempotent: an existing consumer
    group is left as it is, cursor and pending list included, and the
    BUSYGROUP answer is not logged as an error; a missing group is created
    at the beginning of the stream. *)
Theorem X18_startup_keeps_an_existing_group
    (E : Env) (handle : WorkerTask → M unit) (w : World) :
  let run := processQueue E handle 0 w in
  fst run = Ok tt
  ∧ filter is_error_log (new_events w (snd run)) = []
  ∧ w_stream (snd run)
    = if s_group (w_stream w)
      then w_stream w
      else {| s_entries := s_entries (w_stream w); s_group := true;
              s_delivered := 0; s_pending := ∅ |}.
Proof.
  cbv zeta.
  assert (Hrun : processQueue E handle 0 w
    = (Ok tt,
       with_trace
         (if s_group (w_stream w) then w
          else with_stream w {| s_entries := s_entries (w_stream w); s_group := true;
                                s_delivered := 0; s_pending := ∅ |})
         (w_trace w ++ [EvLog lvl_log "Starting Redis Stream task processor..."]))).
  { unfold processQueue. unfold bind at 1. unfold try_catch, redis_xGroupCreate.
    unfold bind at 1, get_world.
    destruct (s_group (w_stream w)).
    - unfold throw.
      change (includes "BUSYGROUP"
                (je_message (plain_error "BUSYGROUP Consumer Group name already exists")))
        with true.
      cbn [negb]. unfold ret at 1. unfold bind, console. by rewrite emit_run.
    - unfold set_stream. unfold bind, console. by rewrite emit_run. }
  rewrite Hrun. cbn [fst snd].
  assert (Hnew : ∀ w0 evs, w_trace w0 = w_trace w →
            new_events w (with_trace w0 (w_trace w ++ evs)) = evs).
  { intros w0 evs _. unfold new_events. rewrite w_trace_with_trace.
    by rewrite drop_app_length. }
  rewrite Hnew by (by destruct (s_group (w_stream w))).
  split; [done|]. split; [done|].
  by destruct (s_group (w_stream w)).
Qed.
(** ** The queue ingress *)

(** Service validation touches neither the stream nor the clock. *)
Lemma validateService_keeps_stream E serviceId tenantId w :
  w_stream (snd (validateServiceViaGateway E serviceId tenantId w)) = w_stream w
  ∧ w_now (snd (validateServiceViaGateway E serviceId tenantId w)) = w_now w.
Proof.
  pose proof (redis_get_run (service_key serviceId tenantId) w) as Hget.
  assert (Hmiss : ∀ cached,
    redis_get (service_key serviceId tenantId) w = (Ok cached, w) →
    cached ≠ Some "valid" → cached ≠ Some "invalid" →
    w_stream (snd (validateServiceViaGateway E serviceId tenantId w)) = w_stream w
    ∧ w_now (snd (validateServiceViaGateway E serviceId tenantId w)) = w_now w).
  { intros cached Hc Hv Hi.
    rewrite (validateService_miss E serviceId tenantId w cached Hc Hv Hi). cbv zeta.
    destruct (env_gateway E serviceId tenantId (w_now w)) as [r|e].
    - by destruct (ax_status r =? 200).
    - by destruct (je_axios e). }
  destruct (redis_live (w_now w) (w_redis w) (service_key serviceId tenantId))
    as [[c|h|m]|].
  - destruct (decide (c = "valid")) as [->|Hv].
    { unfold validateServiceViaGateway, bind. by rewrite Hget. }
    destruct (decide (c = "invalid")) as [->|Hi].
    { unfold validateServiceViaGateway, bind. by rewrite Hget. }
    apply (Hmiss (Some c) Hget); congruence.
  - unfold validateServiceViaGateway, bind. by rewrite Hget.
  - unfold validateServiceViaGateway, bind. by rewrite Hget.
  - by apply (Hmiss None Hget).
Qed.

(** Every way [queue_task] can end. *)
Lemma queue_task_outcome E I header body w r w' :
  queue_task E I header body w = (r, w') →
  ∃ resp,
    r = Ok resp
    ∧ if http_status resp =? 200 then
        ∃ e validation fields payload,
          s_entries (w_stream w') = s_entries (w_stream w) ++ [e]
          ∧ s_group (w_stream w') = s_group (w_stream w)
          ∧ s_delivered (w_stream w') = s_delivered (w_stream w)
          ∧ s_pending (w_stream w') = s_pending (w_stream w)
          ∧ header "x-service-id" = Some (se_service e)
          ∧ header "x-tenant-id" = Some (se_tenantId e)
          ∧ http_body resp = body_task_queued (se_task_id e)
          ∧ fst (validateServiceViaGateway E (se_service e) (se_tenantId e) w)
            = Ok validation
          ∧ sv_isValid validation = true
          ∧ body = Some (JObj fields)
          ∧ assoc "type" fields = Some (JStr (se_type e))
          ∧ assoc "payload" fields = Some payload
          ∧ se_payload e = in_stringify I payload
          ∧ truthy (se_type e) = true
          ∧ json_truthy payload = true
      else w_stream w' = w_stream w.
Proof.
  unfold queue_task. cbv zeta.
  destruct (header "x-service-id") as [sid|] eqn:Hsid;
    [|intros [= <- <-]; eexists; split; reflexivity].
  destruct (header "x-tenant-id") as [tid|] eqn:Htid;
    [|cbn [present from_option negb]; rewrite orb_true_r;
      intros [= <- <-]; eexists; split; reflexivity].
  destruct (negb (present (Some sid)) || negb (present (Some tid)));
    [intros [= <- <-]; eexists; split; reflexivity|].
  cbn [default from_option id].
  destruct (validateService_keeps_stream E sid tid w) as [Hstream Hnow].
  unfold try_catch. unfold bind at 1.
  destruct (validateServiceViaGateway E sid tid w) as [[validation|err] w1] eqn:Hval;
    cbn [fst snd] in *.
  2:{ unfold bind, console. rewrite emit_run. cbn [ret fst snd].
      intros [= <- <-]. eexists; split; [reflexivity|]. exact Hstream. }
  destruct (sv_isValid validation) eqn:Hvalid; cbn [negb].
  2:{ unfold bind, console. rewrite emit_run. cbn [ret fst snd].
      intros [= <- <-]. eexists; split; [reflexivity|]. exact Hstream. }
  unfold bind at 1.
  destruct body as [task|].
  2:{ unfold throw at 1. unfold bind, console. rewrite emit_run. cbn [ret fst snd].
      intros [= <- <-]. eexists; split; [reflexivity|]. exact Hstream. }
  unfold ret at 1. unfold bind at 1.
  destruct task as [|b|z|s|l|fields]; cbn [body_field];
    try (unfold ret at 1; unfold bind at 1; unfold ret at 1; cbn [from_option negb orb];
         intros [= <- <-]; eexists; split; [reflexivity|]; exact Hstream).
  unfold ret at 1. unfold bind at 1. unfold ret at 1.
  destruct (assoc "type" fields) as [type|] eqn:Htype; cbn [from_option];
    [|intros [= <- <-]; eexists; split; [reflexivity|]; exact Hstream].
  destruct (assoc "payload" fields) as [payload|] eqn:Hpayload; cbn [from_option];
    [|rewrite orb_true_r; intros [= <- <-]; eexists; split; [reflexivity|];
      exact Hstream].
  destruct (negb (json_truthy type) || negb (json_truthy payload)) eqn:Htruthy;
    [intros [= <- <-]; eexists; split; [reflexivity|]; exact Hstream|].
  apply orb_false_elim in Htruthy as [Htt Htp].
  apply negb_false_iff in Htt, Htp.
  unfold bind at 1, get_world. unfold bind at 1, redis_xAdd, bind at 1, get_world.
  cbn [default from_option id].
  destruct type as [|b|z|ty|l|fs];
    try (unfold throw at 1; unfold bind, console; rewrite emit_run; cbn [ret fst snd];
         intros [= <- <-]; eexists; split; [reflexivity|]; exact Hstream).
  unfold set_stream, ret. cbn [fst snd].
  intros [= <- <-]. eexists; split; [reflexivity|]. cbn [http_status Z.eqb Pos.eqb].
  eexists _, validation, fields, payload.
  cbn [w_stream with_stream s_entries s_group s_delivered s_pending].
  rewrite Hstream. split; [reflexivity|].
  cbn [se_service se_tenantId se_task_id se_type se_payload http_body].
  rewrite Hval. repeat split; done.
Qed.

(** X19: the queue ingress never rejects: it always answers.  It answers 200
    only after the calling service validated and for a body that is an
    object with a non-empty string as type and a truthy payload; the stream
    has then grown by exactly one record, at its end, that carries the two
    header values, the type and the serialised payload of the request body
    and the task id of the answer, while cursor and pending list are
    untouched; with any other answer the stream is as it was. *)
Theorem X19_ingress_appends_one_record_on_200
    (E : Env) (I : Ingress) (header : string → option string) (body : option json)
    (w : World) :
  let w' := snd (queue_task E I header body w) in
  ∃ resp,
    fst (queue_task E I header body w) = Ok resp
    ∧ if http_status resp =? 200 then
        ∃ e validation fields payload,
          s_entries (w_stream w') = s_entries (w_stream w) ++ [e]
          ∧ s_delivered (w_stream w') = s_delivered (w_stream w)
          ∧ s_pending (w_stream w') = s_pending (w_stream w)
          ∧ header "x-service-id" = Some (se_service e)
          ∧ header "x-tenant-id" = Some (se_tenantId e)
          ∧ http_body resp = body_task_queued (se_task_id e)
          ∧ fst (validateServiceViaGateway E (se_service e) (se_tenantId e) w)
            = Ok validation
          ∧ sv_isValid validation = true
          ∧ body = Some (JObj fields)
          ∧ assoc "type" fields = Some (JStr (se_type e))
          ∧ assoc "payload" fields = Some payload
          ∧ se_payload e = in_stringify I payload
          ∧ truthy (se_type e) = true
          ∧ json_truthy payload = true
      else w_stream w' = w_stream w.
Proof.
  cbv zeta.
  destruct (queue_task E I header body w) as [r w'] eqn:Hrun. cbn [fst snd].
  destruct (queue_task_outcome E I header body w r w' Hrun) as (resp & -> & Hresp).
  exists resp. split; [done|].
  destruct (http_status resp =? 200); [|done].
  destruct Hresp as (e & validation & fields & payload & H).
  exists e, validation, fields, payload. tauto.
Qed.

(** X20: what a service hands in comes out at the handler.  When the ingress
    accepts a task while the consumer group has caught up with the stream,
    and the payload survives serialising and parsing, the next turn of the
    consumer takes that record as a task with the service, tenant, type and
    payload of the request: it acknowledges the record exactly when the
    handler returns on that task, and leaves it pending exactly when the
    handler throws. *)
Theorem X20_accepted_task_reaches_the_handler
    (E : Env) (I : Ingress) (handle : WorkerTask → M unit)
    (Hf : handler_frame handle)
    (header : string → option string) (fields : list (string * json))
    (payload : json) (w : World) (resp : HttpResponse) :
  fst (queue_task E I header (Some (JObj fields)) w) = Ok resp →
  http_status resp = 200 →
  assoc "payload" fields = Some payload →
  env_json_parse E (in_stringify I payload) = Some payload →
  s_group (w_stream w) = true →
  s_delivered (w_stream w) = length (s_entries (w_stream w)) →
  let w1 := snd (queue_task E I header (Some (JObj fields)) w) in
  let w2 := snd (processQueue_turn E handle w1) in
  ∃ task,
    header "x-service-id" = Some (t_serviceId task)
    ∧ header "x-tenant-id" = Some (t_tenantId task)
    ∧ assoc "type" fields = Some (JStr (t_type task))
    ∧ t_payload task = payload
    ∧ fst (processQueue_turn E handle w1) = Ok tt
    ∧ (EvAck (t_id task) ∈ new_events w1 w2
       ↔ ∃ u, fst (handle task w1) = Ok u)
    ∧ (t_id task ∈ s_pending (w_stream w2)
       ↔ ∃ err, fst (handle task w1) = Throw err).
Proof.
  intros Hok H200 Hpayload Hparse Hgroup Hdelivered. cbv zeta.
  destruct (queue_task E I header (Some (JObj fields)) w) as [r w1] eqn:Hrun.
  cbn [fst snd] in *. subst r.
  destruct (queue_task_outcome E I header _ w _ w1 Hrun) as (resp' & [= <-] & Hresp).
  rewrite H200 in Hresp. cbn [Z.eqb Pos.eqb] in Hresp.
  destruct Hresp as (e & validation & fields' & payload' & Hentries & Hgroup' & Hdel
                     & Hpend & Hsid & Htid & _ & _ & _ & [= <-] & Htype & Hpayload'
                     & Hse & _).
  rewrite Hpayload in Hpayload'. injection Hpayload' as <-.
  assert (Hnext : next_record w1 = Some e).
  { unfold next_record. rewrite Hgroup', Hgroup, Hentries, Hdel, Hdelivered.
    by rewrite lookup_app_r, Nat.sub_diag by lia. }
  destruct (processQueue_turn_spec E handle Hf e w1 Hnext) as (Hturn & Hack & Hp).
  assert (Hres : handler_result E handle e w1
                 = Some (fst (handle (parsedTask e payload) w1))).
  { unfold handler_result. by rewrite Hse, Hparse. }
  rewrite Hres in Hack, Hp. clear Hres.
  set (task := parsedTask e payload) in *.
  exists task. repeat split; try done.
  - intros H. apply Hack in H.
    destruct (fst (handle task w1)) as [u|]; [by exists u|done].
  - intros [u Hu]. apply Hack. by rewrite Hu.
  - intros H. destruct (fst (handle task w1)) as [u|err] eqn:Hh;
      cbn [returned] in Hp; [done|]. by exists err.
  - intros [err Herr]. rewrite Herr in Hp. apply Hp.
Qed.

(** ** Session initiation *)

(** Token verification only writes to the trace. *)
Lemma validateUserIdentity_run E userId token w :
  ∃ r evs,
    validateUserIdentity E userId token w = (Ok r, with_trace w (w_trace w ++ evs)).
Proof.
  unfold validateUserIdentity, try_catch.
  unfold bind at 1. rewrite axios_verify_run.
  destruct (env_verify E token (w_now w)) as [r|e].
  - unfold bind at 1, body_of.
    destruct (ax_data r) as [b|].
    + unfold ret at 1.
      destruct (negb (ax_status r =? 200) || negb (jb_success b)); [by eexists _, _|].
      destruct (jb_data b ≫= jd_user) as [u|]; [|by eexists _, _].
      destruct (env_email_issue E (or_default (ju_email u) "")); by eexists _, _.
    + unfold throw at 1. unfold bind, console. rewrite emit_run, with_trace_twice.
      cbn [w_trace with_trace]. rewrite <- app_assoc.
      destruct (je_axios type_error); by eexists _, _.
  - unfold bind, console. rewrite emit_run, with_trace_twice.
    cbn [w_trace with_trace]. rewrite <- app_assoc.
    destruct (je_axios e); by eexists _, _.
Qed.

(** X21: session initiation never rejects, and it issues a session only to a
    verified token.  With a 200 the token of the request was verified, the
    answer names a session that validates for the user of the request and
    for nobody else and yields the tenant of the request.  With a 500 the
    token was verified and the document write failed: the session is live in
    the store although the answer does not name it.  With any other answer
    the store is as it was. *)
Theorem X21_session_issued_only_to_verified_token
    (E : Env) (fail : string → Z → option JsError)
    (header : string → option string) (w : World) :
  let w' := snd (session_initiate E fail header w) in
  ∃ resp,
    fst (session_initiate E fail header w) = Ok resp
    ∧ if (http_status resp =? 200) || (http_status resp =? 500) then
        ∃ userId tenantId authorization sessionId validation,
          header "x-user-id" = Some userId
          ∧ header "x-tenant-id" = Some tenantId
          ∧ header "authorization" = Some authorization
          ∧ fst (validateUserIdentity E userId
                   (replace_first "Bearer " "" authorization) w) = Ok validation
          ∧ iv_isValid validation = true
          ∧ (∀ other, fst (validateSession sessionId other w')
                      = Ok (bool_decide (other = userId)))
          ∧ fst (getTenantFromSession sessionId w') = Ok (Some tenantId)
          ∧ (if http_status resp =? 200
             then ∃ expiresAt, http_body resp = body_session sessionId expiresAt
             else http_body resp = body_error "Internal server error"
                  ∧ is_Some (fail sessionId (w_now w)))
      else w_redis w' = w_redis w.
Proof.
  cbv zeta.
  destruct (session_initiate E fail header w) as [r w'] eqn:Hrun. cbn [fst snd].
  revert Hrun. unfold session_initiate. cbv zeta.
  destruct (negb (present (header "x-user-id")) || negb (present (header "x-user-type"))
            || negb (present (header "x-tenant-id"))
            || negb (present (replace_first "Bearer " "" <$> header "authorization")))
    eqn:Hheaders; [intros [= <- <-]; eexists; split; reflexivity|].
  destruct (header "x-user-id") as [userId|] eqn:Huser; [|done].
  destruct (header "x-tenant-id") as [tenantId|] eqn:Htenant;
    [|cbn [present from_option negb] in Hheaders;
      by rewrite orb_true_r in Hheaders].
  destruct (header "authorization") as [authorization|] eqn:Hauth;
    [|cbn [present from_option negb fmap option_fmap option_map] in Hheaders;
      by rewrite orb_true_r in Hheaders].
  cbn [default from_option id fmap option_fmap option_map]. clear Hheaders.
  set (token := replace_first "Bearer " "" authorization).
  destruct (validateUserIdentity_run E userId token w) as (validation & evs & Hval).
  unfold try_catch at 1. unfold bind at 1. unfold try_catch at 1. unfold bind at 1.
  rewrite Hval.
  destruct (iv_isValid validation) eqn:Hvalid; cbn [negb].
  2:{ unfold ret. intros [= <- <-]. eexists; split; reflexivity. }
  unfold ret at 1. unfold bind at 1, uuidv7, bind at 1, fresh_counter, ret at 1.
  unfold bind at 1. rewrite storeSession_run. cbn [Z.leb Z.compare].
  set (sessionId := "session_" +:+ env_uuid E _).
  match goal with
  | |- context [with_redis ?w0 ?st] => set (store := st); set (wu := w0)
  end.
  assert (Hstore : storeSession sessionId userId tenantId 3600 wu
                   = (Ok tt, with_redis wu store)).
  { by rewrite storeSession_run. }
  assert (Hreads : ∀ w2 other,
            w_redis w2 = store → w_now w2 = w_now w →
            fst (validateSession sessionId other w2)
            = Ok (bool_decide (other = userId))
            ∧ fst (getTenantFromSession sessionId w2) = Ok (Some tenantId)).
  { intros w2 other Hredis Hclock.
    destruct (session_reads sessionId userId tenantId other 3600 wu _ w2
                Hstore Hredis) as [Hv Ht].
    assert (Hlt : (w_now w2 <? w_now wu + 3600) = true).
    { apply Z.ltb_lt. rewrite Hclock. cbn [w_now wu with_trace]. lia. }
    rewrite Hlt in Hv, Ht. by rewrite andb_true_r in Hv. }
  unfold bind at 1, get_world. unfold bind at 1, saveWebSocketSession, bind at 1, get_world.
  change (w_now (with_redis wu store)) with (w_now w).
  destruct (fail sessionId (w_now w)) as [e|] eqn:Hfail.
  - unfold throw at 1. unfold bind, console. rewrite emit_run. unfold ret.
    intros [= <- <-]. eexists; split; [reflexivity|].
    cbn [http_status Z.eqb Pos.eqb orb http_body].
    exists userId, tenantId, authorization, sessionId, validation.
    subst token. rewrite Hval. cbn [fst]. repeat split; try done.
    + intros other. by apply Hreads.
    + by apply (Hreads _ userId).
  - unfold ret. intros [= <- <-]. eexists; split; [reflexivity|].
    cbn [http_status Z.eqb Pos.eqb orb http_body].
    exists userId, tenantId, authorization, sessionId, validation.
    subst token. rewrite Hval. cbn [fst]. repeat split; try done.
    + intros other. by apply Hreads.
    + by apply (Hreads _ userId).
    + by eexists.
Qed.

(** ** The e-mail wrapper *)

Lemma set_add_elem seen email x :
  x ∈ set_add seen email ↔ x ∈ seen ∨ x = email.
Proof.
  unfold set_add. case_bool_decide as Hin.
  - split; [by left|]. intros [H| ->]; done.
  - rewrite elem_of_app, list_elem_of_singleton. tauto.
Qed.

Lemma set_add_NoDup seen email : NoDup seen → NoDup (set_add seen email).
Proof.
  intros Hseen. unfold set_add. case_bool_decide as Hin; [done|].
  apply NoDup_app. split_and!; [done| |apply NoDup_singleton].
  intros x Hx ->%list_elem_of_singleton. done.
Qed.

Lemma foldl_set_add emails : ∀ seen,
  NoDup seen →
  NoDup (foldl set_add seen emails)
  ∧ ∀ x, x ∈ foldl set_add seen emails ↔ x ∈ seen ∨ x ∈ emails.
Proof.
  induction emails as [|email emails IH]; intros seen Hseen; cbn [foldl].
  - split; [done|]. intros x. rewrite elem_of_nil. tauto.
  - destruct (IH (set_add seen email) (set_add_NoDup _ _ Hseen)) as [Hnd Hin].
    split; [done|]. intros x. rewrite Hin, set_add_elem, elem_of_cons. tauto.
Qed.

Lemma allRecipients_from paramsList : ∀ seen,
  NoDup seen →
  let all := foldl (λ seen params, foldl set_add seen (recipients_of (ep_to params)))
                   seen paramsList in
  NoDup all
  ∧ ∀ x, x ∈ all ↔ x ∈ seen ∨ ∃ params, params ∈ paramsList
                                         ∧ x ∈ recipients_of (ep_to params).
Proof.
  induction paramsList as [|params rest IH]; intros seen Hseen; cbn [foldl].
  - split; [done|]. intros x. split; [by left|].
    intros [H|(p & Hp & _)]; [done|by apply elem_of_nil in Hp].
  - destruct (foldl_set_add (recipients_of (ep_to params)) seen Hseen) as [Hnd Hin].
    destruct (IH _ Hnd) as [Hnd' Hin']. split; [done|].
    intros x. rewrite Hin', Hin. split.
    + intros [[H|H]|(p & Hp & Hx)]; [by left| |].
      * right. exists params. split; [apply list_elem_of_here|done].
      * right. exists p. split; [by apply list_elem_of_further|done].
    + intros [H|(p & Hp & Hx)]; [by left; left|].
      apply elem_of_cons in Hp as [->|Hp]; [by left; right|].
      right. by exists p.
Qed.

(** X22: a batch is one request that carries the content of the first
    e-mail only.  With a client other than Zoho and an API key set, a
    non-empty batch posts exactly one request: its recipients are the
    addresses of all the e-mails of the batch, each once, and its subject,
    body and text are those of the first e-mail, whatever the others say. *)
Theorem X22_batch_sends_first_content_to_everyone
    (V : MailEnv) (client : string) (first : EmailParams) (rest : list EmailParams) :
  String.eqb client "zoho" = false →
  present (BREVO_API_KEY V) = true →
  ∃ request,
    sendBatchEmail V (first :: rest) client
    = (match axios_post V request with
       | Ok data => Ok (batch_answer (Some data))
       | Throw e => Throw e
       end, [MailPost request])
    ∧ NoDup (br_to request)
    ∧ (∀ email, email ∈ br_to request
                ↔ ∃ params, params ∈ first :: rest
                            ∧ email ∈ recipients_of (ep_to params))
    ∧ br_subject request = ep_subject first
    ∧ br_htmlContent request = ep_html first
    ∧ br_textContent request = ep_text first
    ∧ BREVO_API_KEY V = Some (br_api_key request).
Proof.
  intros Hclient Hkey.
  destruct (allRecipients_from (first :: rest) [] (NoDup_nil_2)) as [Hnd Hin].
  exists {| br_api_key := default "" (BREVO_API_KEY V);
            br_sender_email := or_default (FROM_EMAIL V) "noreply@schoolpilot.com";
            br_to := allRecipients (first :: rest);
            br_subject := ep_subject first;
            br_htmlContent := ep_html first;
            br_textContent := ep_text first;
            br_attachment := brevo_attachments (ep_attachments first) |}.
  split.
  - unfold sendBatchEmail, emailService_for. rewrite Hclient, Hkey. cbn [negb].
    unfold mail_bind at 1, mail_ret at 1. cbn [svc_sendBatch BrevoService].
    unfold BrevoService_sendBatch, mail_post, mail_bind, mail_ret.
    destruct (axios_post V _); reflexivity.
  - cbn [br_to br_subject br_htmlContent br_textContent br_api_key].
    split_and!; try done.
    + intros email. unfold allRecipients. rewrite Hin, elem_of_nil. tauto.
    + revert Hkey. unfold present. by destruct (BREVO_API_KEY V).
Qed.

(** X23: nothing is posted through Zoho or without an API key.  With client
    [zoho], or with no [BREVO_API_KEY], both [sendEmail] and [sendBatchEmail]
    reject and post no request; otherwise [sendEmail] posts exactly one
    request, to the recipients of its e-mail, and answers what the post
    answered. *)
Theorem X23_mail_leaves_only_through_brevo
    (V : MailEnv) (params : EmailParams) (paramsList : list EmailParams)
    (client : string) :
  if String.eqb client "zoho" || negb (present (BREVO_API_KEY V)) then
    (∃ e, fst (sendEmail V params client) = Throw e)
    ∧ filter is_post (snd (sendEmail V params client)) = []
    ∧ (∃ e, fst (sendBatchEmail V paramsList client) = Throw e)
    ∧ filter is_post (snd (sendBatchEmail V paramsList client)) = []
  else
    ∃ request,
      sendEmail V params client = (axios_post V request, [MailPost request])
      ∧ br_to request = recipients_of (ep_to params)
      ∧ br_subject request = ep_subject params
      ∧ br_htmlContent request = ep_html params
      ∧ BREVO_API_KEY V = Some (br_api_key request).
Proof.
  unfold sendEmail, sendBatchEmail, emailService_for.
  destruct (String.eqb client "zoho"); cbn [orb].
  - destruct (negb (present (ZOHO_CLIENT_ID V)) || negb (present (ZOHO_CLIENT_SECRET V))
              || negb (present (ZOHO_REFRESH_TOKEN V)));
      cbv [mail_bind mail_throw mail_ret svc_send svc_sendBatch ZohoService
           ZohoService_send ZohoService_sendBatch mail_warn fst snd app];
      repeat split; by eexists.
  - destruct (present (BREVO_API_KEY V)) eqn:Hkey; cbn [negb].
    + exists {| br_api_key := default "" (BREVO_API_KEY V);
                br_sender_email :=
                  or_default (BREVO_FROM_EMAIL V) "noreply@schoolpilot.com";
                br_to := recipients_of (ep_to params);
                br_subject := ep_subject params;
                br_htmlContent := ep_html params;
                br_textContent := ep_text params;
                br_attachment := brevo_attachments (ep_attachments params) |}.
      split.
      * unfold mail_bind, mail_ret. cbn [svc_send BrevoService].
        unfold BrevoService_send, mail_post. by destruct (axios_post V _).
      * cbn [br_to br_subject br_htmlContent br_api_key]. split_and!; try done.
        revert Hkey. unfold present. by destruct (BREVO_API_KEY V).
    + cbv [mail_bind mail_throw fst snd]. repeat split; by eexists.
Qed.

(** ** Worked instances *)

(** The session of staff:7 validates for staff:7, not for guardian:42, and
    yields tenant t1. *)
Lemma X1_session_of_staff_7 :
  let w1 := snd (storeSession "session_1" "staff:7" "t1" 3600 world0) in
  fst (validateSession "session_1" "staff:7" w1) = Ok true
  ∧ fst (validateSession "session_1" "guardian:42" w1) = Ok false
  ∧ fst (getTenantFromSession "session_1" w1) = Ok (Some "t1").
Proof.
  cbv zeta.
  pose proof (X1_session_round_trip "session_1" "staff:7" "t1" "staff:7" 3600 world0
                (snd (storeSession "session_1" "staff:7" "t1" 3600 world0))
                (snd (storeSession "session_1" "staff:7" "t1" 3600 world0))
                eq_refl eq_refl) as [Hself Htenant].
  pose proof (X1_session_round_trip "session_1" "staff:7" "t1" "guardian:42" 3600
                world0
                (snd (storeSession "session_1" "staff:7" "t1" 3600 world0))
                (snd (storeSession "session_1" "staff:7" "t1" 3600 world0))
                eq_refl eq_refl) as [Hother _].
  exact (conj Hself (conj Hother Htenant)).
Defined.

(** The id [tenant:session_1] validates for the "user" t1. *)
Lemma X2_tenant_as_user :
  fst (validateSession "tenant:session_1" "t1"
         (snd (storeSession "session_1" "staff:7" "t1" 3600 world0))) = Ok true.
Proof.
  exact (X2_tenant_key_validates_as_session "session_1" "staff:7" "t1" 3600 world0
           (snd (storeSession "session_1" "staff:7" "t1" 3600 world0))
           (snd (storeSession "session_1" "staff:7" "t1" 3600 world0))
           eq_refl eq_refl eq_refl).
Defined.

(** After [removeSession] the session of staff:7 no longer validates. *)
Lemma X3_removed_session :
  let w1 := snd (storeSession "session_1" "staff:7" "t1" 3600 world0) in
  let w2 := snd (removeSession "session_1" "staff:7" w1) in
  fst (validateSession "session_1" "staff:7" w2) = Ok false
  ∧ fst (getTenantFromSession "session_1" w2) = Ok None.
Proof.
  cbv zeta.
  exact (proj2 (X3_removeSession_revokes "session_1" "staff:7" "staff:7"
                  (snd (storeSession "session_1" "staff:7" "t1" 3600 world0))
                  (snd (removeSession "session_1" "staff:7"
                          (snd (storeSession "session_1" "staff:7" "t1" 3600 world0))))
                  eq_refl)).
Defined.

Lemma room_r1_members : room_members world_room "r1" = Some r1_members.
Proof. reflexivity. Qed.

(** staff:7 joins room r1 and is listed with its two members. *)
Lemma X4_staff_joins_r1 :
  fst (getUsersInRoom "r1" (snd (addUserToRoom "staff:7" "r1" 3600 world_room)))
  = Ok (elements ({[ "staff:7" ]} ∪ r1_members)).
Proof.
  exact (proj2 (X4_room_add_then_list "staff:7" "r1" 3600 world_room
                  (snd (addUserToRoom "staff:7" "r1" 3600 world_room))
                  r1_members room_r1_members eq_refl eq_refl)).
Defined.

(** staff:7, who is in room r2, is removed from room r1, where she is not:
    r1 keeps its members and the record of her room is deleted. *)
Lemma X5_pointer_is_dropped :
  let w' := snd (removeUserFromRoom "staff:7" "r1" world_pointer) in
  room_members w' "r1" = Some (r1_members ∖ {[ "staff:7" ]})
  ∧ w_redis world_pointer !! "user:room:staff:7"
    = Some {| r_val := RStr "r2"; r_expire := Some 4600 |}
  ∧ w_redis w' !! "user:room:staff:7" = None.
Proof.
  pose proof (X5_room_remove "staff:7" "r1" world_pointer r1_members eq_refl)
    as (_ & Hmembers & Hpointer & _).
  exact (conj Hmembers (conj eq_refl Hpointer)).
Defined.

(** A director cannot create a room that holds a student. *)
Lemma X6_director_room_with_student :
  ∃ reason,
    createGroupRoom env_up "director:1" director "t1" "Class 3"
      [ {| p_id := "student:9"; p_type := student |} ] world0
    = (Ok {| rr_success := false; rr_roomId := None; rr_error := Some reason |},
       world0).
Proof.
  apply (X6_group_room_refusal env_up "director:1" director "t1" "Class 3"
           [ {| p_id := "student:9"; p_type := student |} ] world0
           {| p_id := "student:9"; p_type := student |}).
  - apply list_elem_of_here.
  - left. split; reflexivity.
Defined.

(** A staff member creates a room of a director and a student. *)
Lemma X7_staff_room :
  room_members
    (snd (createGroupRoom env_up "staff:7" staff "t1" "Class 3" class_of_two world0))
    "room_0192-0001"
  = Some (list_to_set (p_id <$> class_of_two) ∪ ∅).
Proof.
  refine (proj2 (X7_group_room_members env_up "staff:7" staff "t1" "Class 3"
                   class_of_two world0 ∅ _ eq_refl)).
  intros p _ [[H _]|[H _]]; discriminate H.
Defined.

(** In the room a staff member created, the director's group frame is
    published to the student. *)
Lemma X8_director_reaches_student :
  let w1 := snd (createGroupRoom env_new_room "staff:7" staff "t1" "Class 3"
                   class_of_two world0) in
  "user:student:9"
    ∈ published_channels
        (new_events w1 (snd (on_message env_new_room director_socket "hello" w1))).
Proof.
  refine (X8_group_room_bypasses_policy env_new_room "staff:7" staff "t1" "Class 3"
            class_of_two world0 ∅ "director:1" "student:9" director_socket "hello"
            {| f_type := "group"; f_recipientId := "room_0192-0001";
               f_content := "see you at noon"; f_subject := None;
               f_mediaUrls := None |}
            (or_introl eq_refl) _ _ eq_refl eq_refl eq_refl _ eq_refl eq_refl eq_refl).
  - apply list_elem_of_here.
  - apply list_elem_of_further, list_elem_of_here.
  - discriminate.
Defined.

(** The upgrade of the hash session, with a request that is stale once the
    handler has returned: the connection is closed. *)
Lemma X13_hash_session_is_closed :
  new_events world_hash_session
    (snd (upgrade (upgrade_request "session_9") world_hash_session))
  = [EvLog lvl_error "Error during WebSocket upgrade:"; EvClose].
Proof.
  exact (X13_upgrade_hangs_on_late_reads (upgrade_request "session_9") "session_9"
           "staff:7" "tok"
           (<[ "userId" := "staff:7" ]>
              (<[ "userType" := "staff" ]> {[ "tenantId" := "t1" ]}))
           world_hash_session eq_refl eq_refl eq_refl eq_refl eq_refl eq_refl eq_refl).
Defined.

(** The verdict for service [a:b] of tenant [c] answers for service [a] of
    tenant [b:c]. *)
Lemma X16_colon_in_the_service_id :
  let w2 := snd (validateServiceViaGateway env_up "a:b" "c" world0) in
  validateServiceViaGateway env_down "a" "b:c" w2 = (Ok (valid_result "b:c"), w2).
Proof.
  exact (X16_valid_verdict_shared_by_key env_up env_down "a:b" "c" "a" "b:c" world0
           (snd (validateServiceViaGateway env_up "a:b" "c" world0))
           eq_refl eq_refl eq_refl eq_refl eq_refl).
Defined.

(** The record read and never acknowledged is still pending three turns
    later. *)
Lemma X17_stale_record_stays :
  "1700000000000-0"
    ∈ s_pending (w_stream (snd (processQueue_turns env_up (handleTask env_up) 3
                                  world_stale))).
Proof.
  refine (proj1 (X17_unacknowledged_record_is_never_retried env_up 3 world_stale
                   "1700000000000-0" _ _)).
  - change ("1700000000000-0" ∈ ({[ "1700000000000-0" ]} : gset string)).
    by apply elem_of_singleton.
  - intros m Hm. by apply elem_of_nil in Hm.
Defined.

(** An e-mail task of service athena is queued and, on the next turn of the
    consumer, handled and acknowledged. *)
Lemma X20_email_task_round_trip :
  let w1 := snd (queue_task env_up demo_ingress athena_headers
                   (Some (JObj email_task_body)) world_idle) in
  let w2 := snd (processQueue_turn env_up (handleTask env_up) w1) in
  ∃ task,
    athena_headers "x-service-id" = Some (t_serviceId task)
    ∧ athena_headers "x-tenant-id" = Some (t_tenantId task)
    ∧ assoc "type" email_task_body = Some (JStr (t_type task))
    ∧ t_payload task = JObj []
    ∧ fst (processQueue_turn env_up (handleTask env_up) w1) = Ok tt
    ∧ (EvAck (t_id task) ∈ new_events w1 w2
       ↔ ∃ u, fst (handleTask env_up task w1) = Ok u)
    ∧ (t_id task ∈ s_pending (w_stream w2)
       ↔ ∃ err, fst (handleTask env_up task w1) = Throw err).
Proof.
  exact (X20_accepted_task_reaches_the_handler env_up demo_ingress (handleTask env_up)
           (handleTask_frame env_up) athena_headers email_task_body (JObj [])
           world_idle
           {| http_status := 200;
              http_body := body_task_queued "task_1700000000000_abc" |}
           eq_refl eq_refl eq_refl eq_refl eq_refl eq_refl).
Defined.

(** Two e-mails sent as a batch: Ada's report goes to Bob as well, once, and
    the reminder is not sent. *)
Lemma X22_report_and_reminder :
  ∃ request,
    sendBatchEmail mail_env [report_mail; reminder_mail] "brevo"
    = (match axios_post mail_env request with
       | Ok data => Ok (batch_answer (Some data))
       | Throw e => Throw e
       end, [MailPost request])
    ∧ NoDup (br_to request)
    ∧ (∀ email, email ∈ br_to request
                ↔ ∃ params, params ∈ [report_mail; reminder_mail]
                            ∧ email ∈ recipients_of (ep_to params))
    ∧ br_subject request = "Report for Ada"
    ∧ br_htmlContent request = "<p>Ada did well</p>"
    ∧ br_textContent request = None
    ∧ BREVO_API_KEY mail_env = Some (br_api_key request).
Proof.
  exact (X22_batch_sends_first_content_to_everyone mail_env "brevo" report_mail
           [reminder_mail] eq_refl eq_refl).
Defined.
